(** * Document-processing pipeline: upload, store, extract, AI-process.

    A shallow embedding of the Python service under
    [ai-service/backend/app]: the settings ([core/config.py]), the
    object-store service ([services/storage.py]), the PDF text extractor
    ([services/pdf_extractor.py]), the AI processor
    ([services/ai_processor.py]) and the upload handler
    ([api/routes/documents.py]).

    Python strings are lists of characters; a character is a code point
    below 256.  Exceptions are the instances of Python's [Exception]
    class.  Code that performs I/O runs in a monad that threads a state
    (the event log, the position of the upload stream, the identifier
    counter) and returns either a value or a raised exception; the state
    survives a raise, as the effects of a Python call do.  The external
    libraries (MinIO client, pypdf, the LLM client, [json], [uuid]) are
    the fields of a record of capabilities. *)

From Stdlib Require Import List Ascii String NArith ZArith Arith Lia Bool.
From Stdlib Require Import DecimalString.
Import ListNotations.

Set Implicit Arguments.

(* ===================================================================== *)
(** ** Python strings *)
(* ===================================================================== *)

Module Py.

Definition str := list ascii.
Definition bytes := list Byte.byte.

(** A literal of the source. *)
Definition py (s : string) : str := list_ascii_of_string s.

Definition chr (n : nat) : ascii := ascii_of_nat n.
Definition NL : ascii := chr 10.
Definition DQ : ascii := chr 34.

(** [bool(s)] for a string, a list, a bytes object. *)
Definition truthy {A : Type} (l : list A) : bool :=
  match l with [] => false | _ :: _ => true end.

Fixpoint str_eqb (a b : str) : bool :=
  match a, b with
  | [], [] => true
  | x :: a', y :: b' => Ascii.eqb x y && str_eqb a' b'
  | _, _ => false
  end.

(** [str.isspace] on one character: the code points below 256 that Python
    classifies as whitespace. *)
Definition isspace (c : ascii) : bool :=
  let n := nat_of_ascii c in
  ((9 <=? n) && (n <=? 13)) || ((28 <=? n) && (n <=? 32))
  || (n =? 133) || (n =? 160).

Fixpoint lstrip (s : str) : str :=
  match s with
  | [] => []
  | c :: s' => if isspace c then lstrip s' else s
  end.

Definition rstrip (s : str) : str := rev (lstrip (rev s)).

(** [s.strip()] *)
Definition strip (s : str) : str := rstrip (lstrip s).

(** [s.startswith(p)] *)
Fixpoint startswith (p s : str) : bool :=
  match p, s with
  | [], _ => true
  | _ :: _, [] => false
  | x :: p', y :: s' => Ascii.eqb x y && startswith p' s'
  end.

(** [s.endswith(p)] *)
Definition endswith (p s : str) : bool := startswith (rev p) (rev s).

(** [s.endswith(tuple(ps))] *)
Definition endswith_any (ps : list str) (s : str) : bool :=
  existsb (fun p => endswith p s) ps.

(** [chr.lower()] on the code points below 256. *)
Definition lower_char (c : ascii) : ascii :=
  let n := nat_of_ascii c in
  if ((65 <=? n) && (n <=? 90))
     || ((192 <=? n) && (n <=? 222) && negb (n =? 215))
  then ascii_of_nat (n + 32) else c.

Definition lower (s : str) : str := map lower_char s.

(** [sep.join(parts)] *)
Fixpoint join (sep : str) (parts : list str) : str :=
  match parts with
  | [] => []
  | [p] => p
  | p :: rest => p ++ sep ++ join sep rest
  end.

(** [s.split(c)] for a one-character separator: never an empty list. *)
Fixpoint split (c : ascii) (s : str) : list str :=
  match s with
  | [] => [[]]
  | x :: s' =>
      if Ascii.eqb x c then [] :: split c s'
      else match split c s' with
           | [] => [[x]]
           | w :: ws => (x :: w) :: ws
           end
  end.

(** [os.path.basename(p)]: what follows the last slash. *)
Definition basename (p : str) : str := last (split (chr 47) p) [].

(** [s[n:]] and [s[:n]] for [n >= 0], [s[:-n]]. *)
Definition slice_from (n : nat) (s : str) : str := skipn n s.
Definition slice_to (n : nat) (s : str) : str := firstn n s.
Definition slice_drop_last (n : nat) (s : str) : str :=
  firstn (List.length s - n) s.

(** [str(n)] for a natural number. *)
Definition str_of_N (n : N) : str :=
  py (NilEmpty.string_of_uint (N.to_uint n)).

End Py.
Import Py.

(* ===================================================================== *)
(** ** Exceptions, results, and the monad of effectful code *)
(* ===================================================================== *)

(** The instances of [Exception] that the service and its libraries raise.
    [S3Error] is a subclass of [MinioException] and [JSONDecodeError] a
    subclass of [ValueError]; every other class stands alone.  [text] is
    what [str(e)] returns. *)
Inductive exc : Type :=
| S3Error (code text : str)
| MinioException (text : str)
| HTTPException (status_code : N) (detail : str)
| PdfReadError (text : str)
| NotImplementedError (text : str)
| ValueError (text : str)
| IndexError (text : str)
| JSONDecodeError (msg : str) (lineno colno pos : N)
| AttributeError (text : str)
| PdfNotFoundError (text : str)
| PdfExtractionError (text : str)
| AIConfigurationError (text : str)
| AIProcessingError (text : str)
| OtherException (class_name text : str).

(** [str(e)] *)
Definition exc_str (e : exc) : str :=
  match e with
  | S3Error _ t | MinioException t | PdfReadError t | NotImplementedError t
  | ValueError t | IndexError t | AttributeError t | PdfNotFoundError t
  | PdfExtractionError t | AIConfigurationError t | AIProcessingError t
  | OtherException _ t => t
  | HTTPException c d => str_of_N c ++ py ": " ++ d
  | JSONDecodeError m l c p =>
      m ++ py ": line " ++ str_of_N l ++ py " column " ++ str_of_N c
        ++ py " (char " ++ str_of_N p ++ py ")"
  end.

(** [isinstance(e, C)] for the classes named in [except] clauses. *)
Definition is_S3Error (e : exc) : bool :=
  match e with S3Error _ _ => true | _ => false end.
Definition is_MinioException (e : exc) : bool :=
  match e with S3Error _ _ | MinioException _ => true | _ => false end.
Definition is_HTTPException (e : exc) : bool :=
  match e with HTTPException _ _ => true | _ => false end.
Definition is_PdfReadError (e : exc) : bool :=
  match e with PdfReadError _ => true | _ => false end.
Definition is_NotImplementedError (e : exc) : bool :=
  match e with NotImplementedError _ => true | _ => false end.
Definition is_ValueError (e : exc) : bool :=
  match e with ValueError _ | JSONDecodeError _ _ _ _ => true | _ => false end.
Definition is_IndexError (e : exc) : bool :=
  match e with IndexError _ => true | _ => false end.
Definition is_JSONDecodeError (e : exc) : bool :=
  match e with JSONDecodeError _ _ _ _ => true | _ => false end.
Definition is_PdfNotFoundError (e : exc) : bool :=
  match e with PdfNotFoundError _ => true | _ => false end.
Definition is_PdfExtractionError (e : exc) : bool :=
  match e with PdfExtractionError _ => true | _ => false end.
Definition is_AIConfigurationError (e : exc) : bool :=
  match e with AIConfigurationError _ => true | _ => false end.

(** [e.code] of an [S3Error], [e.detail] of an [HTTPException]. *)
Definition s3_code (e : exc) : str :=
  match e with S3Error c _ => c | _ => [] end.
Definition http_detail (e : exc) : str :=
  match e with HTTPException _ d => d | _ => [] end.

(** The outcome of a call: a value, or a raised exception. *)
Inductive res (A : Type) : Type :=
| Ok (a : A)
| Raise (e : exc).
Arguments Ok {A} a.
Arguments Raise {A} e.

(** Messages sent to the chat model, and the content of its reply: a
    string, or a list of parts (which has no [strip]). *)
Inductive Message : Type :=
| SystemMessage (content : str)
| HumanMessage (content : str).

Inductive Content : Type :=
| Text (s : str)
| Parts (ps : list str).

(** What a request does to the outside world, in order. *)
Inductive Event : Type :=
| FileRead
| FileSeek (offset : nat)
| StoreFile (filename : option str)
| PutObject (bucket object_name : str) (length : N) (content_type : str)
| GetObject (bucket object_name : str)
| Acquired (conn : nat)
| ReadBody (conn : nat)
| Closed (conn : nat)
| Released (conn : nat)
| Invoke (messages : list Message).

Record State : Type := mkState {
  log : list Event;        (* events so far, oldest first *)
  file_pos : nat;          (* read position of the upload stream *)
  file_ops : nat;          (* operations performed on the upload stream *)
  uuids_drawn : nat        (* calls of uuid.uuid4() so far *)
}.

Definition emit (ev : Event) (st : State) : State :=
  mkState (log st ++ [ev]) (file_pos st) (file_ops st) (uuids_drawn st).

(** The state at the start of a request: nothing logged, the upload
    stream at its start, [n] identifiers drawn so far. *)
Definition request_start (n : nat) : State := mkState [] 0 0 n.

Definition M (A : Type) : Type := State -> res A * State.

Definition ret {A} (a : A) : M A := fun st => (Ok a, st).
Definition raise {A} (e : exc) : M A := fun st => (Raise e, st).
Definition bind {A B} (m : M A) (k : A -> M B) : M B :=
  fun st =>
    match m st with
    | (Ok a, st') => k a st'
    | (Raise e, st') => (Raise e, st')
    end.

(** A pure call that may raise, and an effect recorded in the log. *)
Definition lift {A} (r : res A) : M A := fun st => (r, st).
Definition tell (ev : Event) : M unit := fun st => (Ok tt, emit ev st).

(** [try: m  except Exception as e: h e] *)
Definition try_except {A} (m : M A) (h : exc -> M A) : M A :=
  fun st =>
    match m st with
    | (Ok a, st') => (Ok a, st')
    | (Raise e, st') => h e st'
    end.

(** [try: m  finally: f] *)
Definition try_finally {A} (m : M A) (f : M unit) : M A :=
  fun st =>
    match m st with
    | (r, st') =>
        match f st' with
        | (Ok _, st'') => (r, st'')
        | (Raise e, st'') => (Raise e, st'')
        end
    end.

(** The outcome of [m] as a value, for a [try] whose [except] clause
    returns from the enclosing function. *)
Definition attempt {A} (m : M A) : M (res A) :=
  fun st => match m st with (r, st') => (Ok r, st') end.

Declare Scope py_scope.
Delimit Scope py_scope with py.
Notation "x <- m ;; k" := (bind m (fun x => k))
  (at level 61, m at next level, right associativity) : py_scope.
Notation "m ;; k" := (bind m (fun _ => k))
  (at level 61, right associativity) : py_scope.
Local Open Scope py_scope.

(* ===================================================================== *)
(** ** Data model *)
(* ===================================================================== *)

(** Identifiers of the [uuid] module. *)
Definition UUID := N.

(** A decoded JSON value, as [json.loads] returns it; [JNull] is Python's
    [None], which is also what an unset optional field holds.  A float is
    kept as its literal. *)
#[local] Unset Elimination Schemes.
Inductive json : Type :=
| JNull
| JBool (b : bool)
| JInt (z : Z)
| JFloat (literal : str)
| JStr (s : str)
| JArr (items : list json)
| JObj (members : list (str * json)).
#[local] Set Elimination Schemes.

(** [core/config.py], the fields the pipeline reads. *)
Record Settings : Type := mkSettings {
  MINIO_BUCKET_NAME : str;
  MAX_UPLOAD_SIZE : N;
  ALLOWED_EXTENSIONS : list str;
  GOOGLE_API_KEY : option str;
  AI_MODEL_NAME : str
}.

(** The values [Settings] takes when the environment sets none, with the
    given API key. *)
Definition default_settings (key : option str) : Settings :=
  mkSettings (py "pdfs") (10 * 1024 * 1024) [py "pdf"] key
             (py "gemini-2.0-flash").

(** Starlette's [UploadFile]: the name and content type the client sent
    and the spooled body.  [fault n] is the exception, if any, that the
    [n]-th operation on the stream raises. *)
Record UploadFile : Type := mkUploadFile {
  filename : option str;
  content_type : option str;
  body : bytes;
  fault : nat -> option exc
}.

(** urllib3's response object returned by [get_object]: the connection it
    holds and the outcome of [read()]. *)
Record HTTPResponse : Type := mkHTTPResponse {
  conn : nat;
  read : res bytes
}.

(** pypdf's reader: [pages] is the outcome of walking [reader.pages], each
    page carrying the outcome of its [extract_text()]. *)
Record PdfReader : Type := mkPdfReader {
  is_encrypted : bool;
  decrypt : str -> res bool;
  pages : res (list (res str))
}.

(** LangChain's chat model. *)
Record ChatModel : Type := mkChatModel {
  invoke : list Message -> res Content
}.

(** The libraries the service calls. *)
Record Backends : Type := mkBackends {
  uuid4 : nat -> UUID;
  uuid_str : UUID -> str;
  UUID_of_str : str -> res UUID;
  put_object : str -> str -> bytes -> N -> str -> res unit;
  get_object : str -> str -> res HTTPResponse;
  pypdf_PdfReader : bytes -> res PdfReader;
  ChatGoogleGenerativeAI : str -> str -> res ChatModel;
  json_loads : str -> res json
}.

(** Modelled from the spec: [app/models/ai.py] is not among the sources.
    The request carries the three arguments of [process]; the response is
    the ProcessingResult of the data model, whose optional fields default
    to [None]. *)
Record AIProcessingRequest : Type := mkRequest {
  req_document_id : UUID;
  pdf_content : str;
  system_prompt : str
}.

Record AIProcessingResponse : Type := mkResponse {
  document_id : UUID;
  status : str;
  ai_structured_output : json;
  model_used : str;
  error_message : option str
}.

(* ===================================================================== *)
(** ** The services *)
(* ===================================================================== *)

Section Pipeline.

Variable settings : Settings.
Variable B : Backends.

(** [uuid.uuid4()] *)
Definition uuid_uuid4 : M UUID :=
  fun st =>
    (Ok (uuid4 B (uuids_drawn st)),
     mkState (log st) (file_pos st) (file_ops st) (S (uuids_drawn st))).

(** [await file.read()]: the rest of the body from the current position. *)
Definition file_read (file : UploadFile) : M bytes :=
  fun st =>
    let st1 := mkState (log st ++ [FileRead]) (file_pos st)
                       (S (file_ops st)) (uuids_drawn st) in
    match fault file (file_ops st) with
    | Some e => (Raise e, st1)
    | None =>
        (Ok (skipn (file_pos st) (body file)),
         mkState (log st1) (Nat.max (file_pos st) (List.length (body file)))
                 (file_ops st1) (uuids_drawn st1))
    end.

(** [await file.seek(offset)] *)
Definition file_seek (file : UploadFile) (offset : nat) : M unit :=
  fun st =>
    let st1 := mkState (log st ++ [FileSeek offset]) (file_pos st)
                       (S (file_ops st)) (uuids_drawn st) in
    match fault file (file_ops st) with
    | Some e => (Raise e, st1)
    | None =>
        (Ok tt, mkState (log st1) offset (file_ops st1) (uuids_drawn st1))
    end.

(** *** services/storage.py *)

(** [MinioStorageService.store_file] *)
Definition store_file (file : UploadFile) : M (str * N) :=
  tell (StoreFile (filename file)) ;;
  let file_extension :=
    match filename file with
    | Some name => if truthy name then last (split (chr 46) name) []
                   else py "pdf"
    | None => py "pdf"
    end in
  u <- uuid_uuid4 ;;
  let object_name := uuid_str B u ++ py "." ++ file_extension in
  let storage_path := MINIO_BUCKET_NAME settings ++ py "/" ++ object_name in
  file_content <- file_read file ;;
  let file_size := N.of_nat (List.length file_content) in
  try_except
    (tell (PutObject (MINIO_BUCKET_NAME settings) object_name file_size
             (match content_type file with
              | Some ct => if truthy ct then ct else py "application/pdf"
              | None => py "application/pdf"
              end)) ;;
     lift (put_object B (MINIO_BUCKET_NAME settings) object_name
             file_content file_size
             (match content_type file with
              | Some ct => if truthy ct then ct else py "application/pdf"
              | None => py "application/pdf"
              end)) ;;
     ret (storage_path, file_size))
    (fun err =>
       if is_MinioException err then
         raise (HTTPException 500
                  (py "Storage service error: " ++ exc_str err))
       else raise err).

(** *** services/pdf_extractor.py *)

(** The [except] clauses of the fetch. *)
Definition fetch_except (object_name : str) (e : exc) : M bytes :=
  if is_S3Error e then
    if str_eqb (s3_code e) (py "NoSuchKey") then
      raise (PdfNotFoundError
               (py "PDF object '" ++ object_name
                ++ py "' not found in bucket '"
                ++ MINIO_BUCKET_NAME settings ++ py "'."))
    else
      raise (HTTPException 500
               (py "Storage error retrieving PDF: " ++ s3_code e))
  else if is_MinioException e then
    raise (HTTPException 503
             (py "Storage service connection error: " ++ exc_str e))
  else
    raise (HTTPException 500 (py "Unexpected error retrieving PDF file.")).

(** The [finally] clause of the fetch: [response] is [None] until
    [get_object] has returned.  Closing a response and releasing its
    connection do not raise. *)
Definition fetch_finally (response : option HTTPResponse) : M unit :=
  match response with
  | Some r => tell (Closed (conn r)) ;; tell (Released (conn r))
  | None => ret tt
  end.

(** Step 1 of [extract_text_from_pdf]: fetch the bytes of the object. *)
Definition fetch_pdf_data (object_name : str) : M bytes :=
  tell (GetObject (MINIO_BUCKET_NAME settings) object_name) ;;
  match get_object B (MINIO_BUCKET_NAME settings) object_name with
  | Raise e =>
      try_finally (fetch_except object_name e) (fetch_finally None)
  | Ok response =>
      try_finally
        (try_except
           (tell (Acquired (conn response)) ;;
            tell (ReadBody (conn response)) ;;
            lift (read response))
           (fetch_except object_name))
        (fetch_finally (Some response))
  end.

(** The page loop: a page whose [extract_text()] raises is skipped, a
    page with text contributes the text stripped. *)
Fixpoint extract_pages (ps : list (res str)) (extracted_texts : list str)
  : list str :=
  match ps with
  | [] => extracted_texts
  | Ok page_text :: rest =>
      if truthy page_text
      then extract_pages rest (extracted_texts ++ [strip page_text])
      else extract_pages rest extracted_texts
  | Raise _ :: rest => extract_pages rest extracted_texts
  end.

(** Step 3 of [extract_text_from_pdf]: the body of the [try]. *)
Definition read_pdf (object_name : str) (pdf_data : bytes) : M (list str) :=
  reader <- lift (pypdf_PdfReader B pdf_data) ;;
  (if is_encrypted reader then
     try_except
       (ok <- lift (decrypt reader []) ;;
        if negb ok then
          raise (PdfExtractionError
                   (py "PDF '" ++ object_name
                    ++ py "' is encrypted and password protected."))
        else ret tt)
       (fun e =>
          if is_NotImplementedError e then
            raise (PdfExtractionError
                     (py "PDF '" ++ object_name
                      ++ py "' uses unsupported encryption."))
          else raise e)
   else ret tt) ;;
  ps <- lift (pages reader) ;;
  ret (extract_pages ps []).

(** [PdfExtractorService.extract_text_from_pdf] *)
Definition extract_text_from_pdf (object_name : str) : M str :=
  pdf_data <- fetch_pdf_data object_name ;;
  if negb (truthy pdf_data) then
    raise (PdfExtractionError
             (py "Failed to retrieve valid data for PDF '" ++ object_name
              ++ py "'."))
  else
    extracted_texts <-
      try_finally
        (try_except
           (read_pdf object_name pdf_data)
           (fun e =>
              if is_PdfReadError e then
                raise (PdfExtractionError
                         (py "Failed to read PDF '" ++ object_name
                          ++ py "'. It might be corrupted or not a valid PDF. Error: "
                          ++ exc_str e))
              else
                raise (PdfExtractionError
                         (py "Unexpected error processing PDF '"
                          ++ object_name ++ py "': " ++ exc_str e))))
        (ret tt) ;;
    if negb (truthy extracted_texts) then ret []
    else ret (join [NL; NL] extracted_texts).

(** *** services/ai_processor.py *)

Record AIProcessorService : Type := mkAIProcessorService {
  llm : ChatModel
}.

(** [AIProcessorService.__init__]; the sampling temperature and the retry
    count are handed to the client and not used again. *)
Definition AIProcessorService_init : res AIProcessorService :=
  match GOOGLE_API_KEY settings with
  | None =>
      Raise (AIConfigurationError
               (py "GOOGLE_API_KEY environment variable not set."))
  | Some key =>
      if negb (truthy key) then
        Raise (AIConfigurationError
                 (py "GOOGLE_API_KEY environment variable not set."))
      else
        match ChatGoogleGenerativeAI B (AI_MODEL_NAME settings) key with
        | Ok model => Ok (mkAIProcessorService model)
        | Raise e =>
            Raise (AIConfigurationError
                     (py "Failed to configure the AI model: " ++ exc_str e))
        end
  end.

(** The module-level singleton: [None] when construction raised
    [AIConfigurationError]. *)
Definition ai_processor_service : option AIProcessorService :=
  match AIProcessorService_init with
  | Ok service => Some service
  | Raise _ => None
  end.

(** [AIProcessorService._clean_json_string] *)
Definition _clean_json_string (raw_string : str) : str :=
  let cleaned := strip raw_string in
  let cleaned :=
    if startswith (py "```json") cleaned then
      strip (slice_from (List.length (py "```json")) cleaned)
    else if startswith (py "```") cleaned then
      strip (slice_from (List.length (py "```")) cleaned)
    else cleaned in
  if endswith (py "```") cleaned then
    strip (slice_drop_last (List.length (py "```")) cleaned)
  else cleaned.

(** [response.content.strip()] *)
Definition content_strip (c : Content) : res str :=
  match c with
  | Text s => Ok (strip s)
  | Parts _ =>
      Raise (AttributeError (py "'list' object has no attribute 'strip'"))
  end.

(** [self.llm.invoke(messages)] *)
Definition llm_invoke (self : AIProcessorService) (messages : list Message)
  : M Content :=
  tell (Invoke messages) ;; lift (invoke (llm self) messages).

(** The two messages of [process_content]: the caller's instruction and
    the document text between delimiters. *)
Definition build_messages (request_data : AIProcessingRequest)
  : list Message :=
  [ SystemMessage (system_prompt request_data);
    HumanMessage
      (py "Here is the document content to process:" ++ [NL; NL]
       ++ py "---" ++ [NL; NL] ++ pdf_content request_data ++ [NL; NL]
       ++ py "---") ].

(** [AIProcessorService.process_content] *)
Definition process_content (self : AIProcessorService)
    (request_data : AIProcessingRequest) : M AIProcessingResponse :=
  let messages := build_messages request_data in
  invoked <- attempt (response <- llm_invoke self messages ;;
                      lift (content_strip response)) ;;
  match invoked with
  | Raise e =>
      ret (mkResponse (req_document_id request_data) (py "error") JNull
             (AI_MODEL_NAME settings)
             (Some (py "Failed to get response from AI model: "
                    ++ exc_str e)))
  | Ok raw_ai_output =>
      let cleaned_output := _clean_json_string raw_ai_output in
      match json_loads B cleaned_output with
      | Ok structured_output =>
          ret (mkResponse (req_document_id request_data) (py "success")
                 structured_output (AI_MODEL_NAME settings) None)
      | Raise e =>
          if is_JSONDecodeError e then
            ret (mkResponse (req_document_id request_data) (py "error") JNull
                   (AI_MODEL_NAME settings)
                   (Some (py "AI model response was not valid JSON. Parse Error: "
                          ++ exc_str e ++ py ". Raw (cleaned) start: '"
                          ++ slice_to 100 cleaned_output ++ py "...'")))
          else
            ret (mkResponse (req_document_id request_data) (py "error") JNull
                   (AI_MODEL_NAME settings)
                   (Some (py "Unexpected error parsing AI output: "
                          ++ exc_str e)))
      end
  end.

(** *** api/routes/documents.py *)

(** [a or b] for an optional identifier. *)
Definition or_else (a : option UUID) (b : UUID) : UUID :=
  match a with Some u => u | None => b end.

(** The response of every failing branch of the handler. *)
Definition error_result (id : UUID) (message : str) : AIProcessingResponse :=
  mkResponse id (py "error") JNull (AI_MODEL_NAME settings) (Some message).

(** Step 3 of the handler, the body of the [try]: store the file and name
    the stored object.  Returns [object_name] and [actual_doc_uuid]. *)
Definition store_and_name (file : UploadFile) (temp_document_id : UUID)
  : M (str * option UUID) :=
  stored <- store_file file ;;
  let storage_location := fst stored in
  if truthy storage_location then
    let object_name := basename storage_location in
    actual_doc_uuid <-
      try_except
        (lift (UUID_of_str B (hd [] (split (chr 46) object_name))))
        (fun e =>
           if is_ValueError e || is_IndexError e then ret temp_document_id
           else raise e) ;;
    ret (object_name, Some actual_doc_uuid)
  else
    raise (ValueError (py "Storage service did not return a valid location.")).

(** Step 5 of the handler. *)
Definition process_with_ai (final_document_id : UUID)
    (extracted_text prompt : str) : M AIProcessingResponse :=
  match ai_processor_service with
  | None =>
      ret (error_result final_document_id
             (py "AI processing service is not available (configuration error?). Check server logs."))
  | Some service =>
      let ai_request_data := mkRequest final_document_id extracted_text prompt in
      try_except
        (process_content service ai_request_data)
        (fun e =>
           if is_AIConfigurationError e then
             ret (error_result final_document_id
                    (py "AI Service configuration error: " ++ exc_str e))
           else
             ret (error_result final_document_id
                    (py "Unexpected error calling AI processing service: "
                     ++ exc_str e)))
  end.

(** Steps 4 and 5 of the handler. *)
Definition extract_and_process (final_document_id : UUID)
    (object_name : str) (prompt : str) : M AIProcessingResponse :=
  if truthy object_name then
    extraction <- attempt (extract_text_from_pdf object_name) ;;
    match extraction with
    | Raise e =>
        if is_PdfNotFoundError e then
          ret (error_result final_document_id
                 (py "Failed to find stored PDF for extraction: " ++ exc_str e))
        else if is_PdfExtractionError e then
          ret (error_result final_document_id
                 (py "Failed to extract text from PDF: " ++ exc_str e))
        else if is_HTTPException e then
          ret (error_result final_document_id
                 (py "Storage error during extraction: " ++ http_detail e))
        else
          ret (error_result final_document_id
                 (py "Unexpected error during text extraction: " ++ exc_str e))
    | Ok extracted_text =>
        if negb (truthy extracted_text) then
          ret (mkResponse final_document_id (py "success")
                 (JObj [(py "message",
                         JStr (py "No text content could be extracted from the PDF."))])
                 (AI_MODEL_NAME settings)
                 (Some (py "PDF contained no extractable text content.")))
        else process_with_ai final_document_id extracted_text prompt
    end
  else
    ret (error_result final_document_id
           (py "Internal error: Storage location missing after successful upload.")).

(** Step 2 of the handler: [Some r] when the handler returns [r] from
    inside the [try], [None] when control falls through. *)
Definition validate_size (file : UploadFile) (temp_document_id : UUID)
  : M (option AIProcessingResponse) :=
  try_except
    (file_content <- file_read file ;;
     let file_size := N.of_nat (List.length file_content) in
     if (MAX_UPLOAD_SIZE settings <? file_size)%N then
       ret (Some (error_result temp_document_id
                    (py "File size exceeds maximum allowed ("
                     ++ str_of_N (MAX_UPLOAD_SIZE settings / (1024 * 1024))
                     ++ py "MB).")))
     else
       file_seek file 0 ;; ret None)
    (fun e =>
       ret (Some (error_result temp_document_id
                    (py "Error reading uploaded file: " ++ exc_str e)))).

(** [name.lower().endswith(tuple(f".{ext}" for ext in ALLOWED_EXTENSIONS))] *)
Definition extension_allowed (name : str) : bool :=
  endswith_any (map (fun ext => py "." ++ ext) (ALLOWED_EXTENSIONS settings))
               (lower name).

(** The test of step 1: [file.filename] is set, is not empty, and has an
    allowed extension. *)
Definition valid_file_type (file : UploadFile) : bool :=
  match filename file with
  | None => false
  | Some name => truthy name && extension_allowed name
  end.

(** [upload_document_and_process]; [description] is not used. *)
Definition upload_document_and_process (file : UploadFile)
    (prompt : str) (description : option str) : M AIProcessingResponse :=
  temp_document_id <- uuid_uuid4 ;;
  (* 1. Validate File Type *)
  if negb (valid_file_type file) then
    ret (error_result temp_document_id
           (py "Invalid file type. Only "
            ++ join (py ", ") (ALLOWED_EXTENSIONS settings)
            ++ py " files are allowed."))
  else
    (* 2. Validate File Size *)
    early <- validate_size file temp_document_id ;;
    match early with
    | Some response => ret response
    | None =>
        (* 3. Store the file; in the [except] clauses [actual_doc_uuid]
           is still [None] *)
        stored <- attempt (store_and_name file temp_document_id) ;;
        match stored with
        | Raise e =>
            if is_HTTPException e then
              ret (error_result (or_else None temp_document_id)
                     (py "Storage Error: " ++ http_detail e))
            else
              ret (error_result (or_else None temp_document_id)
                     (py "Unexpected error storing document: " ++ exc_str e))
        | Ok (object_name, actual_doc_uuid) =>
            let final_document_id :=
              or_else actual_doc_uuid temp_document_id in
            (* 4. Extract Text, 5. Process Content with AI *)
            extract_and_process final_document_id object_name prompt
        end
    end.

End Pipeline.

(* ===================================================================== *)
(** ** Code that records its calls in a trace *)
(* ===================================================================== *)

(** The administrative calls of the storage service and the ticketing
    service run against one client each; what they do to it is recorded
    as a trace of calls.  [X] is the type of exceptions, [E] the type of
    calls. *)
Module Trace.

Section Trace.

Variables X E : Type.

Inductive outcome (A : Type) : Type :=
| Return (a : A)
| Throw (x : X).
Arguments Return {A} a.
Arguments Throw {A} x.

Definition T (A : Type) : Type := list E -> outcome A * list E.

Definition ret {A} (a : A) : T A := fun tr => (Return a, tr).
Definition throw {A} (x : X) : T A := fun tr => (Throw x, tr).
Definition bind {A C} (m : T A) (k : A -> T C) : T C :=
  fun tr =>
    match m tr with
    | (Return a, tr') => k a tr'
    | (Throw x, tr') => (Throw x, tr')
    end.

(** A computation that touches no client. *)
Definition lift {A} (answer : outcome A) : T A := fun tr => (answer, tr).

(** A call on the client: recorded, then answered. *)
Definition call {A} (ev : E) (answer : outcome A) : T A :=
  fun tr => (answer, tr ++ [ev]).

(** [try: m  except ... as x: h x] *)
Definition catch {A} (m : T A) (h : X -> T A) : T A :=
  fun tr =>
    match m tr with
    | (Return a, tr') => (Return a, tr')
    | (Throw x, tr') => h x tr'
    end.

(** [with ...: m], the exit [f] running on every path. *)
Definition ensure {A} (m : T A) (f : T unit) : T A :=
  fun tr =>
    match m tr with
    | (r, tr') =>
        match f tr' with
        | (Return _, tr'') => (r, tr'')
        | (Throw x, tr'') => (Throw x, tr'')
        end
    end.

End Trace.

Arguments Return {X A} a.
Arguments Throw {X A} x.
Arguments ret {X E A} a.
Arguments throw {X E A} x.
Arguments bind {X E A C} m k.
Arguments lift {X E A} answer.
Arguments call {X E A} ev answer.
Arguments catch {X E A} m h.
Arguments ensure {X E A} m f.

End Trace.

Declare Scope trace_scope.
Delimit Scope trace_scope with trace.
Notation "x <- m ;; k" := (Trace.bind m (fun x => k))
  (at level 61, m at next level, right associativity) : trace_scope.

(* ===================================================================== *)
(** ** The storage service: bucket and health; the health endpoint *)
(* ===================================================================== *)

(** The bucket calls of the MinIO client. *)
Record BucketClient : Type := mkBucketClient {
  bucket_exists : str -> res bool;
  make_bucket : str -> res unit
}.

Inductive BucketCall : Type :=
| BucketExists (bucket : str)
| MakeBucket (bucket : str).

(** [models/document.py], [HealthResponse]; the time stamp is the reading
    of the clock when the response is built. *)
Record HealthResponse : Type := mkHealthResponse {
  health_status : str;
  timestamp : N;
  dependencies : list (str * str)
}.

Section Health.

Variable settings : Settings.
Variable B : Backends.
Variable client : BucketClient.

Definition of_res {A} (r : res A) : Trace.outcome exc A :=
  match r with Ok a => Trace.Return a | Raise e => Trace.Throw e end.

(** [MinioStorageService._ensure_bucket_exists] *)
Definition _ensure_bucket_exists : Trace.T exc BucketCall unit :=
  Trace.catch
    (present <- Trace.call (BucketExists (MINIO_BUCKET_NAME settings))
                  (of_res (bucket_exists client (MINIO_BUCKET_NAME settings))) ;;
     if negb present then
       Trace.call (MakeBucket (MINIO_BUCKET_NAME settings))
         (of_res (make_bucket client (MINIO_BUCKET_NAME settings)))
     else Trace.ret tt)%trace
    (fun err =>
       if is_S3Error err then
         Trace.throw (HTTPException 500
                        (py "Storage service error: " ++ exc_str err))
       else Trace.throw err).

(** [MinioStorageService.check_health] *)
Definition check_health : Trace.T exc BucketCall bool :=
  Trace.catch
    (_ <- Trace.call (BucketExists (MINIO_BUCKET_NAME settings))
            (of_res (bucket_exists client (MINIO_BUCKET_NAME settings))) ;;
     Trace.ret true)%trace
    (fun e => Trace.ret false).

(** [health_check] of [api/routes/documents.py]; [now] is the clock. *)
Definition health_check (now : N) : Trace.T exc BucketCall HealthResponse :=
  (minio_healthy <- check_health ;;
   let minio_status :=
     if minio_healthy then py "healthy" else py "unhealthy" in
   let ai_service_status :=
     match ai_processor_service settings B with
     | Some _ => py "healthy"
     | None => py "unavailable"
     end in
   let overall_status :=
     if negb minio_healthy
        || match ai_processor_service settings B with
           | None => true
           | Some _ => false
           end
     then py "degraded" else py "ok" in
   Trace.ret
     (mkHealthResponse overall_status now
        [(py "storage (minio)", minio_status);
         (py "ai_service (gemini)", ai_service_status)]))%trace.

End Health.

(* ===================================================================== *)
(** ** The ticketing service *)
(* ===================================================================== *)

(** [clickUp-service/backend/main.py] *)
Module ClickUp.

(** httpx's response: the status code, the body as text, the outcome of
    [json()], and whether [raise_for_status()] returns. *)
Record Response : Type := mkResponse {
  status_code : N;
  text : str;
  json_body : res json;
  is_success : bool
}.

(** The exceptions of the service: httpx's [RequestError] and
    [HTTPStatusError], which carries the response; FastAPI's
    [HTTPException], with its status code and its detail, any JSON value;
    and every other instance of [Exception]. *)
Inductive exn : Type :=
| RequestError (message : str)
| HTTPStatusError (response : Response)
| HTTPException (status : N) (detail : json)
| OtherError (e : exc).

(** The calls on [httpx.AsyncClient]. *)
Inductive ClientCall : Type :=
| Opened
| Posted (url : str) (headers : list (str * str)) (payload : json)
| ClosedClient.

Record TicketCreate : Type := mkTicketCreate {
  name : str;
  description : option str;
  priority : option Z;
  status : option str
}.

Definition LIST_ID : str := py "901208496477".

(** [CLICKUP_API_URL.format(list_id=list_id)] *)
Definition CLICKUP_API_URL_format (list_id : str) : str :=
  py "https://api.clickup.com/api/v2/list/" ++ list_id ++ py "/task".

Definition opt_str (o : option str) : json :=
  match o with Some s => JStr s | None => JNull end.
Definition opt_int (o : option Z) : json :=
  match o with Some z => JInt z | None => JNull end.

(** [d.get(key)] on the members of a decoded object: the last binding of
    a key is the one the dictionary holds. *)
Fixpoint dict_get (key : str) (members : list (str * json)) : option json :=
  match members with
  | [] => None
  | (k, v) :: rest =>
      match dict_get key rest with
      | Some later => Some later
      | None => if str_eqb k key then Some v else None
      end
  end.

(** [needle in s] for strings. *)
Fixpoint contains (needle s : str) : bool :=
  startswith needle s
  || match s with
     | [] => false
     | _ :: s' => contains needle s'
     end.

Definition type_error (message : string) : exn :=
  OtherError (OtherException (py "TypeError") (py message)).

(** [key in v] for a decoded JSON value. *)
Definition py_in (key : str) (v : json) : Trace.outcome exn bool :=
  match v with
  | JObj members =>
      Trace.Return (match dict_get key members with
                    | Some _ => true
                    | None => false
                    end)
  | JArr items =>
      Trace.Return (existsb (fun x => match x with
                                      | JStr s => str_eqb s key
                                      | _ => false
                                      end) items)
  | JStr s => Trace.Return (contains key s)
  | _ => Trace.Throw (type_error "argument is not iterable")
  end.

(** [v[key]] for a string key. *)
Definition getitem (v : json) (key : str) : Trace.outcome exn json :=
  match v with
  | JObj members =>
      match dict_get key members with
      | Some x => Trace.Return x
      | None => Trace.Throw (OtherError (OtherException (py "KeyError") key))
      end
  | JArr _ => Trace.Throw (type_error "list indices must be integers or slices, not str")
  | JStr _ => Trace.Throw (type_error "string indices must be integers, not 'str'")
  | _ => Trace.Throw (type_error "object is not subscriptable")
  end.

Definition of_res {A} (r : res A) : Trace.outcome exn A :=
  match r with
  | Ok a => Trace.Return a
  | Raise e => Trace.Throw (OtherError e)
  end.

(** [response.raise_for_status()] *)
Definition raise_for_status (response : Response) : Trace.outcome exn unit :=
  if is_success response then Trace.Return tt
  else Trace.Throw (HTTPStatusError response).

(** The detail that the handler of [HTTPStatusError] builds from the
    response of ClickUp. *)
Definition detail_message (response : Response) : json :=
  match json_body response with
  | Ok (JObj members) =>
      match dict_get (py "err") members with
      | Some err => err
      | None => JStr (py "ClickUp API Error: " ++ text response)
      end
  | _ =>
      JStr (py "ClickUp API Error (" ++ str_of_N (status_code response)
            ++ py "): " ++ text response)
  end.

Section Service.

(** The key read from the environment when the module is loaded, and the
    [post] of the client. *)
Variable API_KEY : str.
Variable post :
  str -> list (str * str) -> json -> Trace.outcome exn Response.

(** [http.HTTPStatus(status_code).phrase] of the standard library: the
    reason phrase of a status code, and nothing for a code that is no
    member of [http.HTTPStatus], for which the lookup raises
    [ValueError]. *)
Variable HTTPStatus_phrase : N -> option str.

Definition HEADERS : list (str * str) :=
  [(py "Authorization", API_KEY); (py "Content-Type", py "application/json")].

(** [raise HTTPException(status_code=status, detail=detail)].  The
    constructor replaces a detail of [None] by the reason phrase of the
    status; for a status without a phrase the lookup raises [ValueError],
    and that is what leaves the [raise] statement. *)
Definition raise_HTTPException {A} (status : N) (detail : json)
  : Trace.T exn ClientCall A :=
  match detail with
  | JNull =>
      match HTTPStatus_phrase status with
      | Some phrase => Trace.throw (HTTPException status (JStr phrase))
      | None =>
          Trace.throw
            (OtherError
               (ValueError (str_of_N status ++ py " is not a valid HTTPStatus")))
      end
  | _ => Trace.throw (HTTPException status detail)
  end.

(** The handlers of the request: a network failure, an error status. *)
Definition request_except (exc : exn) : Trace.T exn ClientCall Response :=
  match exc with
  | RequestError message =>
      raise_HTTPException 503
        (JStr (py "Could not connect to ClickUp API: " ++ message))
  | HTTPStatusError response =>
      raise_HTTPException (status_code response) (detail_message response)
  | _ => Trace.throw exc
  end.

(** [create_ticket] *)
Definition create_ticket (ticket : TicketCreate)
  : Trace.T exn ClientCall json :=
  if negb (truthy API_KEY) then
    raise_HTTPException 500
      (JStr (py "ClickUp API Key is not configured on the server."))
  else
    let payload :=
      JObj [(py "name", JStr (name ticket));
            (py "description", opt_str (description ticket));
            (py "priority", opt_int (priority ticket));
            (py "status", opt_str (status ticket))] in
    if negb (truthy LIST_ID) then
      raise_HTTPException 500
        (JStr (py "ClickUp List ID is not configured on the server."))
    else
      let formatted_url := CLICKUP_API_URL_format LIST_ID in
      (response <-
         (_ <- Trace.call Opened (Trace.Return tt) ;;
          Trace.ensure
            (Trace.catch
               (response <- Trace.call (Posted formatted_url HEADERS payload)
                              (post formatted_url HEADERS payload) ;;
                _ <- Trace.lift (raise_for_status response) ;;
                Trace.ret response)
               request_except)
            (Trace.call ClosedClient (Trace.Return tt))) ;;
       Trace.catch
         (task_data <- Trace.lift (of_res (json_body response)) ;;
          has_id <- Trace.lift (py_in (py "id") task_data) ;;
          missing <- (if negb has_id then Trace.ret true
                      else has_url <- Trace.lift (py_in (py "url") task_data) ;;
                           Trace.ret (negb has_url)) ;;
          if missing : bool then
            raise_HTTPException 500
              (JStr (py "Received unexpected success response format from ClickUp."))
          else
            task_id <- Trace.lift (getitem task_data (py "id")) ;;
            url <- Trace.lift (getitem task_data (py "url")) ;;
            Trace.ret (JObj [(py "message",
                              JStr (py "Ticket created successfully"));
                             (py "task_id", task_id);
                             (py "url", url)]))
         (fun e =>
            raise_HTTPException 500
              (JStr (py "Failed to process response from ClickUp."))))%trace.

End Service.

End ClickUp.

(* ===================================================================== *)
(** ** A reference decoder for concrete runs *)
(* ===================================================================== *)

(** The pipeline is stated for an arbitrary [json_loads].  To run it on
    concrete completions, [JsonRef.loads] gives the answer of the standard
    library's [json.loads] on a fragment of its inputs, and [None] outside
    that fragment.  The fragment: documents whose value is a number, a
    literal, a string with no backslash and no control character, or an
    array or object of such values nested at most [max_depth] deep and
    without repeated keys, possibly followed by extra data; and documents
    that begin, after JSON whitespace, with nothing that starts a value. *)
Module JsonRef.

Definition max_depth : nat := 16.

(** The whitespace of the JSON grammar: space, tab, line feed, return. *)
Definition is_ws (c : ascii) : bool :=
  let n := nat_of_ascii c in (n =? 32) || (n =? 9) || (n =? 10) || (n =? 13).

Fixpoint skip_ws (s : str) : str :=
  match s with
  | c :: s' => if is_ws c then skip_ws s' else s
  | [] => []
  end.

Definition is_digit (c : ascii) : bool :=
  let n := nat_of_ascii c in (48 <=? n) && (n <=? 57).

Fixpoint span_digits (s : str) : str * str :=
  match s with
  | c :: s' =>
      if is_digit c then let (d, r) := span_digits s' in (c :: d, r)
      else ([], s)
  | [] => ([], [])
  end.

Definition digits_value (d : str) : Z :=
  fold_left (fun acc c => (acc * 10 + Z.of_nat (nat_of_ascii c - 48))%Z) d 0%Z.

(** The three answers of a scan at a position: a value and the rest of
    the text, no value at this position, or outside the fragment. *)
Inductive scan (A : Type) : Type :=
| Found (a : A) (rest : str)
| Nothing
| Beyond.
Arguments Found {A} a rest.
Arguments Nothing {A}.
Arguments Beyond {A}.

(** The integer digits at the head of [s]: a zero, or a nonzero digit
    and the digits after it. *)
Definition span_int (s : str) : option (str * str) :=
  match s with
  | c :: s' =>
      if Ascii.eqb c (chr 48) then Some ([c], s')
      else if is_digit c then
        let (d, r) := span_digits s' in Some (c :: d, r)
      else None
  | [] => None
  end.

(** The optional fraction (a dot and digits) and the optional exponent
    (e or E, a sign, digits) of a number. *)
Definition span_frac (s : str) : str * str :=
  match s with
  | c :: s' =>
      if Ascii.eqb c (chr 46) then
        match span_digits s' with
        | ([], _) => ([], s)
        | (d, r) => (c :: d, r)
        end
      else ([], s)
  | [] => ([], [])
  end.

Definition span_exp (s : str) : str * str :=
  match s with
  | c :: s' =>
      if Ascii.eqb c (chr 101) || Ascii.eqb c (chr 69) then
        let signed :=
          match s' with
          | g :: s'' =>
              if Ascii.eqb g (chr 43) || Ascii.eqb g (chr 45)
              then ([g], s'') else ([], s')
          | [] => ([], s')
          end in
        match span_digits (snd signed) with
        | ([], _) => ([], s)
        | (d, r) => (c :: fst signed ++ d, r)
        end
      else ([], s)
  | [] => ([], [])
  end.

Definition scan_number (s : str) : scan json :=
  let (sign, body) :=
    match s with
    | c :: s' => if Ascii.eqb c (chr 45) then ([c], s') else ([], s)
    | [] => ([], s)
    end in
  match span_int body with
  | None => Nothing
  | Some (int, r1) =>
      let (frac, r2) := span_frac r1 in
      let (exp, r3) := span_exp r2 in
      if truthy frac || truthy exp
      then Found (JFloat (sign ++ int ++ frac ++ exp)) r3
      else Found (JInt (if truthy sign then - digits_value int
                        else digits_value int)%Z) r3
  end.

Definition scan_word (w : string) (v : json) (s : str) : scan json :=
  if startswith (py w) s then Found v (skipn (List.length (py w)) s)
  else Nothing.

Definition or_scan (a b : scan json) : scan json :=
  match a with Nothing => b | _ => a end.

(** A string body after the opening quote, up to the closing quote. *)
Fixpoint scan_string (s : str) : scan str :=
  match s with
  | [] => Beyond
  | c :: s' =>
      if Ascii.eqb c DQ then Found [] s'
      else if Ascii.eqb c (chr 92) || (nat_of_ascii c <? 32) then Beyond
      else match scan_string s' with
           | Found t r => Found (c :: t) r
           | _ => Beyond
           end
  end.

Fixpoint has_key (k : str) (ms : list (str * json)) : bool :=
  match ms with
  | [] => false
  | (k', _) :: ms' => str_eqb k k' || has_key k ms'
  end.

(** [scan_once]; [depth] bounds the nesting and [n] the number of items
    of one array or object. *)
Fixpoint scan_value (depth : nat) (s : str) {struct depth} : scan json :=
  match s with
  | [] => Nothing
  | c :: s' =>
      if Ascii.eqb c DQ then
        match scan_string s' with
        | Found t r => Found (JStr t) r
        | _ => Beyond
        end
      else if Ascii.eqb c (chr 91) then
        match depth with
        | O => Beyond
        | S depth' =>
            let fix items (n : nat) (s : str) : scan (list json) :=
              match n with
              | O => Beyond
              | S n' =>
                  match scan_value depth' s with
                  | Found v r =>
                      match skip_ws r with
                      | d :: r' =>
                          if Ascii.eqb d (chr 93) then Found [v] r'
                          else if Ascii.eqb d (chr 44) then
                            match items n' (skip_ws r') with
                            | Found vs r'' => Found (v :: vs) r''
                            | _ => Beyond
                            end
                          else Beyond
                      | [] => Beyond
                      end
                  | _ => Beyond
                  end
              end in
            match skip_ws s' with
            | d :: r =>
                if Ascii.eqb d (chr 93) then Found (JArr []) r
                else match items (List.length s) (d :: r) with
                     | Found vs r' => Found (JArr vs) r'
                     | _ => Beyond
                     end
            | [] => Beyond
            end
        end
      else if Ascii.eqb c (chr 123) then
        match depth with
        | O => Beyond
        | S depth' =>
            let fix members (n : nat) (s : str) : scan (list (str * json)) :=
              match n, s with
              | S n', q :: s1 =>
                  if Ascii.eqb q DQ then
                    match scan_string s1 with
                    | Found k r =>
                        match skip_ws r with
                        | colon :: r1 =>
                            if Ascii.eqb colon (chr 58) then
                              match scan_value depth' (skip_ws r1) with
                              | Found v r2 =>
                                  match skip_ws r2 with
                                  | d :: r3 =>
                                      if Ascii.eqb d (chr 125)
                                      then Found [(k, v)] r3
                                      else if Ascii.eqb d (chr 44) then
                                        match members n' (skip_ws r3) with
                                        | Found ms r4 =>
                                            if has_key k ms then Beyond
                                            else Found ((k, v) :: ms) r4
                                        | _ => Beyond
                                        end
                                      else Beyond
                                  | [] => Beyond
                                  end
                              | _ => Beyond
                              end
                            else Beyond
                        | [] => Beyond
                        end
                    | _ => Beyond
                    end
                  else Beyond
              | _, _ => Beyond
              end in
            match skip_ws s' with
            | d :: r =>
                if Ascii.eqb d (chr 125) then Found (JObj []) r
                else match members (List.length s) (d :: r) with
                     | Found ms r' => Found (JObj ms) r'
                     | _ => Beyond
                     end
            | [] => Beyond
            end
        end
      else
        or_scan (scan_word "null" JNull s)
       (or_scan (scan_word "true" (JBool true) s)
       (or_scan (scan_word "false" (JBool false) s)
       (or_scan (scan_number s)
       (or_scan (scan_word "NaN" (JFloat (py "NaN")) s)
       (or_scan (scan_word "Infinity" (JFloat (py "Infinity")) s)
                (scan_word "-Infinity" (JFloat (py "-Infinity")) s))))))
  end.

(** Line and column of position [pos] in [doc], as [JSONDecodeError]
    reports them. *)
Definition lineno (doc : str) (pos : nat) : N :=
  N.of_nat (List.length (filter (Ascii.eqb NL) (firstn pos doc))) + 1.

Fixpoint since_newline (rev_prefix : str) : nat :=
  match rev_prefix with
  | [] => 0
  | c :: r => if Ascii.eqb c NL then 0 else S (since_newline r)
  end.

Definition colno (doc : str) (pos : nat) : N :=
  N.of_nat (since_newline (rev (firstn pos doc))) + 1.

Definition decode_error (msg : string) (doc : str) (pos : nat) : exc :=
  JSONDecodeError (py msg) (lineno doc pos) (colno doc pos) (N.of_nat pos).

(** [json.loads(doc)] on the fragment. *)
Definition loads (doc : str) : option (res json) :=
  let start := skip_ws doc in
  match scan_value max_depth start with
  | Found v rest =>
      match skip_ws rest with
      | [] => Some (Ok v)
      | extra =>
          Some (Raise (decode_error "Extra data" doc
                         (List.length doc - List.length extra)))
      end
  | Nothing =>
      Some (Raise (decode_error "Expecting value" doc
                     (List.length doc - List.length start)))
  | Beyond => None
  end.

(** A total decoder for a record of capabilities.  Outside the fragment it
    answers with a placeholder exception that [json.loads] does not
    raise; the concrete runs below stay inside the fragment. *)
Definition loads_total (doc : str) : res json :=
  match loads doc with
  | Some r => r
  | None => Raise (OtherException (py "OutsideFragment") doc)
  end.

End JsonRef.

(* ===================================================================== *)
(** ** Concrete backends for runs *)
(* ===================================================================== *)

Module Demo.

(** Identifiers are rendered as 32 hexadecimal digits in the groups
    8-4-4-4-12, and read back from that canonical form only. *)
Definition hex_digit (n : N) : ascii :=
  if (n <? 10)%N then chr (48 + N.to_nat n) else chr (87 + N.to_nat n).

Fixpoint hex_digits (k : nat) (n : N) : str :=
  match k with
  | O => []
  | S k' => hex_digits k' (n / 16) ++ [hex_digit (n mod 16)]
  end.

Definition uuid_str (u : UUID) : str :=
  let h := hex_digits 32 u in
  firstn 8 h ++ py "-" ++ firstn 4 (skipn 8 h) ++ py "-"
  ++ firstn 4 (skipn 12 h) ++ py "-" ++ firstn 4 (skipn 16 h) ++ py "-"
  ++ skipn 20 h.

Definition hex_value (c : ascii) : option N :=
  let n := nat_of_ascii c in
  if (48 <=? n) && (n <=? 57) then Some (N.of_nat (n - 48))
  else if (97 <=? n) && (n <=? 102) then Some (N.of_nat (n - 87))
  else if (65 <=? n) && (n <=? 70) then Some (N.of_nat (n - 55))
  else None.

Fixpoint hex_number (acc : N) (s : str) : option N :=
  match s with
  | [] => Some acc
  | c :: s' =>
      match hex_value c with
      | Some d => hex_number (acc * 16 + d) s'
      | None => None
      end
  end.

Definition UUID_of_str (s : str) : res UUID :=
  let h := filter (fun c => negb (Ascii.eqb c (chr 45))) s in
  if List.length h =? 32 then
    match hex_number 0 h with
    | Some n => Ok n
    | None => Raise (ValueError (py "invalid literal for int() with base 16"))
    end
  else Raise (ValueError (py "badly formed hexadecimal UUID string")).

(** Backends whose answers do not depend on their arguments: the outcome
    of the store, of the fetch, of opening the document, and of the call
    to the model. *)
Definition backends (stored : res unit) (fetched : res HTTPResponse)
    (opened : res PdfReader) (completion : res Content) : Backends :=
  mkBackends
    (fun n => (1311768467463790320 + N.of_nat n)%N)
    uuid_str
    UUID_of_str
    (fun _ _ _ _ _ => stored)
    (fun _ _ => fetched)
    (fun _ => opened)
    (fun _ _ => Ok (mkChatModel (fun _ => completion)))
    JsonRef.loads_total.

Definition no_fault : nat -> option exc := fun _ => None.

(** [b"%PDF"] *)
Definition pdf_bytes : bytes := [Byte.x25; Byte.x50; Byte.x44; Byte.x46].

Definition invoice_pdf : UploadFile :=
  mkUploadFile (Some (py "invoice.pdf")) (Some (py "application/pdf"))
               pdf_bytes no_fault.

Definition invoice_txt : UploadFile :=
  mkUploadFile (Some (py "invoice.txt")) (Some (py "text/plain"))
               pdf_bytes no_fault.

Definition plain_reader (texts : list (res str)) : PdfReader :=
  mkPdfReader false (fun _ => Ok true) (Ok texts).

Definition settings : Settings := default_settings (Some (py "key")).

(** Settings that allow three bytes. *)
Definition tiny_settings : Settings :=
  mkSettings (py "pdfs") 3 [py "pdf"] (Some (py "key"))
             (py "gemini-2.0-flash").

End Demo.

(** A store that works and serves a four-byte object on connection 7, a
    document with the pages [ps], and a model that answers
    [completion]. *)
Definition healthy (ps : list (res str)) (completion : res Content)
  : Backends :=
  Demo.backends (Ok tt) (Ok (mkHTTPResponse 7 (Ok Demo.pdf_bytes)))
    (Ok (Demo.plain_reader ps)) completion.

(** A processor whose model answers [completion]. *)
Definition answering (completion : res Content) : AIProcessorService :=
  mkAIProcessorService (mkChatModel (fun _ => completion)).

Definition sample_request : AIProcessingRequest :=
  mkRequest 1%N (py "Vendor: Acme") (py "Extract the vendor as JSON").

(** The completion of the invoice scenario: a fenced object with one
    member. *)
Definition vendor_json : str :=
  py "{" ++ [DQ] ++ py "vendor" ++ [DQ] ++ py ":" ++ [DQ] ++ py "Acme"
  ++ [DQ] ++ py "}".

(* ===================================================================== *)
(** ** Vocabulary of the properties *)
(* ===================================================================== *)

(** A string of whitespace only. *)
Definition all_space (w : str) : Prop := Forall (fun c => isspace c = true) w.

(** The opening fences that [_clean_json_string] looks for; the second is
    also the closing fence. *)
Definition fence_json : str := py "```json".
Definition fence_bare : str := py "```".

(** Events that invoke the model, and events of the store operation. *)
Definition is_invoke (ev : Event) : bool :=
  match ev with Invoke _ => true | _ => false end.

Definition is_store_call (ev : Event) : bool :=
  match ev with StoreFile _ | PutObject _ _ _ _ => true | _ => false end.

(** A response of the uniform shape: the status is one of the two, the
    model is the configured one, and an error carries a message and no
    structured output. *)
Definition well_formed (settings : Settings) (r : AIProcessingResponse)
  : Prop :=
  (status r = py "success" \/ status r = py "error")
  /\ model_used r = AI_MODEL_NAME settings
  /\ (status r = py "error" ->
      ai_structured_output r = JNull /\ error_message r <> None).

(** What the web framework sends for the outcome of the handler: a
    returned response goes out with the status code of the route, 200; a
    raised [HTTPException] with its own status code and any other
    exception as 500, both without a response object. *)
Definition http_response (outcome : res AIProcessingResponse)
  : N * option AIProcessingResponse :=
  match outcome with
  | Ok r => (200%N, Some r)
  | Raise (HTTPException c _) => (c, None)
  | Raise _ => (500%N, None)
  end.

(** The state after the handler has drawn its identifier. *)
Definition after_uuid (st : State) : State :=
  mkState (log st) (file_pos st) (file_ops st) (S (uuids_drawn st)).

(** The state in which the store step starts when validation passed: the
    body has been read once and the stream rewound. *)
Definition validated (n : nat) : State :=
  mkState [FileRead; FileSeek 0] 0 2 (S n).

(** An upload that passes validation at the start of a request: the type
    is allowed, the stream can be read and rewound, the size is within the
    limit. *)
Definition valid_upload (settings : Settings) (file : UploadFile) : Prop :=
  valid_file_type settings file = true
  /\ fault file 0 = None /\ fault file 1 = None
  /\ (N.of_nat (List.length (body file)) <= MAX_UPLOAD_SIZE settings)%N.

(** The failures of a request that starts with [n] identifiers drawn,
    stage by stage.  A stage is described in the state its predecessors
    leave when they succeed. *)
Inductive failure (settings : Settings) (B : Backends) (file : UploadFile)
    (prompt : str) (n : nat) : Prop :=
| Invalid_file_type :
    valid_file_type settings file = false ->
    failure settings B file prompt n
| Oversized_payload :
    (MAX_UPLOAD_SIZE settings < N.of_nat (List.length (body file)))%N ->
    failure settings B file prompt n
| Unreadable_upload (k : nat) (e : exc) :
    k < 2 -> fault file k = Some e ->
    failure settings B file prompt n
| Storage_error (e : exc) (st2 : State) :
    store_and_name settings B file (uuid4 B n) (validated n)
    = (Raise e, st2) ->
    failure settings B file prompt n
| Extraction_failed (object_name : str) (actual : option UUID)
    (st2 : State) (e : exc) (st3 : State) :
    store_and_name settings B file (uuid4 B n) (validated n)
    = (Ok (object_name, actual), st2) ->
    extract_text_from_pdf settings B object_name st2 = (Raise e, st3) ->
    failure settings B file prompt n
| AI_unavailable (object_name : str) (actual : option UUID)
    (st2 : State) (text : str) (st3 : State) :
    store_and_name settings B file (uuid4 B n) (validated n)
    = (Ok (object_name, actual), st2) ->
    extract_text_from_pdf settings B object_name st2 = (Ok text, st3) ->
    text <> [] ->
    ai_processor_service settings B = None ->
    failure settings B file prompt n
| AI_invocation_error (object_name : str) (actual : option UUID)
    (st2 : State) (text : str) (st3 : State)
    (service : AIProcessorService) :
    store_and_name settings B file (uuid4 B n) (validated n)
    = (Ok (object_name, actual), st2) ->
    extract_text_from_pdf settings B object_name st2 = (Ok text, st3) ->
    text <> [] ->
    ai_processor_service settings B = Some service ->
    (forall c,
       invoke (llm service)
         (build_messages (mkRequest (or_else actual (uuid4 B n)) text prompt))
       <> Ok (Text c)) ->
    failure settings B file prompt n
| AI_output_invalid (object_name : str) (actual : option UUID)
    (st2 : State) (text : str) (st3 : State)
    (service : AIProcessorService) (c : str) (e : exc) :
    store_and_name settings B file (uuid4 B n) (validated n)
    = (Ok (object_name, actual), st2) ->
    extract_text_from_pdf settings B object_name st2 = (Ok text, st3) ->
    text <> [] ->
    ai_processor_service settings B = Some service ->
    invoke (llm service)
      (build_messages (mkRequest (or_else actual (uuid4 B n)) text prompt))
    = Ok (Text c) ->
    json_loads B (_clean_json_string (strip c)) = Raise e ->
    failure settings B file prompt n.

(** The result that reports a document without text. *)
Definition no_text_result (settings : Settings) (id : UUID)
  : AIProcessingResponse :=
  mkResponse id (py "success")
    (JObj [(py "message",
            JStr (py "No text content could be extracted from the PDF."))])
    (AI_MODEL_NAME settings)
    (Some (py "PDF contained no extractable text content.")).

(** The result of step 1 for a file of a type that is not allowed. *)
Definition invalid_type_result (settings : Settings) (id : UUID)
  : AIProcessingResponse :=
  error_result settings id
    (py "Invalid file type. Only "
     ++ join (py ", ") (ALLOWED_EXTENSIONS settings)
     ++ py " files are allowed.").

(** The texts that reach the result: those of the pages whose
    [extract_text()] returned a non-empty string, in page order. *)
Fixpoint page_texts (ps : list (res str)) : list str :=
  match ps with
  | [] => []
  | Ok t :: rest => if truthy t then t :: page_texts rest else page_texts rest
  | Raise _ :: rest => page_texts rest
  end.

(** A page with no extractable text: its extraction raised, or returned
    the empty string. *)
Definition no_text (p : res str) : Prop :=
  match p with Ok t => t = [] | Raise _ => True end.

(** The events of one fetch: the call and, once a response object has
    been obtained, its acquisition, the read, the close and the release
    of the connection. *)
Definition fetch_events (settings : Settings) (B : Backends)
    (object_name : str) : list Event :=
  GetObject (MINIO_BUCKET_NAME settings) object_name ::
  match get_object B (MINIO_BUCKET_NAME settings) object_name with
  | Raise _ => []
  | Ok response =>
      [Acquired (conn response); ReadBody (conn response);
       Closed (conn response); Released (conn response)]
  end.

(** The handles acquired in a run of events that are not, later in the
    run, closed and then released. *)
Fixpoint closed_then_released (c : nat) (evs : list Event) : bool :=
  match evs with
  | [] => false
  | Closed c' :: rest =>
      if Nat.eqb c c'
      then existsb (fun ev => match ev with
                              | Released c'' => Nat.eqb c c''
                              | _ => false
                              end) rest
      else closed_then_released c rest
  | _ :: rest => closed_then_released c rest
  end.

Fixpoint leaked (evs : list Event) : list nat :=
  match evs with
  | [] => []
  | Acquired c :: rest =>
      if closed_then_released c rest then leaked rest else c :: leaked rest
  | _ :: rest => leaked rest
  end.

(** The stored object [object_name] is served by the store and opens as a
    paginated document with the pages [ps]. *)
Definition parses_as (settings : Settings) (B : Backends)
    (object_name : str) (ps : list (res str)) : Prop :=
  exists response pdf_data reader,
    get_object B (MINIO_BUCKET_NAME settings) object_name = Ok response
    /\ read response = Ok pdf_data
    /\ pdf_data <> []
    /\ pypdf_PdfReader B pdf_data = Ok reader
    /\ (is_encrypted reader = false \/ decrypt reader [] = Ok true)
    /\ pages reader = Ok ps.

(** The result of an extraction in the words of the specification: the
    non-empty page texts, in page order, separated by a blank line. *)
Definition concatenated_page_texts (ps : list (res str)) : str :=
  join [NL; NL] (page_texts ps).

(** The fetch of [object_name] fails with [e]: the client raises it from
    [get_object], or from reading the response. *)
Definition fetch_fails (settings : Settings) (B : Backends)
    (object_name : str) (e : exc) : Prop :=
  get_object B (MINIO_BUCKET_NAME settings) object_name = Raise e
  \/ (exists response,
        get_object B (MINIO_BUCKET_NAME settings) object_name = Ok response
        /\ read response = Raise e).

(** The three failure modes of a fetch. *)
Inductive fetch_condition : Type :=
| Not_found
| Service_unavailable
| Generic_storage_error.

(** The condition under which a failure reaches the orchestrator: the
    class of the exception and, for an [HTTPException], its status. *)
Definition condition_of (raised : exc) : option fetch_condition :=
  match raised with
  | PdfNotFoundError _ => Some Not_found
  | HTTPException c _ =>
      if (c =? 503)%N then Some Service_unavailable
      else if (c =? 500)%N then Some Generic_storage_error
      else None
  | _ => None
  end.

(** The condition that the error message of a result reports. *)
Definition reported_condition (message : option str) : option fetch_condition :=
  match message with
  | None => None
  | Some m =>
      if startswith (py "Failed to find stored PDF for extraction: ") m
      then Some Not_found
      else if startswith
                (py "Storage error during extraction: Storage service connection error: ") m
      then Some Service_unavailable
      else if startswith (py "Storage error during extraction: ") m
      then Some Generic_storage_error
      else None
  end.

(** The status and the structured output that parsing [s] gives. *)
Definition parsed_directly (B : Backends) (s : str) : str * json :=
  match json_loads B s with
  | Ok v => (py "success", v)
  | Raise _ => (py "error", JNull)
  end.

(* ===================================================================== *)
(** ** Facts about strings *)
(* ===================================================================== *)

Section StringFacts.

Lemma eqb_refl_ascii (c : ascii) : Ascii.eqb c c = true.
Proof. apply Ascii.eqb_eq. reflexivity. Qed.

Lemma str_eqb_eq (a b : str) : str_eqb a b = true <-> a = b.
Proof.
  revert b. induction a as [|x a IH]; intros [|y b]; simpl; split;
    try discriminate; try reflexivity.
  - intros H. apply andb_true_iff in H. destruct H as [H1 H2].
    apply Ascii.eqb_eq in H1. apply IH in H2. congruence.
  - intros H. injection H as -> ->. rewrite eqb_refl_ascii. simpl.
    apply IH. reflexivity.
Qed.

Lemma startswith_app (p r : str) : startswith p (p ++ r) = true.
Proof.
  induction p as [|x p IH]; simpl.
  - reflexivity.
  - rewrite eqb_refl_ascii. exact IH.
Qed.

Lemma endswith_app (x p : str) : endswith p (x ++ p) = true.
Proof. unfold endswith. rewrite rev_app_distr. apply startswith_app. Qed.

Lemma skipn_prefix (p r : str) : skipn (List.length p) (p ++ r) = r.
Proof. induction p; simpl; auto. Qed.

Lemma drop_last_suffix (x p : str) :
  slice_drop_last (List.length p) (x ++ p) = x.
Proof.
  unfold slice_drop_last. rewrite length_app.
  replace (List.length x + List.length p - List.length p)
    with (List.length x + 0) by lia.
  rewrite firstn_app_2. simpl. apply app_nil_r.
Qed.

Lemma lstrip_spaces (w x : str) : all_space w -> lstrip (w ++ x) = lstrip x.
Proof.
  induction 1 as [|c w Hc _ IH]; simpl.
  - reflexivity.
  - rewrite Hc. exact IH.
Qed.

Lemma lstrip_all_space (w : str) : all_space w -> lstrip w = [].
Proof.
  intros H. rewrite <- (app_nil_r w). rewrite lstrip_spaces by exact H.
  reflexivity.
Qed.

Lemma lstrip_fixed_app (x y : str) :
  lstrip x = x -> x <> [] -> lstrip (x ++ y) = x ++ y.
Proof.
  destruct x as [|c x]; [congruence|]. simpl. intros H _.
  destruct (isspace c) eqn:Hc; [|reflexivity].
  exfalso.
  assert (Hlen : forall s, List.length (lstrip s) <= List.length s).
  { induction s as [|d s IHs]; simpl; [lia|].
    destruct (isspace d); simpl; lia. }
  specialize (Hlen x). rewrite H in Hlen. simpl in Hlen. lia.
Qed.

Lemma lstrip_idem (x : str) : lstrip (lstrip x) = lstrip x.
Proof.
  induction x as [|c x IH]; simpl; [reflexivity|].
  destruct (isspace c) eqn:Hc; [exact IH|]. simpl. rewrite Hc. reflexivity.
Qed.

Lemma lstrip_split (x : str) : exists w, all_space w /\ x = w ++ lstrip x.
Proof.
  induction x as [|c x [w [Hw Hx]]]; simpl.
  - exists []. split; [constructor|reflexivity].
  - destruct (isspace c) eqn:Hc.
    + exists (c :: w). split; [constructor; assumption|].
      simpl. congruence.
    + exists []. split; [constructor|reflexivity].
Qed.

Lemma all_space_rev (w : str) : all_space w -> all_space (rev w).
Proof. unfold all_space. apply Forall_rev. Qed.

Lemma all_space_app (a b : str) : all_space a -> all_space b -> all_space (a ++ b).
Proof. unfold all_space. intros. apply Forall_app. split; assumption. Qed.

Lemma rstrip_spaces (x w : str) : all_space w -> rstrip (x ++ w) = rstrip x.
Proof.
  intros H. unfold rstrip. rewrite rev_app_distr.
  rewrite lstrip_spaces by (apply all_space_rev; exact H). reflexivity.
Qed.

Lemma rstrip_all_space (w : str) : all_space w -> rstrip w = [].
Proof.
  intros H. change w with ([] ++ w). rewrite rstrip_spaces by exact H.
  reflexivity.
Qed.

Lemma rstrip_fixed_app (x y : str) :
  rstrip y = y -> y <> [] -> rstrip (x ++ y) = x ++ y.
Proof.
  unfold rstrip. intros H Hy.
  assert (H' : lstrip (rev y) = rev y).
  { rewrite <- (rev_involutive (lstrip (rev y))). rewrite H. reflexivity. }
  rewrite rev_app_distr. rewrite lstrip_fixed_app.
  - rewrite <- rev_app_distr. apply rev_involutive.
  - exact H'.
  - intros E. apply Hy. rewrite <- (rev_involutive y). rewrite E. reflexivity.
Qed.

Lemma rstrip_idem (x : str) : rstrip (rstrip x) = rstrip x.
Proof.
  unfold rstrip. rewrite rev_involutive. rewrite lstrip_idem. reflexivity.
Qed.

Lemma rstrip_split (x : str) : exists w, all_space w /\ x = rstrip x ++ w.
Proof.
  destruct (lstrip_split (rev x)) as [w [Hw Hx]].
  exists (rev w). split; [apply all_space_rev; exact Hw|].
  unfold rstrip. rewrite <- rev_app_distr. rewrite <- Hx.
  symmetry. apply rev_involutive.
Qed.

(** Stripping on the right keeps a string that does not start with
    whitespace that way. *)
Lemma lstrip_rstrip_fixed (x : str) : lstrip x = x -> lstrip (rstrip x) = rstrip x.
Proof.
  intros H. destruct (rstrip_split x) as [w [Hw Hx]].
  destruct (rstrip x) as [|c r] eqn:Hr; [reflexivity|].
  rewrite Hx in H. simpl in H. simpl.
  destruct (isspace c) eqn:Hc; [|reflexivity].
  exfalso.
  assert (Hlen : forall s, List.length (lstrip s) <= List.length s).
  { induction s as [|d s IHs]; simpl; [lia|].
    destruct (isspace d); simpl; lia. }
  specialize (Hlen (r ++ w)). rewrite H in Hlen. simpl in Hlen. lia.
Qed.

Lemma strip_lstrip_fixed (x : str) : lstrip (strip x) = strip x.
Proof. unfold strip. apply lstrip_rstrip_fixed. apply lstrip_idem. Qed.

Lemma strip_rstrip_fixed (x : str) : rstrip (strip x) = strip x.
Proof. unfold strip. apply rstrip_idem. Qed.

(** Every string is its stripped core between two runs of whitespace. *)
Lemma strip_split (x : str) :
  exists a b, all_space a /\ all_space b /\ x = a ++ strip x ++ b.
Proof.
  destruct (lstrip_split x) as [a [Ha Hx]].
  destruct (rstrip_split (lstrip x)) as [b [Hb Hl]].
  exists a, b. repeat split; try assumption.
  unfold strip. rewrite <- Hl. exact Hx.
Qed.

(** A core with no whitespace at either end, wrapped in whitespace,
    strips to the core. *)
Lemma strip_core (a k b : str) :
  all_space a -> all_space b -> lstrip k = k -> rstrip k = k ->
  strip (a ++ k ++ b) = k.
Proof.
  intros Ha Hb Hl Hr. unfold strip. rewrite lstrip_spaces by exact Ha.
  destruct k as [|c k].
  - simpl. rewrite lstrip_all_space by exact Hb. reflexivity.
  - rewrite lstrip_fixed_app by (try exact Hl; discriminate).
    rewrite rstrip_spaces by exact Hb. exact Hr.
Qed.

Lemma strip_idem (x : str) : strip (strip x) = strip x.
Proof.
  rewrite <- (app_nil_r (strip x)) at 1.
  apply (strip_core (a := [])); try constructor.
  - apply strip_lstrip_fixed.
  - apply strip_rstrip_fixed.
Qed.

Lemma strip_app_spaces (a s b : str) :
  all_space a -> all_space b -> strip (a ++ s ++ b) = strip s.
Proof.
  intros Ha Hb. destruct (strip_split s) as [a' [b' [Ha' [Hb' Hs]]]].
  rewrite Hs at 1.
  replace (a ++ (a' ++ strip s ++ b') ++ b)
    with ((a ++ a') ++ strip s ++ (b' ++ b))
    by (repeat rewrite <- app_assoc; reflexivity).
  apply strip_core; try (apply all_space_app; assumption).
  - apply strip_lstrip_fixed.
  - apply strip_rstrip_fixed.
Qed.

(** A prefix test that fails on [s] still fails when [s] is followed by
    a text starting with a character foreign to the prefix. *)
Lemma startswith_app_false (p s : str) (h : ascii) (y : str) :
  ~ In h p -> startswith p s = false -> startswith p (s ++ h :: y) = false.
Proof.
  revert s. induction p as [|x p IH]; intros s Hh H; simpl in *.
  - discriminate.
  - destruct s as [|c s]; simpl.
    + destruct (Ascii.eqb x h) eqn:E; [|reflexivity].
      apply Ascii.eqb_eq in E. exfalso. apply Hh. left. exact E.
    + destruct (Ascii.eqb x c); simpl in *; [|reflexivity].
      apply IH; [|exact H]. intros Hin. apply Hh. right. exact Hin.
Qed.

End StringFacts.

(* ===================================================================== *)
(** ** The AI processor: cleaning and parsing the completion *)
(* ===================================================================== *)

Section Cleaning.

(** What follows a fence and ends in the closing fence strips to the
    content's core, some whitespace, and the closing fence. *)
Lemma strip_before_closing_fence (w2 s w3 : str) :
  all_space w2 -> all_space w3 ->
  exists W, all_space W /\
    strip (w2 ++ s ++ w3 ++ fence_bare) = strip s ++ W ++ fence_bare.
Proof.
  intros H2 H3.
  destruct (strip_split s) as [a [b [Ha [Hb Hs]]]].
  pose proof (strip_lstrip_fixed s) as Hl.
  pose proof (strip_rstrip_fixed s) as Hr.
  destruct (strip s) as [|c k] eqn:Hk.
  - exists []. split; [constructor|]. simpl.
    replace (w2 ++ s ++ w3 ++ fence_bare)
      with ((w2 ++ s ++ w3) ++ fence_bare ++ [])
      by (rewrite app_nil_r; repeat rewrite <- app_assoc; reflexivity).
    apply strip_core; try constructor; try reflexivity.
    rewrite Hs. simpl.
    repeat (apply all_space_app; try assumption).
  - exists (b ++ w3). split; [apply all_space_app; assumption|].
    rewrite Hs.
    replace (w2 ++ (a ++ (c :: k) ++ b) ++ w3 ++ fence_bare)
      with ((w2 ++ a) ++ ((c :: k) ++ (b ++ w3) ++ fence_bare) ++ [])
      by (rewrite app_nil_r; repeat rewrite <- app_assoc; reflexivity).
    apply strip_core; try constructor; try (apply all_space_app; assumption).
    + apply lstrip_fixed_app; [exact Hl|discriminate].
    + replace ((c :: k) ++ (b ++ w3) ++ fence_bare)
        with (((c :: k) ++ b ++ w3) ++ fence_bare)
        by (repeat rewrite <- app_assoc; reflexivity).
      apply rstrip_fixed_app; [reflexivity|discriminate].
Qed.

(** After the opening fence has been removed: the closing fence goes, and
    what is left is the content stripped. *)
Lemma clean_after_opening_fence (w2 s w3 : str) :
  all_space w2 -> all_space w3 ->
  let cleaned := strip (w2 ++ s ++ w3 ++ fence_bare) in
  (if endswith fence_bare cleaned
   then strip (slice_drop_last (List.length fence_bare) cleaned)
   else cleaned) = strip s.
Proof.
  intros H2 H3 cleaned. subst cleaned.
  destruct (strip_before_closing_fence s H2 H3) as [W [HW ->]].
  replace (strip s ++ W ++ fence_bare) with ((strip s ++ W) ++ fence_bare)
    by (rewrite <- app_assoc; reflexivity).
  rewrite endswith_app. rewrite drop_last_suffix.
  change (strip s ++ W) with ([] ++ strip s ++ W).
  apply strip_core; try constructor; try assumption.
  - apply strip_lstrip_fixed.
  - apply strip_rstrip_fixed.
Qed.

(** A completion that is a fence, content and a closing fence inside
    whitespace strips to the same without the outer whitespace. *)
Lemma strip_fenced (fence w1 rest w4 : str) :
  all_space w1 -> all_space w4 ->
  fence = fence_json \/ fence = fence_bare ->
  strip (w1 ++ fence ++ rest ++ fence_bare ++ w4)
  = fence ++ rest ++ fence_bare.
Proof.
  intros H1 H4 Hf.
  replace (w1 ++ fence ++ rest ++ fence_bare ++ w4)
    with (w1 ++ (fence ++ rest ++ fence_bare) ++ w4)
    by (repeat rewrite <- app_assoc; reflexivity).
  apply strip_core; try assumption.
  - destruct Hf as [-> | ->]; reflexivity.
  - replace (fence ++ rest ++ fence_bare) with ((fence ++ rest) ++ fence_bare)
      by (rewrite <- app_assoc; reflexivity).
    apply rstrip_fixed_app; [reflexivity|discriminate].
Qed.

(** No whitespace character and no backquote occurs in [json]. *)
Lemma json_foreign_head (w3 : str) :
  all_space w3 ->
  exists h y, w3 ++ fence_bare = h :: y /\ ~ In h (py "json").
Proof.
  intros H3. destruct H3 as [|c w Hc _].
  - exists (chr 96), (py "``"). split; [reflexivity|].
    simpl. intros [E|[E|[E|[E|[]]]]]; discriminate E.
  - exists c, (w ++ fence_bare). split; [reflexivity|].
    simpl. intros [E|[E|[E|[E|[]]]]]; subst c; discriminate Hc.
Qed.

(** The cleaned text of a fenced completion is the content stripped. *)
Lemma clean_fenced (fence w1 w2 s w3 w4 : str) :
  all_space w1 -> all_space w2 -> all_space w3 -> all_space w4 ->
  fence = fence_json
  \/ (fence = fence_bare /\ startswith (py "json") (w2 ++ s) = false) ->
  _clean_json_string
    (strip (w1 ++ fence ++ w2 ++ s ++ w3 ++ fence_bare ++ w4))
  = strip s.
Proof.
  intros H1 H2 H3 H4 Hf.
  unfold _clean_json_string. rewrite strip_idem.
  replace (w1 ++ fence ++ w2 ++ s ++ w3 ++ fence_bare ++ w4)
    with (w1 ++ fence ++ (w2 ++ s ++ w3) ++ fence_bare ++ w4)
    by (repeat rewrite <- app_assoc; reflexivity).
  rewrite strip_fenced by (try assumption; tauto).
  replace ((w2 ++ s ++ w3) ++ fence_bare) with (w2 ++ s ++ w3 ++ fence_bare)
    by (repeat rewrite <- app_assoc; reflexivity).
  destruct Hf as [-> | [-> Hj]].
  - change (py "```json") with fence_json.
    rewrite startswith_app. unfold slice_from. rewrite skipn_prefix.
    apply clean_after_opening_fence; assumption.
  - assert (Hnot : startswith (py "```json")
                     (fence_bare ++ w2 ++ s ++ w3 ++ fence_bare) = false).
    { destruct (json_foreign_head H3) as [h [y [Hy Hh]]].
      change (startswith (py "json") (w2 ++ s ++ w3 ++ fence_bare) = false).
      replace (w2 ++ s ++ w3 ++ fence_bare) with ((w2 ++ s) ++ w3 ++ fence_bare)
        by (rewrite <- app_assoc; reflexivity).
      rewrite Hy. apply startswith_app_false; assumption. }
    rewrite Hnot.
    change (py "```") with fence_bare.
    rewrite startswith_app. unfold slice_from. rewrite skipn_prefix.
    apply clean_after_opening_fence; assumption.
Qed.

End Cleaning.

(* ===================================================================== *)
(** ** Running the services *)
(* ===================================================================== *)

(** Unfold the monad and the stream operations. *)
Ltac run :=
  cbv beta iota zeta delta
    [bind ret raise lift tell try_except try_finally attempt
     uuid_uuid4 file_read file_seek llm_invoke fetch_finally].

(** Split on the innermost scrutinee of the goal. *)
Ltac split_match :=
  match goal with
  | |- context [match ?x with _ => _ end] =>
      lazymatch x with
      | context [match _ with _ => _ end] => fail
      | _ => destruct x eqn:?
      end
  | |- context [if ?x then _ else _] =>
      lazymatch x with
      | context [match _ with _ => _ end] => fail
      | context [if _ then _ else _] => fail
      | _ => destruct x eqn:?
      end
  end.

Section Processor.

Variable settings : Settings.
Variable B : Backends.

Lemma error_result_well_formed (id : UUID) (message : str) :
  well_formed settings (error_result settings id message).
Proof.
  unfold well_formed, error_result. simpl. repeat split.
  - right. reflexivity.
  - discriminate.
Qed.

Lemma error_result_status (id : UUID) (message : str) :
  status (error_result settings id message) = py "error".
Proof. reflexivity. Qed.

(** [process_content] returns on every path, having invoked the model
    once, and its result is well formed. *)
Lemma process_content_total (self : AIProcessorService)
    (request_data : AIProcessingRequest) (st : State) :
  exists r,
    process_content settings B self request_data st
    = (Ok r, emit (Invoke (build_messages request_data)) st)
    /\ well_formed settings r
    /\ document_id r = req_document_id request_data.
Proof.
  unfold process_content. run.
  destruct (invoke (llm self) (build_messages request_data)) as [c|e].
  - destruct c as [s|ps]; simpl.
    + destruct (json_loads B (_clean_json_string (strip s))) as [v|e].
      * eexists. split; [reflexivity|]. unfold well_formed. simpl.
        repeat split; try discriminate. left. reflexivity.
      * destruct (is_JSONDecodeError e); eexists;
          (split; [reflexivity|]); unfold well_formed; simpl;
          repeat split; try discriminate; right; reflexivity.
    + eexists. split; [reflexivity|]. unfold well_formed. simpl.
      repeat split; try discriminate. right. reflexivity.
  - eexists. split; [reflexivity|]. unfold well_formed. simpl.
    repeat split; try discriminate. right. reflexivity.
Qed.

(** What [process_content] returns when the model answers with text. *)
Lemma process_content_text (self : AIProcessorService)
    (request_data : AIProcessingRequest) (st : State) (c : str) :
  invoke (llm self) (build_messages request_data) = Ok (Text c) ->
  process_content settings B self request_data st
  = (match json_loads B (_clean_json_string (strip c)) with
     | Ok structured_output =>
         Ok (mkResponse (req_document_id request_data) (py "success")
               structured_output (AI_MODEL_NAME settings) None)
     | Raise e =>
         if is_JSONDecodeError e then
           Ok (mkResponse (req_document_id request_data) (py "error") JNull
                 (AI_MODEL_NAME settings)
                 (Some (py "AI model response was not valid JSON. Parse Error: "
                        ++ exc_str e ++ py ". Raw (cleaned) start: '"
                        ++ slice_to 100 (_clean_json_string (strip c))
                        ++ py "...'")))
         else
           Ok (mkResponse (req_document_id request_data) (py "error") JNull
                 (AI_MODEL_NAME settings)
                 (Some (py "Unexpected error parsing AI output: "
                        ++ exc_str e)))
     end,
     emit (Invoke (build_messages request_data)) st).
Proof.
  intros H. unfold process_content. run. rewrite H. simpl.
  destruct (json_loads B (_clean_json_string (strip c))) as [v|e];
    [reflexivity|].
  destruct (is_JSONDecodeError e); reflexivity.
Qed.

End Processor.

(* ===================================================================== *)
(** ** The text extractor *)
(* ===================================================================== *)

Section Extractor.

Variable settings : Settings.
Variable B : Backends.

Lemma emit_log (ev : Event) (st : State) : log (emit ev st) = log st ++ [ev].
Proof. reflexivity. Qed.

Lemma extract_pages_texts (ps : list (res str)) (acc : list str) :
  extract_pages ps acc = acc ++ map strip (page_texts ps).
Proof.
  revert acc. induction ps as [|p ps IH]; intros acc; simpl.
  - symmetry. apply app_nil_r.
  - destruct p as [t|e].
    + destruct (truthy t); rewrite IH; simpl.
      * rewrite <- app_assoc. reflexivity.
      * reflexivity.
    + apply IH.
Qed.

Lemma page_texts_app (ps qs : list (res str)) :
  page_texts (ps ++ qs) = page_texts ps ++ page_texts qs.
Proof.
  induction ps as [|p ps IH]; simpl; [reflexivity|].
  destruct p as [t|e]; [destruct (truthy t)|]; simpl; rewrite IH; reflexivity.
Qed.

Lemma page_texts_no_text (ps : list (res str)) :
  Forall no_text ps -> page_texts ps = [].
Proof.
  induction 1 as [|p ps Hp _ IH]; simpl; [reflexivity|].
  destruct p as [t|e]; [|exact IH]. simpl in Hp. subst t. exact IH.
Qed.

(** The [except] clauses of the fetch always raise, and leave the state
    alone. *)
Lemma fetch_except_raises (object_name : str) (e : exc) (st : State) :
  exists e', fetch_except settings object_name e st = (Raise e', st).
Proof.
  unfold fetch_except. run.
  repeat split_match; eexists; reflexivity.
Qed.

(** The fetch logs the same events on every path. *)
Lemma fetch_pdf_data_log (object_name : str) (st : State) :
  log (snd (fetch_pdf_data settings B object_name st))
  = log st ++ fetch_events settings B object_name.
Proof.
  unfold fetch_pdf_data, fetch_events. run.
  destruct (get_object B (MINIO_BUCKET_NAME settings) object_name)
    as [response|e].
  - destruct (read response) as [data|e]; simpl.
    + repeat rewrite <- app_assoc. reflexivity.
    + destruct (fetch_except_raises object_name e
                  (emit (ReadBody (conn response))
                     (emit (Acquired (conn response))
                        (emit (GetObject (MINIO_BUCKET_NAME settings)
                                 object_name) st)))) as [e' ->].
      simpl. repeat rewrite <- app_assoc. reflexivity.
  - destruct (fetch_except_raises object_name e
                (emit (GetObject (MINIO_BUCKET_NAME settings) object_name) st))
      as [e' ->].
    reflexivity.
Qed.

(** Fetching an object that the store serves. *)
Lemma fetch_pdf_data_ok (object_name : str) (st : State)
    (response : HTTPResponse) (pdf_data : bytes) :
  get_object B (MINIO_BUCKET_NAME settings) object_name = Ok response ->
  read response = Ok pdf_data ->
  exists st', fetch_pdf_data settings B object_name st = (Ok pdf_data, st').
Proof.
  intros Hg Hr. unfold fetch_pdf_data. run. rewrite Hg, Hr. simpl.
  eexists. reflexivity.
Qed.

(** What the [except] clauses raise does not depend on the state. *)
Lemma fetch_except_fst (object_name : str) (e : exc) (st st0 : State) :
  fetch_except settings object_name e st
  = (fst (fetch_except settings object_name e st0), st).
Proof.
  unfold fetch_except. run.
  repeat split_match; reflexivity.
Qed.

(** A fetch that fails raises what the [except] clauses make of the
    failure. *)
Lemma fetch_pdf_data_fails (object_name : str) (st : State) (e : exc) :
  get_object B (MINIO_BUCKET_NAME settings) object_name = Raise e
  \/ (exists response,
        get_object B (MINIO_BUCKET_NAME settings) object_name = Ok response
        /\ read response = Raise e) ->
  exists st',
    fetch_pdf_data settings B object_name st
    = (fst (fetch_except settings object_name e st), st').
Proof.
  intros [Hg | [response [Hg Hr]]]; unfold fetch_pdf_data; run; rewrite Hg.
  - rewrite (fetch_except_fst object_name e _ st).
    destruct (fetch_except_raises object_name e st) as [e2 H2].
    rewrite H2. simpl. eexists. reflexivity.
  - rewrite Hr. simpl.
    rewrite (fetch_except_fst object_name e _ st).
    destruct (fetch_except_raises object_name e st) as [e2 H2].
    rewrite H2. simpl. eexists. reflexivity.
Qed.

(** Reading the document emits no event. *)
Lemma read_pdf_state (object_name : str) (pdf_data : bytes) (st : State) :
  snd (read_pdf B object_name pdf_data st) = st.
Proof.
  unfold read_pdf. run.
  repeat split_match; reflexivity.
Qed.

(** The whole extraction logs exactly the events of its fetch. *)
Lemma extract_log (object_name : str) (st : State) :
  log (snd (extract_text_from_pdf settings B object_name st))
  = log st ++ fetch_events settings B object_name.
Proof.
  rewrite <- fetch_pdf_data_log.
  unfold extract_text_from_pdf. unfold bind at 1.
  destruct (fetch_pdf_data settings B object_name st) as [[data|e] st1];
    [|reflexivity].
  destruct (truthy data); simpl; [|reflexivity].
  run.
  pose proof (read_pdf_state object_name data st1) as Hs.
  destruct (read_pdf B object_name data st1) as [[texts|e] st2];
    simpl in Hs; subst st2.
  - destruct (truthy texts); reflexivity.
  - destruct (is_PdfReadError e); reflexivity.
Qed.

(** Extraction of a document that is fetched and opened. *)
Lemma extract_parsed (object_name : str) (st : State)
    (response : HTTPResponse) (pdf_data : bytes) (reader : PdfReader)
    (ps : list (res str)) :
  get_object B (MINIO_BUCKET_NAME settings) object_name = Ok response ->
  read response = Ok pdf_data ->
  pdf_data <> [] ->
  pypdf_PdfReader B pdf_data = Ok reader ->
  is_encrypted reader = false \/ decrypt reader [] = Ok true ->
  pages reader = Ok ps ->
  exists st',
    extract_text_from_pdf settings B object_name st
    = (Ok (join [NL; NL] (map strip (page_texts ps))), st').
Proof.
  intros Hg Hr Hd Ho He Hp.
  destruct (fetch_pdf_data_ok object_name st Hg Hr) as [st1 Hf].
  unfold extract_text_from_pdf. unfold bind at 1. rewrite Hf.
  destruct pdf_data as [|b data]; [congruence|]. simpl.
  unfold read_pdf. run. rewrite Ho.
  eexists.
  destruct He as [He | He].
  - rewrite He. rewrite Hp. simpl. rewrite extract_pages_texts. simpl.
    destruct (map strip (page_texts ps)); reflexivity.
  - rewrite He. simpl. destruct (is_encrypted reader); rewrite Hp; simpl;
      rewrite extract_pages_texts; simpl;
      destruct (map strip (page_texts ps)); reflexivity.
Qed.

End Extractor.

(* ===================================================================== *)
(** ** The upload handler *)
(* ===================================================================== *)

Section Orchestrator.

Variable settings : Settings.
Variable B : Backends.

Lemma existsb_snoc (f : Event -> bool) (l : list Event) (ev : Event) :
  existsb f (l ++ [ev]) = existsb f l || f ev.
Proof. rewrite existsb_app. simpl. rewrite orb_false_r. reflexivity. Qed.

(** Step 2 returns on every path: either a well-formed error result, or
    nothing; it touches only the upload stream. *)
Lemma validate_size_total (file : UploadFile) (temp : UUID) (st : State) :
  exists o st',
    validate_size settings file temp st = (Ok o, st')
    /\ (forall r, o = Some r ->
          well_formed settings r /\ status r = py "error")
    /\ (forall f, f FileRead = false -> (forall n, f (FileSeek n) = false) ->
          existsb f (log st') = existsb f (log st)).
Proof.
  unfold validate_size. run.
  destruct (fault file (file_ops st)) as [e|].
  - do 2 eexists. split; [reflexivity|]. split.
    + intros r [= <-]. split;
        [apply error_result_well_formed | reflexivity].
    + intros f H1 H2. simpl. rewrite existsb_snoc, H1. apply orb_false_r.
  - destruct (MAX_UPLOAD_SIZE settings <?
              N.of_nat (List.length (skipn (file_pos st) (body file))))%N.
    + do 2 eexists. split; [reflexivity|]. split.
      * intros r [= <-]. split;
          [apply error_result_well_formed | reflexivity].
      * intros f H1 H2. simpl. rewrite existsb_snoc, H1. apply orb_false_r.
    + simpl. destruct (fault file (S (file_ops st))) as [e|].
      * do 2 eexists. split; [reflexivity|]. split.
        -- intros r [= <-]. split;
             [apply error_result_well_formed | reflexivity].
        -- intros f H1 H2. simpl. rewrite !existsb_snoc, H1, H2.
           rewrite !orb_false_r. reflexivity.
      * do 2 eexists. split; [reflexivity|]. split.
        -- intros r [=].
        -- intros f H1 H2. simpl. rewrite !existsb_snoc, H1, H2.
           rewrite !orb_false_r. reflexivity.
Qed.

(** Storing invokes no model. *)
Lemma store_and_name_no_invoke (file : UploadFile) (temp : UUID) (st : State) :
  existsb is_invoke (log (snd (store_and_name settings B file temp st)))
  = existsb is_invoke (log st).
Proof.
  unfold store_and_name, store_file. run.
  repeat split_match; simpl;
    rewrite ?emit_log, ?existsb_snoc; simpl;
    rewrite ?existsb_snoc; simpl; rewrite ?orb_false_r; reflexivity.
Qed.

(** Step 5 returns a well-formed result on every path. *)
Lemma process_with_ai_total (id : UUID) (text prompt : str) (st : State) :
  exists r st',
    process_with_ai settings B id text prompt st = (Ok r, st')
    /\ well_formed settings r.
Proof.
  unfold process_with_ai.
  destruct (ai_processor_service settings B) as [service|].
  - destruct (process_content_total settings B service
                (mkRequest id text prompt) st) as [r [Hr [Hw _]]].
    unfold try_except. rewrite Hr. eauto.
  - do 2 eexists. split; [reflexivity|]. apply error_result_well_formed.
Qed.

(** Steps 4 and 5 return a well-formed result on every path. *)
Lemma extract_and_process_total (id : UUID) (object_name prompt : str)
    (st : State) :
  exists r st',
    extract_and_process settings B id object_name prompt st = (Ok r, st')
    /\ well_formed settings r.
Proof.
  unfold extract_and_process.
  destruct (truthy object_name).
  - unfold bind, attempt.
    destruct (extract_text_from_pdf settings B object_name st)
      as [[text|e] st1].
    + destruct (truthy text); simpl.
      * apply process_with_ai_total.
      * do 2 eexists. split; [reflexivity|].
        unfold well_formed. simpl. repeat split; try discriminate.
        left. reflexivity.
    + run. repeat split_match; do 2 eexists;
        (split; [reflexivity | apply error_result_well_formed]).
  - do 2 eexists. split; [reflexivity|]. apply error_result_well_formed.
Qed.

(** The handler as the sequence of its steps. *)
Lemma upload_steps (file : UploadFile) (prompt : str)
    (description : option str) (st : State) :
  upload_document_and_process settings B file prompt description st
  = let temp := uuid4 B (uuids_drawn st) in
    if valid_file_type settings file then
      match validate_size settings file temp (after_uuid st) with
      | (Ok (Some response), st1) => (Ok response, st1)
      | (Ok None, st1) =>
          match store_and_name settings B file temp st1 with
          | (Ok (object_name, actual), st2) =>
              extract_and_process settings B (or_else actual temp)
                object_name prompt st2
          | (Raise e, st2) =>
              (Ok (if is_HTTPException e then
                     error_result settings temp
                       (py "Storage Error: " ++ http_detail e)
                   else
                     error_result settings temp
                       (py "Unexpected error storing document: "
                        ++ exc_str e)), st2)
          end
      | (Raise e, st1) => (Raise e, st1)
      end
    else
      (Ok (error_result settings temp
             (py "Invalid file type. Only "
              ++ join (py ", ") (ALLOWED_EXTENSIONS settings)
              ++ py " files are allowed.")), after_uuid st).
Proof.
  unfold upload_document_and_process, after_uuid. run.
  destruct (valid_file_type settings file); simpl; [|reflexivity].
  match goal with |- context [validate_size ?a ?b ?c ?d] =>
    destruct (validate_size a b c d) as [[[r|]|e] st1] end;
    try reflexivity.
  destruct (store_and_name settings B file (uuid4 B (uuids_drawn st)) st1)
    as [[[object_name actual]|e] st2]; simpl.
  - reflexivity.
  - destruct (is_HTTPException e); reflexivity.
Qed.

(** The handler returns a well-formed result on every path. *)
Lemma upload_total (file : UploadFile) (prompt : str)
    (description : option str) (st : State) :
  exists r st',
    upload_document_and_process settings B file prompt description st
    = (Ok r, st')
    /\ well_formed settings r.
Proof.
  rewrite upload_steps. cbv zeta.
  destruct (valid_file_type settings file).
  - destruct (validate_size_total file (uuid4 B (uuids_drawn st))
                (after_uuid st)) as [o [st1 [Hv [Ho _]]]].
    rewrite Hv. destruct o as [r|].
    + exists r, st1. split; [reflexivity|]. apply (Ho r eq_refl).
    + destruct (store_and_name settings B file (uuid4 B (uuids_drawn st)) st1)
        as [[[object_name actual]|e] st2].
      * apply extract_and_process_total.
      * do 2 eexists. split; [reflexivity|].
        destruct (is_HTTPException e); apply error_result_well_formed.
  - do 2 eexists. split; [reflexivity|]. apply error_result_well_formed.
Qed.

End Orchestrator.

Section Failures.

Variable settings : Settings.
Variable B : Backends.

(** Step 2 at the start of a request. *)
Lemma validate_size_start (file : UploadFile) (temp : UUID) (n : nat) :
  validate_size settings file temp (after_uuid (request_start n))
  = match fault file 0 with
    | Some e =>
        (Ok (Some (error_result settings temp
                     (py "Error reading uploaded file: " ++ exc_str e))),
         mkState [FileRead] 0 1 (S n))
    | None =>
        if (MAX_UPLOAD_SIZE settings <? N.of_nat (List.length (body file)))%N
        then
          (Ok (Some (error_result settings temp
                       (py "File size exceeds maximum allowed ("
                        ++ str_of_N (MAX_UPLOAD_SIZE settings / (1024 * 1024))
                        ++ py "MB)."))),
           mkState [FileRead] (List.length (body file)) 1 (S n))
        else
          match fault file 1 with
          | Some e =>
              (Ok (Some (error_result settings temp
                           (py "Error reading uploaded file: " ++ exc_str e))),
               mkState [FileRead; FileSeek 0] (List.length (body file)) 2 (S n))
          | None => (Ok None, validated n)
          end
    end.
Proof.
  unfold validate_size, after_uuid, request_start, validated. run. simpl.
  destruct (fault file 0); [reflexivity|].
  destruct (MAX_UPLOAD_SIZE settings <? N.of_nat (List.length (body file)))%N;
    [reflexivity|].
  simpl. destruct (fault file 1); reflexivity.
Qed.

(** What steps 4 and 5 return when the extraction raises. *)
Lemma extract_and_process_raised (id : UUID) (object_name prompt : str)
    (st : State) (e : exc) (st1 : State) :
  extract_text_from_pdf settings B object_name st = (Raise e, st1) ->
  exists r st',
    extract_and_process settings B id object_name prompt st = (Ok r, st')
    /\ status r = py "error".
Proof.
  intros H. unfold extract_and_process.
  destruct (truthy object_name).
  - unfold bind, attempt. rewrite H. run.
    repeat split_match; do 2 eexists; split; reflexivity.
  - do 2 eexists. split; reflexivity.
Qed.

(** What steps 4 and 5 do when the extraction returns text. *)
Lemma extract_and_process_text (id : UUID) (object_name prompt : str)
    (st : State) (text : str) (st1 : State) :
  extract_text_from_pdf settings B object_name st = (Ok text, st1) ->
  text <> [] ->
  extract_and_process settings B id object_name prompt st
  = if truthy object_name then process_with_ai settings B id text prompt st1
    else (Ok (error_result settings id
                (py "Internal error: Storage location missing after successful upload.")),
          st).
Proof.
  intros H Ht. unfold extract_and_process.
  destruct (truthy object_name); [|reflexivity].
  unfold bind, attempt. rewrite H.
  destruct text; [congruence|reflexivity].
Qed.

(** Step 5 when the model does not answer with text. *)
Lemma process_with_ai_no_text (id : UUID) (text prompt : str) (st : State)
    (service : AIProcessorService) :
  ai_processor_service settings B = Some service ->
  (forall c, invoke (llm service) (build_messages (mkRequest id text prompt))
             <> Ok (Text c)) ->
  exists r st',
    process_with_ai settings B id text prompt st = (Ok r, st')
    /\ status r = py "error".
Proof.
  intros Hs Hc. unfold process_with_ai. rewrite Hs.
  unfold process_content. run.
  destruct (invoke (llm service) (build_messages (mkRequest id text prompt)))
    as [[c|ps]|e].
  - exfalso. apply (Hc c). reflexivity.
  - do 2 eexists. split; reflexivity.
  - do 2 eexists. split; reflexivity.
Qed.

(** Step 5 when the completion does not parse. *)
Lemma process_with_ai_unparsed (id : UUID) (text prompt : str) (st : State)
    (service : AIProcessorService) (c : str) (e : exc) :
  ai_processor_service settings B = Some service ->
  invoke (llm service) (build_messages (mkRequest id text prompt))
  = Ok (Text c) ->
  json_loads B (_clean_json_string (strip c)) = Raise e ->
  exists r st',
    process_with_ai settings B id text prompt st = (Ok r, st')
    /\ status r = py "error".
Proof.
  intros Hs Hc He. unfold process_with_ai. rewrite Hs.
  unfold try_except. rewrite (process_content_text settings B _ _ st Hc).
  rewrite He. destruct (is_JSONDecodeError e); do 2 eexists; split; reflexivity.
Qed.

(** Every failure of a request ends in a result with [status = error]. *)
Lemma upload_failure_error (file : UploadFile) (prompt : str)
    (description : option str) (n : nat) (r : AIProcessingResponse)
    (st' : State) :
  upload_document_and_process settings B file prompt description
    (request_start n) = (Ok r, st') ->
  failure settings B file prompt n ->
  status r = py "error".
Proof.
  intros H F. rewrite upload_steps in H. cbv zeta in H.
  change (uuids_drawn (request_start n)) with n in H.
  rewrite validate_size_start in H.
  destruct (valid_file_type settings file) eqn:V;
    [|injection H as <- _; reflexivity].
  destruct (fault file 0) eqn:F0; [injection H as <- _; reflexivity|].
  destruct (MAX_UPLOAD_SIZE settings <? N.of_nat (List.length (body file)))%N
    eqn:Sz; [injection H as <- _; reflexivity|].
  destruct (fault file 1) eqn:F1; [injection H as <- _; reflexivity|].
  destruct (store_and_name settings B file (uuid4 B n) (validated n))
    as [[[object_name actual]|e] st2] eqn:St;
    [|injection H as <- _; destruct (is_HTTPException e); reflexivity].
  destruct F as [V' | Sz' | k e Hk Hf | e s2 St' | o a s2 e s3 St' Hx
                | o a s2 text s3 St' Hx Ht Hs
                | o a s2 text s3 service St' Hx Ht Hs Hc
                | o a s2 text s3 service c e St' Hx Ht Hs Hc He].
  - congruence.
  - apply N.ltb_ge in Sz. lia.
  - destruct k as [|[|k]]; [congruence|congruence|lia].
  - congruence.
  - rewrite St in St'. injection St' as <- <- <-.
    destruct (extract_and_process_raised (or_else actual (uuid4 B n))
                object_name prompt st2 Hx) as [r' [st'' [Hr Hst]]].
    congruence.
  - rewrite St in St'. injection St' as <- <- <-.
    rewrite (extract_and_process_text _ _ prompt _ Hx Ht) in H.
    destruct (truthy object_name); [|injection H as <- _; reflexivity].
    unfold process_with_ai in H. rewrite Hs in H.
    injection H as <- _. reflexivity.
  - rewrite St in St'. injection St' as <- <- <-.
    rewrite (extract_and_process_text _ _ prompt _ Hx Ht) in H.
    destruct (truthy object_name); [|injection H as <- _; reflexivity].
    destruct (process_with_ai_no_text _ _ _ s3 Hs Hc) as [r' [st'' [Hr Hst]]].
    congruence.
  - rewrite St in St'. injection St' as <- <- <-.
    rewrite (extract_and_process_text _ _ prompt _ Hx Ht) in H.
    destruct (truthy object_name); [|injection H as <- _; reflexivity].
    destruct (process_with_ai_unparsed _ _ _ s3 Hs Hc He) as [r' [st'' [Hr Hst]]].
    congruence.
Qed.

End Failures.

(* ===================================================================== *)
(** ** Properties of the pipeline *)
(* ===================================================================== *)

Section Properties.

Variable settings : Settings.
Variable B : Backends.

(** C1. Every upload request that reaches the handler gets a response
    object of the uniform shape, sent with status 200: the handler returns
    on every path and raises nothing, whatever the stream, the store, the
    PDF library, the model and the JSON decoder do.  Every failure class
    (invalid input, storage error, object not found or extraction error,
    AI unavailable, AI invocation error, AI output invalid) ends in a
    result with [status = error]. *)
Theorem upload_always_responds (file : UploadFile) (prompt : str)
    (description : option str) (n : nat) :
  exists r st',
    upload_document_and_process settings B file prompt description
      (request_start n) = (Ok r, st')
    /\ http_response
         (fst (upload_document_and_process settings B file prompt description
                 (request_start n))) = (200%N, Some r)
    /\ well_formed settings r
    /\ (failure settings B file prompt n -> status r = py "error").
Proof.
  destruct (upload_total settings B file prompt description (request_start n))
    as [r [st' [Hrun Hwf]]].
  exists r, st'. split; [exact Hrun|]. split; [rewrite Hrun; reflexivity|].
  split; [exact Hwf|].
  intros F. exact (upload_failure_error description Hrun F).
Qed.

(** C7. On every terminal outcome the result names the configured model:
    the result of the handler, from any state, and the result of the AI
    processor, whether the model answered, failed, or answered with text
    that does not parse. *)
Theorem model_used_is_configured :
  (forall file prompt description st,
     exists r st',
       upload_document_and_process settings B file prompt description st
       = (Ok r, st')
       /\ model_used r = AI_MODEL_NAME settings)
  /\ (forall self request_data st,
        exists r st',
          process_content settings B self request_data st = (Ok r, st')
          /\ model_used r = AI_MODEL_NAME settings).
Proof.
  split.
  - intros file prompt description st.
    destruct (upload_total settings B file prompt description st)
      as [r [st' [Hrun [_ [Hm _]]]]].
    exists r, st'. split; assumption.
  - intros self request_data st.
    destruct (process_content_total settings B self request_data st)
      as [r [Hrun [[_ [Hm _]] _]]].
    exists r. eexists. split; [exact Hrun | exact Hm].
Qed.

Lemma invalid_type_run (file : UploadFile) (prompt : str)
    (description : option str) (st : State) :
  valid_file_type settings file = false ->
  upload_document_and_process settings B file prompt description st
  = (Ok (invalid_type_result settings (uuid4 B (uuids_drawn st))),
     after_uuid st).
Proof.
  intros H. rewrite upload_steps. cbv zeta. rewrite H. reflexivity.
Qed.

Lemma disallowed_extension_invalid (file : UploadFile) :
  (forall name, filename file = Some name ->
                extension_allowed settings name = false) ->
  valid_file_type settings file = false.
Proof.
  intros H. unfold valid_file_type.
  destruct (filename file) as [name|]; [|reflexivity].
  rewrite (H name eq_refl). apply andb_false_r.
Qed.

(** C2. An upload whose file name does not end, case-insensitively, in an
    allowed extension, or whose body is longer than the maximum size, gets
    a result with [status = error], and the request makes no call to the
    store operation of the storage service. *)
Theorem rejected_upload_is_not_stored (file : UploadFile) (prompt : str)
    (description : option str) (n : nat) :
  (forall name, filename file = Some name ->
                extension_allowed settings name = false)
  \/ (MAX_UPLOAD_SIZE settings < N.of_nat (List.length (body file)))%N ->
  exists r st',
    upload_document_and_process settings B file prompt description
      (request_start n) = (Ok r, st')
    /\ status r = py "error"
    /\ existsb is_store_call (log st') = false.
Proof.
  intros H.
  destruct (valid_file_type settings file) eqn:V.
  - destruct H as [H | H].
    { rewrite (disallowed_extension_invalid file H) in V. discriminate. }
    rewrite upload_steps. cbv zeta. rewrite V.
    change (uuids_drawn (request_start n)) with n.
    rewrite validate_size_start.
    destruct (fault file 0).
    + do 2 eexists. repeat split.
    + apply N.ltb_lt in H. rewrite H. do 2 eexists. repeat split.
  - rewrite (invalid_type_run file prompt description _ V).
    do 2 eexists. repeat split.
Qed.

(** C10. An upload whose file name is missing or empty gets the result
    that cites an invalid file type, the very result of an upload with a
    disallowed extension; the handler raises nothing and the request ends
    there, with nothing logged: no read of the body and no call to the
    store. *)
Theorem missing_filename_is_invalid_type (file : UploadFile) (prompt : str)
    (description : option str) (n : nat) :
  filename file = None \/ filename file = Some [] ->
  upload_document_and_process settings B file prompt description
    (request_start n)
  = (Ok (invalid_type_result settings (uuid4 B n)), mkState [] 0 0 (S n))
  /\ status (invalid_type_result settings (uuid4 B n)) = py "error"
  /\ (forall other,
        (forall name, filename other = Some name ->
                      extension_allowed settings name = false) ->
        upload_document_and_process settings B other prompt description
          (request_start n)
        = upload_document_and_process settings B file prompt description
            (request_start n)).
Proof.
  intros H.
  assert (V : valid_file_type settings file = false).
  { unfold valid_file_type. destruct H as [-> | ->]; reflexivity. }
  split; [|split].
  - exact (invalid_type_run file prompt description (request_start n) V).
  - reflexivity.
  - intros other Ho.
    rewrite (invalid_type_run file prompt description _ V).
    apply invalid_type_run. apply disallowed_extension_invalid. exact Ho.
Qed.

End Properties.

Section ExtractionProperties.

Variable settings : Settings.
Variable B : Backends.

Lemma fetch_events_no_invoke (object_name : str) :
  existsb is_invoke (fetch_events settings B object_name) = false.
Proof.
  unfold fetch_events.
  destruct (get_object B (MINIO_BUCKET_NAME settings) object_name);
    reflexivity.
Qed.

Lemma extract_parsed_as (object_name : str) (st : State)
    (ps : list (res str)) :
  parses_as settings B object_name ps ->
  exists st',
    extract_text_from_pdf settings B object_name st
    = (Ok (join [NL; NL] (map strip (page_texts ps))), st').
Proof.
  intros [response [pdf_data [reader [Hg [Hr [Hd [Ho [He Hp]]]]]]]].
  eapply extract_parsed; eassumption.
Qed.

(** C3. When the upload is valid and stored, and the stored document
    opens with no page of extractable text, the extraction returns the
    empty string and raises nothing; the handler then returns
    [status = success] with the fixed payload that says no text was
    found, and the model has not been invoked. *)
Theorem no_text_document_succeeds (file : UploadFile) (prompt : str)
    (description : option str) (n : nat) (object_name : str)
    (actual : option UUID) (st2 : State) (ps : list (res str)) :
  valid_upload settings file ->
  store_and_name settings B file (uuid4 B n) (validated n)
  = (Ok (object_name, actual), st2) ->
  object_name <> [] ->
  parses_as settings B object_name ps ->
  Forall no_text ps ->
  exists st3,
    extract_text_from_pdf settings B object_name st2 = (Ok [], st3)
    /\ upload_document_and_process settings B file prompt description
         (request_start n)
       = (Ok (no_text_result settings (or_else actual (uuid4 B n))), st3)
    /\ existsb is_invoke (log st3) = false.
Proof.
  intros [V [F0 [F1 Sz]]] Hst Hname Hparse Hnone.
  destruct (@extract_parsed_as object_name st2 ps Hparse) as [st3 Hx].
  rewrite (@page_texts_no_text ps Hnone) in Hx. simpl in Hx.
  exists st3. split; [exact Hx|]. split.
  - rewrite upload_steps. cbv zeta. rewrite V.
    change (uuids_drawn (request_start n)) with n.
    rewrite validate_size_start. rewrite F0, F1.
    apply N.ltb_ge in Sz. rewrite Sz. rewrite Hst.
    unfold extract_and_process.
    destruct object_name as [|c name]; [congruence|]. simpl.
    unfold bind, attempt. rewrite Hx. reflexivity.
  - pose proof (extract_log settings B object_name st2) as Hlog.
    rewrite Hx in Hlog. simpl in Hlog. rewrite Hlog.
    rewrite existsb_app, fetch_events_no_invoke, orb_false_r.
    pose proof (store_and_name_no_invoke settings B file (uuid4 B n)
                  (validated n)) as Hs.
    rewrite Hst in Hs. exact Hs.
Qed.

(** C4 (amended). When the stored object opens as a paginated document,
    the extraction goes through the pages in order and returns the texts
    of the pages whose extraction gave a non-empty string, each stripped
    of surrounding whitespace, joined by a blank line.  A page whose
    extraction raises contributes nothing and does not stop the pages
    after it. *)
Theorem extract_joins_stripped_page_texts (object_name : str) (st : State)
    (ps : list (res str)) :
  parses_as settings B object_name ps ->
  (exists st',
     extract_text_from_pdf settings B object_name st
     = (Ok (join [NL; NL] (map strip (page_texts ps))), st'))
  /\ (forall before e after,
        ps = before ++ Raise e :: after ->
        page_texts ps = page_texts before ++ page_texts after).
Proof.
  intros Hparse. split.
  - apply extract_parsed_as. exact Hparse.
  - intros before e after ->. rewrite page_texts_app. reflexivity.
Qed.

(** A fetch that fails with an exception that is no [MinioException], as
    the exceptions of the HTTP layer under the storage client are, leaves
    the extractor as the [HTTPException] with status 500 of an unexpected
    error, and the result of the request reports it as a storage
    error. *)
Lemma fetch_failure_outside_client (id : UUID)
    (object_name prompt : str) (st : State) (e : exc) :
  object_name <> [] ->
  fetch_fails settings B object_name e ->
  is_MinioException e = false ->
  exists st1 r,
    extract_text_from_pdf settings B object_name st
    = (Raise (HTTPException 500 (py "Unexpected error retrieving PDF file.")),
       st1)
    /\ extract_and_process settings B id object_name prompt st = (Ok r, st1)
    /\ status r = py "error"
    /\ error_message r
       = Some (py "Storage error during extraction: Unexpected error retrieving PDF file.").
Proof.
  intros Hname Hfail Hm.
  destruct (@fetch_pdf_data_fails settings B object_name st e Hfail)
    as [st1 Hf].
  assert (He : fetch_except settings object_name e st
               = (Raise (HTTPException 500
                           (py "Unexpected error retrieving PDF file.")), st)).
  { unfold fetch_except. destruct e; try discriminate Hm; reflexivity. }
  rewrite He in Hf. simpl in Hf.
  assert (Hx : extract_text_from_pdf settings B object_name st
               = (Raise (HTTPException 500
                           (py "Unexpected error retrieving PDF file.")),
                  st1)).
  { unfold extract_text_from_pdf. unfold bind at 1. rewrite Hf.
    reflexivity. }
  exists st1.
  unfold extract_and_process.
  destruct object_name as [|c name]; [congruence|].
  cbn [truthy]. unfold bind, attempt. rewrite Hx.
  eexists. repeat split; reflexivity.
Qed.

(** C9. On every path of the extraction, the events it logs are those of
    the fetch, and none of the handles acquired in them is left open: when
    [get_object] has returned a response object, the response is closed
    and its connection released, in this order, whether the read and the
    parsing succeed or not. *)
Theorem handle_released_on_every_path (object_name : str) (st : State) :
  exists evs,
    log (snd (extract_text_from_pdf settings B object_name st))
    = log st ++ evs
    /\ leaked evs = []
    /\ (forall response,
          get_object B (MINIO_BUCKET_NAME settings) object_name = Ok response ->
          exists before,
            evs = before ++ [Closed (conn response); Released (conn response)]
            /\ In (Acquired (conn response)) before).
Proof.
  exists (fetch_events settings B object_name).
  split; [apply extract_log|].
  unfold fetch_events.
  destruct (get_object B (MINIO_BUCKET_NAME settings) object_name)
    as [response|e].
  - split.
    + simpl. rewrite !Nat.eqb_refl. reflexivity.
    + intros r [= <-].
      exists [GetObject (MINIO_BUCKET_NAME settings) object_name;
              Acquired (conn response); ReadBody (conn response)].
      split; [reflexivity|]. simpl. auto.
  - split; [reflexivity|]. intros r [=].
Qed.

End ExtractionProperties.

Section ProcessorProperties.

Variable settings : Settings.
Variable B : Backends.

(** C5 (amended). When the completion is a string [s] between an opening
    fence (with the [json] tag, or bare) and a closing fence, with
    optional whitespace around the fences, the processor parses [s]
    stripped of its own surrounding whitespace: the status and the
    structured output are those of parsing [s.strip()].  For the bare
    fence this holds when the text after it does not begin with the
    letters [json]. *)
Theorem fenced_completion_parses_as_stripped_content
    (self : AIProcessorService) (request_data : AIProcessingRequest)
    (st : State) (fence w1 w2 s w3 w4 : str) :
  all_space w1 -> all_space w2 -> all_space w3 -> all_space w4 ->
  fence = fence_json
  \/ (fence = fence_bare /\ startswith (py "json") (w2 ++ s) = false) ->
  invoke (llm self) (build_messages request_data)
  = Ok (Text (w1 ++ fence ++ w2 ++ s ++ w3 ++ fence_bare ++ w4)) ->
  exists r st',
    process_content settings B self request_data st = (Ok r, st')
    /\ (status r, ai_structured_output r) = parsed_directly B (strip s).
Proof.
  intros H1 H2 H3 H4 Hf Hc.
  rewrite (process_content_text settings B self request_data st Hc).
  rewrite (@clean_fenced fence w1 w2 s w3 w4 H1 H2 H3 H4 Hf).
  unfold parsed_directly.
  destruct (json_loads B (strip s)) as [v|e].
  - do 2 eexists. split; reflexivity.
  - destruct (is_JSONDecodeError e); do 2 eexists; split; reflexivity.
Qed.


End ProcessorProperties.

(* ===================================================================== *)
(** ** Concrete runs *)
(* ===================================================================== *)

(** The invoice scenario: a two-page document, a model that answers with
    a fenced JSON object. *)
Example invoice_scenario :
  exists st',
    upload_document_and_process Demo.settings
      (healthy [Ok (py "Vendor: Acme"); Ok (py "Total: 10")]
               (Ok (Text (fence_json ++ [NL] ++ vendor_json ++ [NL]
                          ++ fence_bare))))
      Demo.invoice_pdf (py "Extract the vendor as JSON") None
      (request_start 0)
    = (Ok (mkResponse 1311768467463790321%N (py "success")
             (JObj [(py "vendor", JStr (py "Acme"))])
             (py "gemini-2.0-flash") None), st').
Proof. eexists. vm_compute. reflexivity. Qed.

(** The scenario of an unreachable store. *)
Example unreachable_store_scenario :
  exists st',
    upload_document_and_process Demo.settings
      (Demo.backends (Raise (MinioException (py "connection refused")))
         (Raise (MinioException (py "connection refused")))
         (Ok (Demo.plain_reader [])) (Ok (Text [])))
      Demo.invoice_pdf (py "Extract the vendor as JSON") None
      (request_start 0)
    = (Ok (mkResponse 1311768467463790320%N (py "error") JNull
             (py "gemini-2.0-flash")
             (Some (py "Storage Error: Storage service error: connection refused"))),
       st').
Proof. eexists. vm_compute. reflexivity. Qed.

(** C1, at a concrete input: the store is unreachable. *)
Lemma upload_responds_witness :
  exists r st',
    upload_document_and_process Demo.settings
      (Demo.backends (Raise (MinioException (py "connection refused")))
         (Raise (MinioException (py "connection refused")))
         (Ok (Demo.plain_reader [])) (Ok (Text [])))
      Demo.invoice_pdf (py "Summarise") None (request_start 0) = (Ok r, st')
    /\ http_response
         (fst (upload_document_and_process Demo.settings
                 (Demo.backends
                    (Raise (MinioException (py "connection refused")))
                    (Raise (MinioException (py "connection refused")))
                    (Ok (Demo.plain_reader [])) (Ok (Text [])))
                 Demo.invoice_pdf (py "Summarise") None (request_start 0)))
       = (200%N, Some r)
    /\ status r = py "error".
Proof.
  destruct (@upload_always_responds Demo.settings
              (Demo.backends (Raise (MinioException (py "connection refused")))
                 (Raise (MinioException (py "connection refused")))
                 (Ok (Demo.plain_reader [])) (Ok (Text [])))
              Demo.invoice_pdf (py "Summarise") None 0)
    as [r [st' [Hrun [Hhttp [_ Hfail]]]]].
  exists r, st'. split; [exact Hrun|]. split; [exact Hhttp|].
  apply Hfail. eapply Storage_error. vm_compute. reflexivity.
Defined.

(** C7, at a concrete input: the invoice scenario names the default
    model. *)
Lemma model_used_witness :
  exists r st',
    upload_document_and_process Demo.settings
      (healthy [Ok (py "Vendor: Acme")] (Ok (Text vendor_json)))
      Demo.invoice_pdf (py "Extract the vendor as JSON") None
      (request_start 0) = (Ok r, st')
    /\ model_used r = py "gemini-2.0-flash".
Proof.
  exact (proj1 (@model_used_is_configured Demo.settings
                  (healthy [Ok (py "Vendor: Acme")] (Ok (Text vendor_json))))
           Demo.invoice_pdf (py "Extract the vendor as JSON") None
           (request_start 0)).
Defined.

(** C2, at concrete inputs: [invoice.txt] is rejected and not stored, and
    so are four bytes where three are allowed. *)
Lemma rejected_upload_witness :
  (exists r st',
     upload_document_and_process Demo.settings (healthy [] (Ok (Text [])))
       Demo.invoice_txt (py "Summarise") None (request_start 0) = (Ok r, st')
     /\ status r = py "error"
     /\ existsb is_store_call (log st') = false)
  /\ (exists r st',
        upload_document_and_process Demo.tiny_settings
          (healthy [] (Ok (Text [])))
          Demo.invoice_pdf (py "Summarise") None (request_start 0)
        = (Ok r, st')
        /\ status r = py "error"
        /\ existsb is_store_call (log st') = false).
Proof.
  split.
  - apply (@rejected_upload_is_not_stored Demo.settings
             (healthy [] (Ok (Text []))) Demo.invoice_txt (py "Summarise")
             None 0).
    left. intros name H. injection H as <-. vm_compute. reflexivity.
  - apply (@rejected_upload_is_not_stored Demo.tiny_settings
             (healthy [] (Ok (Text []))) Demo.invoice_pdf (py "Summarise")
             None 0).
    right. vm_compute. reflexivity.
Defined.

(** C10, at a concrete input: an upload without a file name. *)
Lemma missing_filename_witness :
  upload_document_and_process Demo.settings (healthy [] (Ok (Text [])))
    (mkUploadFile None None Demo.pdf_bytes Demo.no_fault)
    (py "Summarise") None (request_start 0)
  = (Ok (mkResponse 1311768467463790320%N (py "error") JNull
           (py "gemini-2.0-flash")
           (Some (py "Invalid file type. Only pdf files are allowed."))),
     mkState [] 0 0 1).
Proof.
  apply (proj1 (@missing_filename_is_invalid_type Demo.settings
                  (healthy [] (Ok (Text [])))
                  (mkUploadFile None None Demo.pdf_bytes Demo.no_fault)
                  (py "Summarise") None 0 (or_introl eq_refl))).
Defined.

(** C3, at a concrete input: a document of two pages, one without text and
    one whose extraction fails. *)
Lemma no_text_document_witness :
  exists st3,
    upload_document_and_process Demo.settings
      (healthy [Ok []; Raise (ValueError (py "bad page"))] (Ok (Text [])))
      Demo.invoice_pdf (py "Summarise") None (request_start 0)
    = (Ok (no_text_result Demo.settings 1311768467463790321%N), st3)
    /\ existsb is_invoke (log st3) = false.
Proof.
  pose (B := healthy [Ok []; Raise (ValueError (py "bad page"))]
               (Ok (Text []))).
  destruct (@no_text_document_succeeds Demo.settings B Demo.invoice_pdf
              (py "Summarise") None 0
              (py "00000000-0000-0000-1234-56789abcdef1.pdf")
              (Some 1311768467463790321%N)
              (snd (store_and_name Demo.settings B Demo.invoice_pdf
                      (uuid4 B 0) (validated 0)))
              [Ok []; Raise (ValueError (py "bad page"))])
    as [st3 [_ [Hrun Hlog]]].
  - repeat split; vm_compute; try reflexivity. discriminate.
  - vm_compute. reflexivity.
  - discriminate.
  - exists (mkHTTPResponse 7 (Ok Demo.pdf_bytes)), Demo.pdf_bytes,
      (Demo.plain_reader [Ok []; Raise (ValueError (py "bad page"))]).
    repeat split; try reflexivity; try discriminate. left. reflexivity.
  - repeat constructor.
  - exists st3. split; [exact Hrun | exact Hlog].
Defined.

(** C4, at a concrete input: three pages, the second of which fails. *)
Lemma extract_joins_witness :
  exists st',
    extract_text_from_pdf Demo.settings
      (healthy [Ok (py "first"); Raise (ValueError (py "bad page"));
                Ok (py "third")] (Ok (Text [])))
      (py "doc.pdf") (request_start 0)
    = (Ok (py "first" ++ [NL; NL] ++ py "third"), st').
Proof.
  apply (@extract_joins_stripped_page_texts Demo.settings
           (healthy [Ok (py "first"); Raise (ValueError (py "bad page"));
                     Ok (py "third")] (Ok (Text [])))
           (py "doc.pdf") (request_start 0)
           [Ok (py "first"); Raise (ValueError (py "bad page"));
            Ok (py "third")]).
  exists (mkHTTPResponse 7 (Ok Demo.pdf_bytes)), Demo.pdf_bytes,
    (Demo.plain_reader [Ok (py "first"); Raise (ValueError (py "bad page"));
                        Ok (py "third")]).
  repeat split; try reflexivity; try discriminate. left. reflexivity.
Defined.

(** C4 as stated fails: the page texts [" a"] and ["b "] of a document
    that parses are not concatenated as they are; the extraction returns
    them stripped. *)
Lemma page_texts_are_not_concatenated_verbatim :
  parses_as Demo.settings
    (healthy [Ok (py " a"); Ok (py "b ")] (Ok (Text []))) (py "doc.pdf")
    [Ok (py " a"); Ok (py "b ")]
  /\ fst (extract_text_from_pdf Demo.settings
            (healthy [Ok (py " a"); Ok (py "b ")] (Ok (Text [])))
            (py "doc.pdf") (request_start 0))
     = Ok (py "a" ++ [NL; NL] ++ py "b")
  /\ fst (extract_text_from_pdf Demo.settings
            (healthy [Ok (py " a"); Ok (py "b ")] (Ok (Text [])))
            (py "doc.pdf") (request_start 0))
     <> Ok (concatenated_page_texts [Ok (py " a"); Ok (py "b ")]).
Proof.
  split; [|split].
  - exists (mkHTTPResponse 7 (Ok Demo.pdf_bytes)), Demo.pdf_bytes,
      (Demo.plain_reader [Ok (py " a"); Ok (py "b ")]).
    repeat split; try reflexivity; try discriminate. left. reflexivity.
  - vm_compute. reflexivity.
  - vm_compute. discriminate.
Qed.

(** C5, at a concrete input: the fenced object of the invoice scenario. *)
Lemma fenced_completion_witness :
  exists r st',
    process_content Demo.settings (healthy [] (Ok (Text [])))
      (answering (Ok (Text (py "  " ++ fence_json ++ [NL] ++ vendor_json
                            ++ [NL] ++ fence_bare ++ [NL]))))
      sample_request (request_start 0) = (Ok r, st')
    /\ (status r, ai_structured_output r)
       = (py "success", JObj [(py "vendor", JStr (py "Acme"))]).
Proof.
  apply (@fenced_completion_parses_as_stripped_content Demo.settings
           (healthy [] (Ok (Text [])))
           (answering (Ok (Text (py "  " ++ fence_json ++ [NL] ++ vendor_json
                                 ++ [NL] ++ fence_bare ++ [NL]))))
           sample_request (request_start 0)
           fence_json (py "  ") [NL] vendor_json [NL] [NL]).
  - repeat constructor.
  - repeat constructor.
  - repeat constructor.
  - repeat constructor.
  - left. reflexivity.
  - reflexivity.
Defined.

(** C5 as stated fails.  A form feed is whitespace for [strip] and not
    for JSON: inside a [json] fence, a form feed and [1] is parsed to the
    number 1, while parsing the same content directly is an error.  And
    after a bare fence, the content [json1] is parsed to the number 1 with
    its first four letters taken for the tag, while parsing it directly is
    an error. *)
Lemma fence_stripping_is_not_transparent :
  (JsonRef.loads (chr 12 :: py "1")
   = Some (Raise (JSONDecodeError (py "Expecting value") 1 1 0))
   /\ JsonRef.loads (py "1") = Some (Ok (JInt 1))
   /\ exists r st',
        process_content Demo.settings (healthy [] (Ok (Text [])))
          (answering (Ok (Text (fence_json ++ (chr 12 :: py "1")
                                ++ fence_bare))))
          sample_request (request_start 0) = (Ok r, st')
        /\ (status r, ai_structured_output r) = (py "success", JInt 1)
        /\ (status r, ai_structured_output r)
           <> parsed_directly (healthy [] (Ok (Text []))) (chr 12 :: py "1"))
  /\ (JsonRef.loads (py "json1")
      = Some (Raise (JSONDecodeError (py "Expecting value") 1 1 0))
      /\ exists r st',
           process_content Demo.settings (healthy [] (Ok (Text [])))
             (answering (Ok (Text (fence_bare ++ py "json1" ++ fence_bare))))
             sample_request (request_start 0) = (Ok r, st')
           /\ (status r, ai_structured_output r) = (py "success", JInt 1)
           /\ (status r, ai_structured_output r)
              <> parsed_directly (healthy [] (Ok (Text []))) (py "json1")).
Proof.
  split; [split; [|split]|split].
  - vm_compute. reflexivity.
  - vm_compute. reflexivity.
  - do 2 eexists. split; [vm_compute; reflexivity|].
    split; [reflexivity|]. vm_compute. discriminate.
  - vm_compute. reflexivity.
  - do 2 eexists. split; [vm_compute; reflexivity|].
    split; [reflexivity|]. vm_compute. discriminate.
Qed.


(** C8. A fetch that breaks in transport does not reach the orchestrator
    as an unavailable service.  When the connection breaks while the
    response is read, the HTTP layer under the storage client raises
    urllib3's [ProtocolError], which is no [MinioException]: the
    extraction raises the [HTTPException] with status 500 of an
    unexpected error, and the result reports the generic condition.  The
    same failure raised as a [MinioException] takes the branch that the
    extractor logs as a connection error, and reaches the orchestrator
    with status 503. *)
Theorem broken_transport_is_reported_as_generic :
  (exists st1 r,
     extract_text_from_pdf Demo.settings
       (Demo.backends (Ok tt)
          (Ok (mkHTTPResponse 7
                 (Raise (OtherException (py "ProtocolError")
                           (py "Connection broken: IncompleteRead")))))
          (Ok (Demo.plain_reader [])) (Ok (Text [])))
       (py "doc.pdf") (request_start 0)
     = (Raise (HTTPException 500 (py "Unexpected error retrieving PDF file.")),
        st1)
     /\ condition_of
          (HTTPException 500 (py "Unexpected error retrieving PDF file."))
        = Some Generic_storage_error
     /\ extract_and_process Demo.settings
          (Demo.backends (Ok tt)
             (Ok (mkHTTPResponse 7
                    (Raise (OtherException (py "ProtocolError")
                              (py "Connection broken: IncompleteRead")))))
             (Ok (Demo.plain_reader [])) (Ok (Text [])))
          1%N (py "doc.pdf") (py "Summarise") (request_start 0) = (Ok r, st1)
     /\ status r = py "error"
     /\ error_message r
        = Some (py "Storage error during extraction: Unexpected error retrieving PDF file.")
     /\ reported_condition (error_message r) = Some Generic_storage_error)
  /\ (exists st1 r,
        extract_text_from_pdf Demo.settings
          (Demo.backends (Ok tt)
             (Raise (MinioException (py "Connection broken")))
             (Ok (Demo.plain_reader [])) (Ok (Text [])))
          (py "doc.pdf") (request_start 0)
        = (Raise (HTTPException 503
                    (py "Storage service connection error: Connection broken")),
           st1)
        /\ condition_of
             (HTTPException 503
                (py "Storage service connection error: Connection broken"))
           = Some Service_unavailable
        /\ extract_and_process Demo.settings
             (Demo.backends (Ok tt)
                (Raise (MinioException (py "Connection broken")))
                (Ok (Demo.plain_reader [])) (Ok (Text [])))
             1%N (py "doc.pdf") (py "Summarise") (request_start 0)
           = (Ok r, st1)
        /\ reported_condition (error_message r) = Some Service_unavailable).
Proof.
  split.
  - destruct (@fetch_failure_outside_client Demo.settings
                (Demo.backends (Ok tt)
                   (Ok (mkHTTPResponse 7
                          (Raise (OtherException (py "ProtocolError")
                                    (py "Connection broken: IncompleteRead")))))
                   (Ok (Demo.plain_reader [])) (Ok (Text [])))
                1%N (py "doc.pdf") (py "Summarise") (request_start 0)
                (OtherException (py "ProtocolError")
                   (py "Connection broken: IncompleteRead")))
      as [st1 [r [Hx [Hr [Hs Hm]]]]].
    + discriminate.
    + right. eexists. split; reflexivity.
    + reflexivity.
    + exists st1, r. split; [exact Hx|]. split; [reflexivity|].
      split; [exact Hr|]. split; [exact Hs|]. split; [exact Hm|].
      rewrite Hm. vm_compute. reflexivity.
  - do 2 eexists. split; [vm_compute; reflexivity|].
    split; [reflexivity|]. split; [vm_compute; reflexivity|].
    vm_compute. reflexivity.
Qed.

(** C9, at a concrete input: the read of the response fails, and the
    response is closed and released all the same. *)
Lemma handle_released_witness :
  exists evs,
    log (snd (extract_text_from_pdf Demo.settings
                (Demo.backends (Ok tt)
                   (Ok (mkHTTPResponse 7
                          (Raise (OtherException (py "ProtocolError")
                                    (py "connection broken")))))
                   (Ok (Demo.plain_reader [])) (Ok (Text [])))
                (py "doc.pdf") (request_start 0)))
    = evs
    /\ leaked evs = []
    /\ exists before,
         evs = before ++ [Closed 7; Released 7] /\ In (Acquired 7) before.
Proof.
  destruct (@handle_released_on_every_path Demo.settings
              (Demo.backends (Ok tt)
                 (Ok (mkHTTPResponse 7
                        (Raise (OtherException (py "ProtocolError")
                                  (py "connection broken")))))
                 (Ok (Demo.plain_reader [])) (Ok (Text [])))
              (py "doc.pdf") (request_start 0))
    as [evs [Hlog [Hleak Hclosed]]].
  exists evs. split; [exact Hlog|]. split; [exact Hleak|].
  exact (Hclosed _ eq_refl).
Defined.

(* ===================================================================== *)
(** ** Further properties: the AI processor *)
(* ===================================================================== *)

Unset Implicit Arguments.

(** [a] is a contiguous piece of [x]. *)
Definition infix (a x : str) : Prop := exists p q, x = p ++ a ++ q.

(** The stripped text of the completion, or what invoking the model or
    stripping its content raised. *)
Definition completion_text (self : AIProcessorService)
    (request_data : AIProcessingRequest) : res str :=
  match invoke (llm self) (build_messages request_data) with
  | Ok c => content_strip c
  | Raise e => Raise e
  end.

Section CleaningFacts.

Lemma infix_refl (x : str) : infix x x.
Proof. exists [], []. rewrite app_nil_r. reflexivity. Qed.

Lemma infix_trans (a b c : str) : infix a b -> infix b c -> infix a c.
Proof.
  intros [p [q ->]] [p' [q' ->]]. exists (p' ++ p), (q ++ q').
  repeat rewrite <- app_assoc. reflexivity.
Qed.

Lemma strip_infix (x : str) : infix (strip x) x.
Proof.
  destruct (strip_split x) as [a [b [_ [_ H]]]]. exists a, b. exact H.
Qed.

Lemma skipn_infix (n : nat) (x : str) : infix (skipn n x) x.
Proof.
  exists (firstn n x), []. rewrite app_nil_r. symmetry. apply firstn_skipn.
Qed.

Lemma firstn_infix (n : nat) (x : str) : infix (firstn n x) x.
Proof. exists [], (skipn n x). simpl. symmetry. apply firstn_skipn. Qed.

Lemma infix_In (c : ascii) (a x : str) : infix a x -> In c a -> In c x.
Proof.
  intros [p [q ->]] H. apply in_or_app. right. apply in_or_app. left. exact H.
Qed.

Lemma startswith_head (c : ascii) (p y : str) :
  startswith (c :: p) y = true -> In c y.
Proof.
  destruct y as [|d y]; simpl; [discriminate|].
  intros H. apply andb_true_iff in H. destruct H as [H _].
  apply Ascii.eqb_eq in H. left. symmetry. exact H.
Qed.

(** X1. The cleaned text is a contiguous piece of the completion, and
    has no whitespace at either end: cleaning only removes characters
    from the two ends. *)
Theorem clean_is_stripped_piece (raw_string : str) :
  infix (_clean_json_string raw_string) raw_string
  /\ strip (_clean_json_string raw_string) = _clean_json_string raw_string.
Proof.
  unfold _clean_json_string.
  set (c0 := strip raw_string).
  assert (H0 : infix c0 raw_string) by apply strip_infix.
  assert (S0 : strip c0 = c0) by apply strip_idem.
  set (c1 := if startswith (py "```json") c0
             then strip (slice_from (List.length (py "```json")) c0)
             else if startswith (py "```") c0
                  then strip (slice_from (List.length (py "```")) c0)
                  else c0).
  assert (H1 : infix c1 raw_string /\ strip c1 = c1).
  { subst c1. destruct (startswith (py "```json") c0).
    - split; [|apply strip_idem].
      eapply infix_trans; [apply strip_infix|].
      eapply infix_trans; [apply skipn_infix|exact H0].
    - destruct (startswith (py "```") c0).
      + split; [|apply strip_idem].
        eapply infix_trans; [apply strip_infix|].
        eapply infix_trans; [apply skipn_infix|exact H0].
      + split; assumption. }
  destruct H1 as [H1 S1].
  destruct (endswith (py "```") c1).
  - split; [|apply strip_idem].
    eapply infix_trans; [apply strip_infix|].
    eapply infix_trans; [apply firstn_infix|exact H1].
  - split; assumption.
Qed.

(** X2. A completion in which no backquote occurs is only stripped. *)
Theorem clean_without_backquote (raw_string : str) :
  ~ In (chr 96) raw_string ->
  _clean_json_string raw_string = strip raw_string.
Proof.
  intros Hno.
  assert (Hs : ~ In (chr 96) (strip raw_string)).
  { intros H. apply Hno. exact (infix_In _ _ _ (strip_infix raw_string) H). }
  unfold _clean_json_string.
  destruct (startswith (py "```json") (strip raw_string)) eqn:E1.
  { exfalso. apply Hs. exact (startswith_head _ _ _ E1). }
  destruct (startswith (py "```") (strip raw_string)) eqn:E2.
  { exfalso. apply Hs. exact (startswith_head _ _ _ E2). }
  destruct (endswith (py "```") (strip raw_string)) eqn:E3; [|reflexivity].
  exfalso. apply Hs. unfold endswith in E3.
  apply in_rev. exact (startswith_head _ _ _ E3).
Qed.

End CleaningFacts.

Section ProcessorFacts.

Variable settings : Settings.
Variable B : Backends.

(** X3. [process_content] reports success exactly when the model answered
    with text whose cleaned form the decoder accepts; the structured
    output is then the decoded value and there is no error message. *)
Theorem process_content_success_iff (self : AIProcessorService)
    (request_data : AIProcessingRequest) (st : State) :
  exists r st',
    process_content settings B self request_data st = (Ok r, st')
    /\ (status r = py "success" <->
        exists c v,
          invoke (llm self) (build_messages request_data) = Ok (Text c)
          /\ json_loads B (_clean_json_string (strip c)) = Ok v
          /\ ai_structured_output r = v
          /\ error_message r = None).
Proof.
  unfold process_content. run.
  destruct (invoke (llm self) (build_messages request_data)) as [[c|ps]|e];
    simpl.
  - destruct (json_loads B (_clean_json_string (strip c))) as [v|e] eqn:Hj.
    + do 2 eexists. split; [reflexivity|]. simpl. split.
      * intros _. exists c, v. repeat split. exact Hj.
      * reflexivity.
    + destruct (is_JSONDecodeError e); do 2 eexists;
        (split; [reflexivity|]); simpl; (split; [discriminate|]);
        intros [c' [v [Hc [Hv _]]]]; injection Hc as <-; congruence.
  - do 2 eexists. split; [reflexivity|]. simpl. split; [discriminate|].
    intros [c [v [Hc _]]]. discriminate Hc.
  - do 2 eexists. split; [reflexivity|]. simpl. split; [discriminate|].
    intros [c [v [Hc _]]]. discriminate Hc.
Qed.

(** X4. When invoking the model raises, or its answer has no text to
    strip, [process_content] returns the error result whose message
    quotes the exception; the decoder's verdict plays no part. *)
Theorem invocation_failure_is_reported (self : AIProcessorService)
    (request_data : AIProcessingRequest) (st : State) (e : exc) :
  completion_text self request_data = Raise e ->
  process_content settings B self request_data st
  = (Ok (mkResponse (req_document_id request_data) (py "error") JNull
           (AI_MODEL_NAME settings)
           (Some (py "Failed to get response from AI model: " ++ exc_str e))),
     emit (Invoke (build_messages request_data)) st).
Proof.
  unfold completion_text, process_content. run.
  destruct (invoke (llm self) (build_messages request_data)) as [[c|ps]|e'];
    simpl; intros H; try discriminate H; injection H as <-; reflexivity.
Qed.

(** X5. The processor singleton is missing exactly when the API key is
    unset or empty, or the client constructor raises; construction
    raises nothing but [AIConfigurationError], which the module catches;
    and a processor that exists holds the client built for the
    configured model with the configured key. *)
Theorem ai_service_availability :
  (ai_processor_service settings B = None <->
   GOOGLE_API_KEY settings = None
   \/ GOOGLE_API_KEY settings = Some []
   \/ exists key e,
        GOOGLE_API_KEY settings = Some key
        /\ ChatGoogleGenerativeAI B (AI_MODEL_NAME settings) key = Raise e)
  /\ (forall e, AIProcessorService_init settings B = Raise e ->
                is_AIConfigurationError e = true)
  /\ (forall service,
        ai_processor_service settings B = Some service ->
        exists key,
          GOOGLE_API_KEY settings = Some key /\ key <> []
          /\ ChatGoogleGenerativeAI B (AI_MODEL_NAME settings) key
             = Ok (llm service)).
Proof.
  unfold ai_processor_service, AIProcessorService_init.
  destruct (GOOGLE_API_KEY settings) as [[|c key]|] eqn:K; simpl.
  - repeat split.
    + intros _. right. left. reflexivity.
    + intros e [= <-]. reflexivity.
    + intros service [=].
  - destruct (ChatGoogleGenerativeAI B (AI_MODEL_NAME settings) (c :: key))
      as [model|e] eqn:C; repeat split.
    + discriminate.
    + intros [H|[H|[key' [e [H1 H2]]]]]; try discriminate.
      injection H1 as <-. congruence.
    + intros e [=].
    + intros service [= <-]. exists (c :: key).
      repeat split; [discriminate | exact C].
    + intros _. right. right. exists (c :: key), e. split; [reflexivity|exact C].
    + intros e' [= <-]. reflexivity.
    + intros service [=].
  - repeat split.
    + intros _. left. reflexivity.
    + intros e [= <-]. reflexivity.
    + intros service [=].
Qed.

End ProcessorFacts.

(* ===================================================================== *)
(** ** Further properties: the text extractor *)
(* ===================================================================== *)

(** The stored object is served with the bytes [pdf_data]. *)
Definition served (settings : Settings) (B : Backends) (object_name : str)
    (pdf_data : bytes) : Prop :=
  exists response,
    get_object B (MINIO_BUCKET_NAME settings) object_name = Ok response
    /\ read response = Ok pdf_data.

Section ExtractorFacts.

Variable settings : Settings.
Variable B : Backends.

Lemma extract_after_fetch (object_name : str) (st : State) (pdf_data : bytes) :
  served settings B object_name pdf_data ->
  exists st1,
    fetch_pdf_data settings B object_name st = (Ok pdf_data, st1)
    /\ extract_text_from_pdf settings B object_name st
       = (if negb (truthy pdf_data) then
            raise (PdfExtractionError
                     (py "Failed to retrieve valid data for PDF '"
                      ++ object_name ++ py "'."))
          else
            bind
              (try_finally
                 (try_except (read_pdf B object_name pdf_data)
                    (fun e =>
                       if is_PdfReadError e then
                         raise (PdfExtractionError
                                  (py "Failed to read PDF '" ++ object_name
                                   ++ py "'. It might be corrupted or not a valid PDF. Error: "
                                   ++ exc_str e))
                       else
                         raise (PdfExtractionError
                                  (py "Unexpected error processing PDF '"
                                   ++ object_name ++ py "': " ++ exc_str e))))
                 (ret tt))
              (fun extracted_texts =>
                 if negb (truthy extracted_texts) then ret []
                 else ret (join [NL; NL] extracted_texts))) st1.
Proof.
  intros [response [Hg Hr]].
  destruct (@fetch_pdf_data_ok settings B object_name st response pdf_data
              Hg Hr) as [st1 Hf].
  exists st1. split; [exact Hf|].
  unfold extract_text_from_pdf. unfold bind at 1. rewrite Hf. reflexivity.
Qed.

(** X6. The extraction raises nothing but what its docstring announces:
    [PdfNotFoundError], [PdfExtractionError] or [HTTPException], whatever
    the store and the PDF library raise. *)
Theorem extract_raises_as_documented (object_name : str) (st : State)
    (e : exc) (st' : State) :
  extract_text_from_pdf settings B object_name st = (Raise e, st') ->
  is_PdfNotFoundError e || is_PdfExtractionError e || is_HTTPException e
  = true.
Proof.
  unfold extract_text_from_pdf. unfold bind at 1.
  destruct (fetch_pdf_data settings B object_name st) as [[data|e0] st1] eqn:Hf.
  - destruct (truthy data); simpl.
    + run.
      destruct (read_pdf B object_name data st1) as [[texts|e1] st2].
      * destruct (truthy texts); simpl; discriminate.
      * destruct (is_PdfReadError e1); simpl; intros [= <- _]; reflexivity.
    + intros [= <- _]. reflexivity.
  - intros [= <- <-].
    revert Hf. unfold fetch_pdf_data. run.
    destruct (get_object B (MINIO_BUCKET_NAME settings) object_name)
      as [response|e1].
    + destruct (read response) as [data|e1]; simpl; [discriminate|].
      unfold fetch_except. run.
      repeat split_match; simpl; intros [= <- _]; reflexivity.
    + unfold fetch_except. run.
      repeat split_match; simpl; intros [= <- _]; reflexivity.
Qed.

(** X7. An object served with no bytes is an extraction error: the PDF
    library is not given the empty data as a document. *)
Theorem empty_object_is_extraction_error (object_name : str) (st : State) :
  served settings B object_name [] ->
  exists st',
    extract_text_from_pdf settings B object_name st
    = (Raise (PdfExtractionError
                (py "Failed to retrieve valid data for PDF '" ++ object_name
                 ++ py "'.")), st').
Proof.
  intros H. destruct (extract_after_fetch object_name st [] H)
    as [st1 [_ Hx]].
  exists st1. rewrite Hx. reflexivity.
Qed.

(** X8. A document that reports itself encrypted and does not open with
    the empty password, or whose encryption the library does not support,
    is an extraction error.  The error raised for it inside the parsing
    block is caught by the block's own last handler, so the message that
    leaves the extractor is the inner message behind the prefix for
    unexpected errors. *)
Theorem encrypted_document_is_extraction_error (object_name : str)
    (st : State) (pdf_data : bytes) (reader : PdfReader) (reason : str) :
  served settings B object_name pdf_data ->
  pdf_data <> [] ->
  pypdf_PdfReader B pdf_data = Ok reader ->
  is_encrypted reader = true ->
  (decrypt reader [] = Ok false
   /\ reason = py "is encrypted and password protected.")
  \/ (exists t, decrypt reader [] = Raise (NotImplementedError t)
      /\ reason = py "uses unsupported encryption.") ->
  exists st',
    extract_text_from_pdf settings B object_name st
    = (Raise (PdfExtractionError
                (py "Unexpected error processing PDF '" ++ object_name
                 ++ py "': PDF '" ++ object_name ++ py "' " ++ reason)), st').
Proof.
  intros Hs Hd Ho He Hr.
  destruct (extract_after_fetch object_name st pdf_data Hs) as [st1 [_ Hx]].
  exists st1. rewrite Hx.
  destruct pdf_data as [|b data]; [congruence|]. simpl.
  unfold read_pdf. run. rewrite Ho, He.
  destruct Hr as [[Hdec ->] | [t [Hdec ->]]]; rewrite Hdec; simpl;
    repeat rewrite <- app_assoc; reflexivity.
Qed.

(** X9. A document that the PDF library cannot read is an extraction
    error that quotes the library: when opening the document raises, or
    walking the pages of a document that is open (not encrypted, or
    decrypted with the empty password) raises, the message says the file
    may be corrupted for a [PdfReadError], and reports any other
    exception as unexpected. *)
Theorem unreadable_document_is_extraction_error (object_name : str)
    (st : State) (pdf_data : bytes) (e : exc) :
  served settings B object_name pdf_data ->
  pdf_data <> [] ->
  pypdf_PdfReader B pdf_data = Raise e
  \/ (exists reader,
        pypdf_PdfReader B pdf_data = Ok reader
        /\ (is_encrypted reader = false \/ decrypt reader [] = Ok true)
        /\ pages reader = Raise e) ->
  exists st',
    extract_text_from_pdf settings B object_name st
    = (Raise (PdfExtractionError
                (if is_PdfReadError e then
                   py "Failed to read PDF '" ++ object_name
                   ++ py "'. It might be corrupted or not a valid PDF. Error: "
                   ++ exc_str e
                 else
                   py "Unexpected error processing PDF '" ++ object_name
                   ++ py "': " ++ exc_str e)), st').
Proof.
  intros Hs Hd Hr.
  destruct (extract_after_fetch object_name st pdf_data Hs) as [st1 [_ Hx]].
  exists st1. rewrite Hx.
  destruct pdf_data as [|b data]; [congruence|]. simpl.
  unfold read_pdf. run.
  destruct Hr as [Ho | [reader [Ho [He Hp]]]]; rewrite Ho; simpl.
  - destruct (is_PdfReadError e); reflexivity.
  - destruct (is_encrypted reader) eqn:Henc.
    + destruct He as [He | He]; [discriminate He|].
      rewrite He, Hp. simpl. destruct (is_PdfReadError e); reflexivity.
    + rewrite Hp. simpl. destruct (is_PdfReadError e); reflexivity.
Qed.

Lemma join_nil_iff (sep : str) (parts : list str) :
  sep <> [] ->
  (join sep parts = [] <-> parts = [] \/ parts = [[]]).
Proof.
  intros Hsep. split.
  - destruct parts as [|p [|q rest]]; simpl.
    + intros _. left. reflexivity.
    + intros ->. right. reflexivity.
    + intros H. apply app_eq_nil in H. destruct H as [_ H].
      apply app_eq_nil in H. destruct H as [H _]. congruence.
  - intros [-> | ->]; reflexivity.
Qed.

(** X10. For a document that parses, the extracted text is empty, and the
    AI stage is skipped, exactly when no page has text, or a single page
    has text and that text is whitespace only.  Two pages of whitespace
    already give a non-empty text, the separator. *)
Theorem extracted_text_empty_iff (object_name : str) (st : State)
    (ps : list (res str)) :
  parses_as settings B object_name ps ->
  exists text st',
    extract_text_from_pdf settings B object_name st = (Ok text, st')
    /\ (text = [] <->
        map strip (page_texts ps) = []
        \/ map strip (page_texts ps) = [[]]).
Proof.
  intros Hp.
  destruct (@extract_parsed_as settings B object_name st ps Hp) as [st' Hx].
  exists (join [NL; NL] (map strip (page_texts ps))), st'.
  split; [exact Hx|]. apply join_nil_iff. discriminate.
Qed.

End ExtractorFacts.

(* ===================================================================== *)
(** ** Further properties: storing, and the handler around it *)
(* ===================================================================== *)

(** The extension, the content type and the object name that [store_file]
    computes for a file, the name from the [k]-th identifier drawn. *)
Definition file_extension_of (file : UploadFile) : str :=
  match filename file with
  | Some name => if truthy name then last (split (chr 46) name) []
                 else py "pdf"
  | None => py "pdf"
  end.

Definition content_type_of (file : UploadFile) : str :=
  match content_type file with
  | Some ct => if truthy ct then ct else py "application/pdf"
  | None => py "application/pdf"
  end.

Definition object_name_for (B : Backends) (file : UploadFile) (k : nat) : str :=
  uuid_str B (uuid4 B k) ++ py "." ++ file_extension_of file.

(** The state that [store_file] leaves once it has read the stream. *)
Definition stored_state (settings : Settings) (B : Backends)
    (file : UploadFile) (st : State) : State :=
  mkState
    (log st
     ++ [StoreFile (filename file); FileRead;
         PutObject (MINIO_BUCKET_NAME settings)
           (object_name_for B file (uuids_drawn st))
           (N.of_nat (List.length (skipn (file_pos st) (body file))))
           (content_type_of file)])
    (Nat.max (file_pos st) (List.length (body file)))
    (S (file_ops st)) (S (uuids_drawn st)).

(** The outcome of the [put_object] that [store_file] issues from [st]. *)
Definition put_outcome (settings : Settings) (B : Backends)
    (file : UploadFile) (st : State) : res unit :=
  put_object B (MINIO_BUCKET_NAME settings)
    (object_name_for B file (uuids_drawn st))
    (skipn (file_pos st) (body file))
    (N.of_nat (List.length (skipn (file_pos st) (body file))))
    (content_type_of file).

(** [UUID(s)] returns, or raises what the handler takes for a name that
    is no identifier. *)
Definition uuid_or_value_error (B : Backends) (s : str) : Prop :=
  match UUID_of_str B s with
  | Ok _ => True
  | Raise e => is_ValueError e || is_IndexError e = true
  end.

(** The events of the handler up to and including the store. *)
Definition store_events (settings : Settings) (B : Backends)
    (file : UploadFile) (n : nat) : list Event :=
  [FileRead; FileSeek 0; StoreFile (filename file); FileRead;
   PutObject (MINIO_BUCKET_NAME settings) (object_name_for B file (S n))
     (N.of_nat (List.length (body file))) (content_type_of file)].

Section StoringFacts.

Variable settings : Settings.
Variable B : Backends.

Lemma split_nonempty (c : ascii) (s : str) : split c s <> [].
Proof.
  induction s as [|x s IH]; simpl; [discriminate|].
  destruct (Ascii.eqb x c); [discriminate|].
  destruct (split c s); discriminate.
Qed.

Lemma split_no_separator (c : ascii) (s : str) :
  ~ In c s -> split c s = [s].
Proof.
  induction s as [|x s IH]; simpl; intros H; [reflexivity|].
  destruct (Ascii.eqb x c) eqn:E.
  - apply Ascii.eqb_eq in E. exfalso. apply H. left. exact E.
  - rewrite IH; [reflexivity|]. intros Hin. apply H. right. exact Hin.
Qed.

Lemma split_at_separator (c : ascii) (x y : str) :
  exists p ps, split c (x ++ c :: y) = (p :: ps) ++ split c y
               /\ (~ In c x -> p = x /\ ps = []).
Proof.
  induction x as [|h x [p [ps [IH IHn]]]]; simpl.
  - rewrite eqb_refl_ascii. exists [], []. split; [reflexivity|]. auto.
  - destruct (Ascii.eqb h c) eqn:E.
    + exists [], (p :: ps). rewrite IH. split; [reflexivity|].
      intros H. exfalso. apply H. left. apply Ascii.eqb_eq. exact E.
    + rewrite IH. simpl. exists (h :: p), ps. split; [reflexivity|].
      intros H. destruct IHn as [-> ->]; [|split; reflexivity].
      intros Hin. apply H. right. exact Hin.
Qed.

Lemma last_app_nonempty (a b : list str) (d : str) :
  b <> [] -> last (a ++ b) d = last b d.
Proof.
  intros Hb. induction a as [|x a IH]; simpl; [reflexivity|].
  destruct (a ++ b) eqn:E; [|exact IH].
  apply app_eq_nil in E. destruct E as [_ E]. congruence.
Qed.

(** What follows the last slash of a locator is the object name. *)
Lemma basename_locator (bucket object_name : str) :
  ~ In (chr 47) object_name ->
  basename (bucket ++ py "/" ++ object_name) = object_name.
Proof.
  intros H. unfold basename. change (py "/" ++ object_name)
    with (chr 47 :: object_name).
  destruct (split_at_separator (chr 47) bucket object_name) as [p [ps [E _]]].
  rewrite E. rewrite last_app_nonempty by apply split_nonempty.
  rewrite split_no_separator by exact H. reflexivity.
Qed.

Lemma hd_split_dot (a b : str) :
  ~ In (chr 46) a -> hd [] (split (chr 46) (a ++ py "." ++ b)) = a.
Proof.
  intros H. change (py "." ++ b) with (chr 46 :: b).
  destruct (split_at_separator (chr 46) a b) as [p [ps [E En]]].
  rewrite E. destruct (En H) as [-> ->]. reflexivity.
Qed.

(** [store_file] from a state in which the stream can be read. *)
Lemma store_file_run (file : UploadFile) (st : State) :
  fault file (file_ops st) = None ->
  store_file settings B file st
  = (match put_outcome settings B file st with
     | Ok _ =>
         Ok (MINIO_BUCKET_NAME settings ++ py "/"
             ++ object_name_for B file (uuids_drawn st),
             N.of_nat (List.length (skipn (file_pos st) (body file))))
     | Raise e =>
         Raise (if is_MinioException e then
                  HTTPException 500
                    (py "Storage service error: " ++ exc_str e)
                else e)
     end, stored_state settings B file st).
Proof.
  intros Hf. unfold store_file, put_outcome, stored_state, object_name_for,
    file_extension_of, content_type_of. run. simpl. rewrite Hf. simpl.
  match goal with |- context [put_object ?a ?b ?c ?d ?e ?f] =>
    destruct (put_object a b c d e f) as [[]|e0] end.
  - unfold emit. simpl. repeat rewrite <- app_assoc. reflexivity.
  - unfold emit. simpl. destruct (is_MinioException e0);
      repeat rewrite <- app_assoc; reflexivity.
Qed.

(** X11. [store_file] turns the failures of the client into an
    [HTTPException] with status 500 that quotes them; it lets any other
    exception of the put pass as it is; and a stream that cannot be read
    is raised as it is before anything is put. *)
Theorem store_file_failures (file : UploadFile) (st : State) :
  (forall e, fault file (file_ops st) = Some e ->
     exists st',
       store_file settings B file st = (Raise e, st')
       /\ log st' = log st ++ [StoreFile (filename file); FileRead])
  /\ (fault file (file_ops st) = None ->
      forall e, put_outcome settings B file st = Raise e ->
        store_file settings B file st
        = (Raise (if is_MinioException e then
                    HTTPException 500
                      (py "Storage service error: " ++ exc_str e)
                  else e), stored_state settings B file st)).
Proof.
  split.
  - intros e Hf. unfold store_file. run. simpl. rewrite Hf.
    eexists. split; [reflexivity|]. unfold emit. simpl.
    rewrite <- app_assoc. reflexivity.
  - intros Hf e Hp. rewrite (store_file_run file st Hf). rewrite Hp.
    reflexivity.
Qed.

(** X12. When the put succeeds, [store_file] returns the locator, bucket
    and object name joined by a slash, and the number of bytes it read,
    which are the bytes from the position of the stream on: all of the
    body at position 0, none at its end.  The object name is a fresh
    identifier, a dot, and what follows the last dot of the file name
    ([pdf] when there is no file name), and it is the base name of the
    locator when it holds no slash. *)
Theorem store_file_returns_locator (file : UploadFile) (st : State) :
  fault file (file_ops st) = None ->
  put_outcome settings B file st = Ok tt ->
  store_file settings B file st
  = (Ok (MINIO_BUCKET_NAME settings ++ py "/"
         ++ object_name_for B file (uuids_drawn st),
         N.of_nat (List.length (body file) - file_pos st)),
     stored_state settings B file st)
  /\ (~ In (chr 47) (object_name_for B file (uuids_drawn st)) ->
      basename (MINIO_BUCKET_NAME settings ++ py "/"
                ++ object_name_for B file (uuids_drawn st))
      = object_name_for B file (uuids_drawn st)).
Proof.
  intros Hf Hp. split.
  - rewrite (store_file_run file st Hf). rewrite Hp.
    rewrite length_skipn. reflexivity.
  - apply basename_locator.
Qed.

End StoringFacts.

Section HandlerFacts.

Variable settings : Settings.
Variable B : Backends.

Lemma existsb_false_filter (f : Event -> bool) (l : list Event) :
  existsb f l = false -> filter f l = [].
Proof.
  induction l as [|x l IH]; simpl; [reflexivity|].
  destruct (f x); simpl; [discriminate|exact IH].
Qed.

(** Step 5 logs at most the one invocation, and its result carries the
    identifier it was given. *)
Lemma process_with_ai_log (id : UUID) (text prompt : str) (st : State) :
  exists r st' evs,
    process_with_ai settings B id text prompt st = (Ok r, st')
    /\ log st' = log st ++ evs
    /\ (evs = [] \/ exists messages, evs = [Invoke messages])
    /\ document_id r = id.
Proof.
  unfold process_with_ai.
  destruct (ai_processor_service settings B) as [service|].
  - destruct (process_content_total settings B service
                (mkRequest id text prompt) st) as [r [Hr [_ Hid]]].
    unfold try_except. rewrite Hr.
    exists r, (emit (Invoke (build_messages (mkRequest id text prompt))) st),
      [Invoke (build_messages (mkRequest id text prompt))].
    repeat split; [right; eexists; reflexivity | exact Hid].
  - do 2 eexists. exists []. repeat split.
    + simpl. symmetry. apply app_nil_r.
    + left. reflexivity.
Qed.

(** Steps 4 and 5: the events of the fetch, then at most one invocation;
    the result carries the identifier given. *)
Lemma extract_and_process_log (id : UUID) (object_name prompt : str)
    (st : State) :
  exists r st' evs,
    extract_and_process settings B id object_name prompt st = (Ok r, st')
    /\ log st'
       = log st
         ++ (if truthy object_name then fetch_events settings B object_name
             else [])
         ++ evs
    /\ (evs = [] \/ exists messages, evs = [Invoke messages])
    /\ document_id r = id.
Proof.
  unfold extract_and_process.
  destruct (truthy object_name).
  - unfold bind, attempt.
    pose proof (extract_log settings B object_name st) as Hlog.
    destruct (extract_text_from_pdf settings B object_name st)
      as [[text|e] st1]; simpl in Hlog.
    + destruct (truthy text); simpl.
      * destruct (process_with_ai_log id text prompt st1)
          as [r [st' [evs [Hr [Hl [He Hid]]]]]].
        exists r, st', evs. repeat split; try assumption.
        rewrite Hl, Hlog. rewrite <- app_assoc. reflexivity.
      * do 2 eexists. exists []. repeat split.
        -- simpl. rewrite Hlog. rewrite app_nil_r. reflexivity.
        -- left. reflexivity.
    + run. repeat split_match; do 2 eexists; exists [];
        (repeat split;
         [simpl; rewrite Hlog; rewrite app_nil_r; reflexivity
         | left; reflexivity]).
  - do 2 eexists. exists []. repeat split.
    + simpl. rewrite app_nil_r. reflexivity.
    + left. reflexivity.
Qed.

(** Step 3 from the validated state, when the stream can be read again. *)
Lemma store_and_name_run (file : UploadFile) (n : nat) :
  fault file 2 = None ->
  put_outcome settings B file (validated n) = Ok tt ->
  ~ In (chr 47) (object_name_for B file (S n)) ->
  store_and_name settings B file (uuid4 B n) (validated n)
  = (match UUID_of_str B
             (hd [] (split (chr 46) (object_name_for B file (S n)))) with
     | Ok u => Ok (object_name_for B file (S n), Some u)
     | Raise e =>
         if is_ValueError e || is_IndexError e
         then Ok (object_name_for B file (S n), Some (uuid4 B n))
         else Raise e
     end, stored_state settings B file (validated n)).
Proof.
  intros Hf Hp Hs. unfold store_and_name. unfold bind at 1.
  rewrite (store_file_run settings B file (validated n) Hf). rewrite Hp.
  cbn [fst uuids_drawn validated].
  rewrite (basename_locator _ _ Hs).
  assert (Ht : truthy (MINIO_BUCKET_NAME settings ++ py "/"
                       ++ object_name_for B file (S n)) = true).
  { destruct (MINIO_BUCKET_NAME settings); reflexivity. }
  rewrite Ht. run.
  destruct (UUID_of_str B
              (hd [] (split (chr 46) (object_name_for B file (S n)))))
    as [u|e]; [reflexivity|].
  destruct (is_ValueError e || is_IndexError e); reflexivity.
Qed.

Lemma stored_state_log (file : UploadFile) (n : nat) :
  log (stored_state settings B file (validated n))
  = store_events settings B file n.
Proof. reflexivity. Qed.

Lemma object_name_truthy (file : UploadFile) (k : nat) :
  truthy (object_name_for B file k) = true.
Proof.
  unfold object_name_for. destruct (uuid_str B (uuid4 B k)); reflexivity.
Qed.

(** X13. A valid upload whose put succeeds is fetched back under the name
    it was stored under, and it is stored whole: the log of the request
    begins with the read and the rewind of validation, the store of as
    many bytes as the body has, and the fetch of the same object from the
    same bucket; after the events of that fetch comes at most the one
    invocation of the model. *)
Theorem upload_fetches_what_it_stored (file : UploadFile) (prompt : str)
    (description : option str) (n : nat) :
  valid_upload settings file ->
  fault file 2 = None ->
  put_outcome settings B file (validated n) = Ok tt ->
  ~ In (chr 47) (object_name_for B file (S n)) ->
  uuid_or_value_error B
    (hd [] (split (chr 46) (object_name_for B file (S n)))) ->
  exists r st' evs,
    upload_document_and_process settings B file prompt description
      (request_start n) = (Ok r, st')
    /\ log st'
       = store_events settings B file n
         ++ fetch_events settings B (object_name_for B file (S n))
         ++ evs
    /\ (evs = [] \/ exists messages, evs = [Invoke messages]).
Proof.
  intros [V [F0 [F1 Sz]]] F2 Hp Hs Hu.
  rewrite upload_steps. cbv zeta. rewrite V.
  change (uuids_drawn (request_start n)) with n.
  rewrite validate_size_start. rewrite F0, F1.
  apply N.ltb_ge in Sz. rewrite Sz.
  rewrite (store_and_name_run file n F2 Hp Hs).
  unfold uuid_or_value_error in Hu.
  destruct (UUID_of_str B
              (hd [] (split (chr 46) (object_name_for B file (S n)))))
    as [u|e].
  - destruct (extract_and_process_log (or_else (Some u) (uuid4 B n))
                (object_name_for B file (S n)) prompt
                (stored_state settings B file (validated n)))
      as [r [st' [evs [Hr [Hl [He _]]]]]].
    exists r, st', evs. rewrite object_name_truthy in Hl.
    repeat split; assumption.
  - rewrite Hu.
    destruct (extract_and_process_log (or_else (Some (uuid4 B n)) (uuid4 B n))
                (object_name_for B file (S n)) prompt
                (stored_state settings B file (validated n)))
      as [r [st' [evs [Hr [Hl [He _]]]]]].
    exists r, st', evs. rewrite object_name_truthy in Hl.
    repeat split; assumption.
Qed.

(** X14. When identifiers print without dot or slash and read back from
    their printed form, the result of a valid upload that was stored
    carries the identifier under which the object is stored, the second
    one drawn in the request, whatever the later stages do. *)
Theorem document_id_is_stored_identifier (file : UploadFile) (prompt : str)
    (description : option str) (n : nat) :
  valid_upload settings file ->
  fault file 2 = None ->
  put_outcome settings B file (validated n) = Ok tt ->
  ~ In (chr 47) (object_name_for B file (S n)) ->
  ~ In (chr 46) (uuid_str B (uuid4 B (S n))) ->
  UUID_of_str B (uuid_str B (uuid4 B (S n))) = Ok (uuid4 B (S n)) ->
  exists r st',
    upload_document_and_process settings B file prompt description
      (request_start n) = (Ok r, st')
    /\ document_id r = uuid4 B (S n).
Proof.
  intros [V [F0 [F1 Sz]]] F2 Hp Hs Hd Hu.
  rewrite upload_steps. cbv zeta. rewrite V.
  change (uuids_drawn (request_start n)) with n.
  rewrite validate_size_start. rewrite F0, F1.
  apply N.ltb_ge in Sz. rewrite Sz.
  rewrite (store_and_name_run file n F2 Hp Hs).
  unfold object_name_for at 1. rewrite (hd_split_dot _ _ Hd). rewrite Hu.
  destruct (extract_and_process_log (or_else (Some (uuid4 B (S n))) (uuid4 B n))
              (object_name_for B file (S n)) prompt
              (stored_state settings B file (validated n)))
    as [r [st' [evs [Hr [_ [_ Hid]]]]]].
  exists r, st'. split; [exact Hr | exact Hid].
Qed.

(** X15. A request invokes the model at most once, whatever the stream,
    the store, the PDF library and the model do. *)
Theorem at_most_one_invocation (file : UploadFile) (prompt : str)
    (description : option str) (n : nat) :
  exists r st',
    upload_document_and_process settings B file prompt description
      (request_start n) = (Ok r, st')
    /\ List.length (filter is_invoke (log st')) <= 1.
Proof.
  rewrite upload_steps. cbv zeta.
  destruct (valid_file_type settings file).
  - destruct (validate_size_total settings file
                (uuid4 B (uuids_drawn (request_start n)))
                (after_uuid (request_start n)))
      as [o [st1 [Hv [_ Hq]]]].
    rewrite Hv.
    assert (H1 : existsb is_invoke (log st1) = false).
    { rewrite (Hq is_invoke); reflexivity. }
    destruct o as [r|].
    + exists r, st1. split; [reflexivity|].
      rewrite (existsb_false_filter _ _ H1). simpl. lia.
    + pose proof (store_and_name_no_invoke settings B file
                    (uuid4 B (uuids_drawn (request_start n))) st1) as Hs.
      destruct (store_and_name settings B file
                  (uuid4 B (uuids_drawn (request_start n))) st1)
        as [[[object_name actual]|e] st2]; simpl in Hs.
      * destruct (extract_and_process_log
                    (or_else actual (uuid4 B (uuids_drawn (request_start n))))
                    object_name prompt st2)
          as [r [st' [evs [Hr [Hl [He _]]]]]].
        exists r, st'. split; [exact Hr|].
        rewrite Hl. rewrite !filter_app.
        rewrite (existsb_false_filter _ (log st2)) by congruence.
        assert (Hfe : filter is_invoke
                        (if truthy object_name
                         then fetch_events settings B object_name else [])
                      = []).
        { destruct (truthy object_name); [|reflexivity].
          apply existsb_false_filter. apply fetch_events_no_invoke. }
        rewrite Hfe. simpl.
        destruct He as [-> | [messages ->]]; simpl; lia.
      * do 2 eexists. split; [reflexivity|].
        rewrite (existsb_false_filter _ (log st2)) by congruence.
        simpl. lia.
  - do 2 eexists. split; [reflexivity|]. simpl. lia.
Qed.

(** X16. When the put of a valid upload fails with an error of the
    storage client, the request ends there: the result has
    [status = error] and a message that quotes the client error behind
    the prefixes of the storage service and of the handler, it carries
    the identifier that the handler drew, and nothing is fetched and no
    model invoked. *)
Theorem storage_failure_ends_request (file : UploadFile) (prompt : str)
    (description : option str) (n : nat) (e : exc) :
  valid_upload settings file ->
  fault file 2 = None ->
  put_outcome settings B file (validated n) = Raise e ->
  is_MinioException e = true ->
  exists st',
    upload_document_and_process settings B file prompt description
      (request_start n)
    = (Ok (error_result settings (uuid4 B n)
             (py "Storage Error: Storage service error: " ++ exc_str e)), st')
    /\ log st' = store_events settings B file n.
Proof.
  intros [V [F0 [F1 Sz]]] F2 Hp Hm.
  rewrite upload_steps. cbv zeta. rewrite V.
  change (uuids_drawn (request_start n)) with n.
  rewrite validate_size_start. rewrite F0, F1.
  apply N.ltb_ge in Sz. rewrite Sz.
  unfold store_and_name. unfold bind at 1.
  rewrite (store_file_run settings B file (validated n) F2).
  rewrite Hp, Hm. simpl. eexists. split; reflexivity.
Qed.

End HandlerFacts.

(* ===================================================================== *)
(** ** Further properties: bucket, health *)
(* ===================================================================== *)

(** Unfold the operations on traces. *)
Ltac trun :=
  cbv beta iota zeta delta
    [Trace.bind Trace.ret Trace.throw Trace.lift Trace.call Trace.catch
     Trace.ensure].

(** What [_ensure_bucket_exists] raises for an exception of the client. *)
Definition bucket_error (e : exc) : exc :=
  if is_S3Error e then
    HTTPException 500 (py "Storage service error: " ++ exc_str e)
  else e.

Section HealthFacts.

Variable settings : Settings.
Variable B : Backends.
Variable client : BucketClient.

(** X17. [check_health] never raises and probes the bucket once.  It
    answers [True] whenever the probe returns, also when the probe says
    that the bucket does not exist, and [False] exactly when the probe
    raises. *)
Theorem check_health_reports_reachability (tr : list BucketCall) :
  exists healthy,
    check_health settings client tr
    = (Trace.Return healthy, tr ++ [BucketExists (MINIO_BUCKET_NAME settings)])
    /\ (healthy = true <->
        exists present,
          bucket_exists client (MINIO_BUCKET_NAME settings) = Ok present).
Proof.
  unfold check_health. trun.
  destruct (bucket_exists client (MINIO_BUCKET_NAME settings)) as [present|e];
    simpl.
  - exists true. split; [reflexivity|]. split; [eauto|reflexivity].
  - exists false. split; [reflexivity|]. split; [discriminate|].
    intros [present H]. discriminate H.
Qed.

(** X18. [_ensure_bucket_exists] asks once whether the bucket exists and
    creates it exactly when the answer is no: its calls are the one
    question, followed by the one creation when the answer is no, and
    nothing else.  It returns when the bucket was there or has been
    created.  An [S3Error] of either call becomes an [HTTPException] with
    status 500 that quotes it; any other exception of the client leaves as
    it is. *)
Theorem ensure_bucket_creates_when_absent (tr : list BucketCall) :
  exists outcome,
    _ensure_bucket_exists settings client tr
    = (outcome,
       tr ++ BucketExists (MINIO_BUCKET_NAME settings)
             :: match bucket_exists client (MINIO_BUCKET_NAME settings) with
                | Ok false => [MakeBucket (MINIO_BUCKET_NAME settings)]
                | _ => []
                end)
    /\ (outcome = Trace.Return tt <->
        bucket_exists client (MINIO_BUCKET_NAME settings) = Ok true
        \/ (bucket_exists client (MINIO_BUCKET_NAME settings) = Ok false
            /\ make_bucket client (MINIO_BUCKET_NAME settings) = Ok tt))
    /\ (forall x, outcome = Trace.Throw x ->
        exists e,
          x = bucket_error e
          /\ (bucket_exists client (MINIO_BUCKET_NAME settings) = Raise e
              \/ (bucket_exists client (MINIO_BUCKET_NAME settings) = Ok false
                  /\ make_bucket client (MINIO_BUCKET_NAME settings)
                     = Raise e))).
Proof.
  unfold _ensure_bucket_exists, bucket_error. trun.
  destruct (bucket_exists client (MINIO_BUCKET_NAME settings))
    as [[|]|e]; simpl.
  - exists (Trace.Return tt).
    split; [reflexivity|]. split.
    + split; [auto | reflexivity].
    + intros x H. discriminate H.
  - destruct (make_bucket client (MINIO_BUCKET_NAME settings)) as [[]|e];
      simpl.
    + exists (Trace.Return tt).
      rewrite <- app_assoc. split; [reflexivity|]. split.
      * split; [auto | reflexivity].
      * intros x H. discriminate H.
    + exists (Trace.Throw (if is_S3Error e
                           then HTTPException 500
                                  (py "Storage service error: " ++ exc_str e)
                           else e)).
      rewrite <- app_assoc. split.
      { destruct (is_S3Error e); reflexivity. }
      split.
      * split; [discriminate | intros [H|[_ H]]; discriminate H].
      * intros x H. injection H as <-. exists e. split; auto.
  - exists (Trace.Throw (if is_S3Error e
                         then HTTPException 500
                                (py "Storage service error: " ++ exc_str e)
                         else e)).
    split.
    { destruct (is_S3Error e); reflexivity. }
    split.
    + split; [discriminate | intros [H|[H _]]; discriminate H].
    + intros x H. injection H as <-. exists e. split; auto.
Qed.

(** X19. The health endpoint never raises and probes the bucket once.
    It answers [ok] exactly when the probe returns and the AI processor
    exists, and [degraded] otherwise; it reports the storage as
    [unhealthy] exactly when the probe raises and the AI service as
    [unavailable] exactly when the processor is missing. *)
Theorem health_check_status (now : N) (tr : list BucketCall) :
  exists r,
    health_check settings B client now tr
    = (Trace.Return r, tr ++ [BucketExists (MINIO_BUCKET_NAME settings)])
    /\ (health_status r = py "ok" \/ health_status r = py "degraded")
    /\ (health_status r = py "ok" <->
        (exists present,
           bucket_exists client (MINIO_BUCKET_NAME settings) = Ok present)
        /\ ai_processor_service settings B <> None)
    /\ (In (py "storage (minio)", py "unhealthy") (dependencies r) <->
        exists e, bucket_exists client (MINIO_BUCKET_NAME settings) = Raise e)
    /\ (In (py "ai_service (gemini)", py "unavailable") (dependencies r) <->
        ai_processor_service settings B = None)
    /\ timestamp r = now.
Proof.
  unfold health_check, check_health. trun.
  destruct (bucket_exists client (MINIO_BUCKET_NAME settings)) as [present|e];
    destruct (ai_processor_service settings B) as [service|]; simpl;
    eexists; (split; [reflexivity|]); simpl.
  - split; [left; reflexivity|]. split; [|split; [|split]].
    + split; [intros _; split; [eauto|discriminate] | reflexivity].
    + split; [intros [H|[H|[]]]; discriminate H | intros [e H]; discriminate H].
    + split; [intros [H|[H|[]]]; discriminate H | discriminate].
    + reflexivity.
  - split; [right; reflexivity|]. split; [|split; [|split]].
    + split; [discriminate | intros [_ H]; congruence].
    + split; [intros [H|[H|[]]]; discriminate H | intros [e H]; discriminate H].
    + split; [reflexivity | intros _; right; left; reflexivity].
    + reflexivity.
  - split; [right; reflexivity|]. split; [|split; [|split]].
    + split; [discriminate | intros [[p H] _]; discriminate H].
    + split; [intros _; eauto | intros _; left; reflexivity].
    + split; [intros [H|[H|[]]]; discriminate H | discriminate].
    + reflexivity.
  - split; [right; reflexivity|]. split; [|split; [|split]].
    + split; [discriminate | intros [[p H] _]; discriminate H].
    + split; [intros _; eauto | intros _; left; reflexivity].
    + split; [reflexivity | intros _; right; left; reflexivity].
    + reflexivity.
Qed.

End HealthFacts.

(* ===================================================================== *)
(** ** Further properties: the ticketing service *)
(* ===================================================================== *)

(** The body and the address of the request that [create_ticket] sends,
    and the calls it makes on the client. *)
Definition ticket_payload (ticket : ClickUp.TicketCreate) : json :=
  JObj [(py "name", JStr (ClickUp.name ticket));
        (py "description", ClickUp.opt_str (ClickUp.description ticket));
        (py "priority", ClickUp.opt_int (ClickUp.priority ticket));
        (py "status", ClickUp.opt_str (ClickUp.status ticket))].

Definition ticket_url : str := ClickUp.CLICKUP_API_URL_format ClickUp.LIST_ID.

Definition request_calls (API_KEY : str) (ticket : ClickUp.TicketCreate)
  : list ClickUp.ClientCall :=
  [ClickUp.Opened;
   ClickUp.Posted ticket_url (ClickUp.HEADERS API_KEY) (ticket_payload ticket);
   ClickUp.ClosedClient].

(** The body of [response] decodes to an object that holds [task_id]
    under the key [id] and [url] under the key [url]. *)
Definition task_fields (response : ClickUp.Response) (task_id url : json)
  : Prop :=
  exists members,
    ClickUp.json_body response = Ok (JObj members)
    /\ ClickUp.dict_get (py "id") members = Some task_id
    /\ ClickUp.dict_get (py "url") members = Some url.

(** What [create_ticket] returns for a created task. *)
Definition created (task_id url : json) : json :=
  JObj [(py "message", JStr (py "Ticket created successfully"));
        (py "task_id", task_id);
        (py "url", url)].

Section TicketFacts.

Variable API_KEY : str.
Variable post :
  str -> list (str * str) -> json -> Trace.outcome ClickUp.exn ClickUp.Response.
Variable HTTPStatus_phrase : N -> option str.

Ltac tick :=
  unfold ClickUp.create_ticket, ClickUp.request_except,
    ClickUp.raise_HTTPException, ClickUp.raise_for_status, ClickUp.of_res;
  trun.

Lemma create_ticket_after_post (ticket : ClickUp.TicketCreate)
    (tr : list ClickUp.ClientCall) (response : ClickUp.Response) :
  API_KEY <> [] ->
  post ticket_url (ClickUp.HEADERS API_KEY) (ticket_payload ticket)
  = Trace.Return response ->
  ClickUp.is_success response = true ->
  ClickUp.create_ticket API_KEY post HTTPStatus_phrase ticket tr
  = (match ClickUp.json_body response with
     | Ok (JObj members) =>
         match ClickUp.dict_get (py "id") members,
               ClickUp.dict_get (py "url") members with
         | Some task_id, Some url => Trace.Return (created task_id url)
         | _, _ =>
             Trace.Throw
               (ClickUp.HTTPException 500
                  (JStr (py "Failed to process response from ClickUp.")))
         end
     | _ =>
         Trace.Throw
           (ClickUp.HTTPException 500
              (JStr (py "Failed to process response from ClickUp.")))
     end, tr ++ request_calls API_KEY ticket).
Proof.
  intros Hk Hp Hs. tick.
  destruct API_KEY as [|c key] eqn:K; [congruence|].
  cbn [truthy negb ClickUp.LIST_ID].
  change (truthy ClickUp.LIST_ID) with true. cbn [negb].
  fold ticket_url. fold (ticket_payload ticket).
  rewrite Hp. rewrite Hs.
  unfold request_calls. rewrite <- !app_assoc. cbn [app].
  destruct (ClickUp.json_body response) as [v|e]; [|reflexivity].
  destruct v as [| | | |s|items|members]; try reflexivity;
    cbn [ClickUp.py_in ClickUp.getitem].
  - destruct (ClickUp.contains (py "id") s); cbn [negb]; [|reflexivity].
    destruct (ClickUp.contains (py "url") s); reflexivity.
  - match goal with |- context [existsb ?f items] =>
      destruct (existsb f items) end; cbn [negb]; [|reflexivity].
    match goal with |- context [existsb ?f items] =>
      destruct (existsb f items) end; reflexivity.
  - destruct (ClickUp.dict_get (py "id") members) as [task_id|];
      cbn [negb]; [|destruct (ClickUp.dict_get (py "url") members); reflexivity].
    destruct (ClickUp.dict_get (py "url") members) as [url|]; reflexivity.
Qed.

(** X20. [create_ticket] returns exactly when the API key is set, the
    request came back with a response that passes [raise_for_status], and
    the body of the response decodes to an object that holds [id] and
    [url]; what it returns is the message of success with these two
    values. *)
Theorem ticket_created_iff (ticket : ClickUp.TicketCreate)
    (tr : list ClickUp.ClientCall) (v : json) :
  fst (ClickUp.create_ticket API_KEY post HTTPStatus_phrase ticket tr) = Trace.Return v <->
  API_KEY <> []
  /\ exists response task_id url,
       post ticket_url (ClickUp.HEADERS API_KEY) (ticket_payload ticket)
       = Trace.Return response
       /\ ClickUp.is_success response = true
       /\ task_fields response task_id url
       /\ v = created task_id url.
Proof.
  split.
  - destruct API_KEY as [|c key] eqn:K.
    { tick. simpl. discriminate. }
    rewrite <- K.
    assert (Hk : API_KEY <> []) by (rewrite K; discriminate).
    destruct (post ticket_url (ClickUp.HEADERS API_KEY) (ticket_payload ticket))
      as [response|x] eqn:Hp.
    + destruct (ClickUp.is_success response) eqn:Hs.
      * rewrite (create_ticket_after_post ticket tr response Hk Hp Hs).
        cbn [fst]. intros H. split; [exact Hk|].
        destruct (ClickUp.json_body response) as [[| | | | | |members]|e] eqn:J;
          try discriminate H.
        destruct (ClickUp.dict_get (py "id") members) as [task_id|] eqn:D1;
          [|discriminate H].
        destruct (ClickUp.dict_get (py "url") members) as [url|] eqn:D2;
          [|discriminate H].
        injection H as <-. exists response, task_id, url.
        repeat split; try assumption. exists members. auto.
      * tick. rewrite K. cbn [truthy negb].
        change (truthy ClickUp.LIST_ID) with true. cbn [negb].
        fold ticket_url. fold (ticket_payload ticket).
        rewrite <- K. rewrite Hp, Hs.
        destruct (ClickUp.detail_message response);
          [destruct (HTTPStatus_phrase (ClickUp.status_code response))|..];
          simpl; discriminate.
    + tick. rewrite K. cbn [truthy negb].
      change (truthy ClickUp.LIST_ID) with true. cbn [negb].
      fold ticket_url. fold (ticket_payload ticket).
      rewrite <- K. rewrite Hp.
      destruct x as [message|r|status detail|e]; simpl; try discriminate.
      destruct (ClickUp.detail_message r);
        [destruct (HTTPStatus_phrase (ClickUp.status_code r))|..];
        discriminate.
  - intros [Hk [response [task_id [url [Hp [Hs [[members [J [D1 D2]]] ->]]]]]]].
    rewrite (create_ticket_after_post ticket tr response Hk Hp Hs).
    rewrite J, D1, D2. reflexivity.
Qed.

Lemma create_ticket_error_status (ticket : ClickUp.TicketCreate)
    (tr : list ClickUp.ClientCall) (response : ClickUp.Response) :
  API_KEY <> [] ->
  post ticket_url (ClickUp.HEADERS API_KEY) (ticket_payload ticket)
  = Trace.Return response ->
  ClickUp.is_success response = false ->
  ClickUp.create_ticket API_KEY post HTTPStatus_phrase ticket tr
  = (Trace.Throw
       (match ClickUp.detail_message response with
        | JNull =>
            match HTTPStatus_phrase (ClickUp.status_code response) with
            | Some phrase =>
                ClickUp.HTTPException (ClickUp.status_code response)
                  (JStr phrase)
            | None =>
                ClickUp.OtherError
                  (ValueError (str_of_N (ClickUp.status_code response)
                               ++ py " is not a valid HTTPStatus"))
            end
        | detail =>
            ClickUp.HTTPException (ClickUp.status_code response) detail
        end),
     tr ++ request_calls API_KEY ticket).
Proof.
  intros Hk Hp Hs.
  tick. destruct API_KEY as [|c key] eqn:K; [congruence|].
  cbn [truthy negb]. change (truthy ClickUp.LIST_ID) with true. cbn [negb].
  fold ticket_url. fold (ticket_payload ticket).
  rewrite Hp, Hs. unfold request_calls.
  destruct (ClickUp.detail_message response);
    [destruct (HTTPStatus_phrase (ClickUp.status_code response))|..];
    simpl; rewrite <- !app_assoc; reflexivity.
Qed.

(** X21. A response with an error status ends [create_ticket] after the
    client is closed, with an [HTTPException] that carries the status
    code of ClickUp, save in one case.  The detail is the [err] member of
    the body when the body is an object that holds one that is not null.
    When [err] is null the detail is the reason phrase of the status, and
    for a status that has no reason phrase a [ValueError] leaves the
    function instead of an [HTTPException].  For an object without [err]
    the detail is the text of the body behind a prefix, and for a body
    that is no JSON object the text behind the status code. *)
Theorem upstream_error_detail (ticket : ClickUp.TicketCreate)
    (tr : list ClickUp.ClientCall) (response : ClickUp.Response) :
  API_KEY <> [] ->
  post ticket_url (ClickUp.HEADERS API_KEY) (ticket_payload ticket)
  = Trace.Return response ->
  ClickUp.is_success response = false ->
  exists x,
    ClickUp.create_ticket API_KEY post HTTPStatus_phrase ticket tr
    = (Trace.Throw x, tr ++ request_calls API_KEY ticket)
    /\ (forall members err,
          ClickUp.json_body response = Ok (JObj members) ->
          ClickUp.dict_get (py "err") members = Some err ->
          err <> JNull ->
          x = ClickUp.HTTPException (ClickUp.status_code response) err)
    /\ (forall members phrase,
          ClickUp.json_body response = Ok (JObj members) ->
          ClickUp.dict_get (py "err") members = Some JNull ->
          HTTPStatus_phrase (ClickUp.status_code response) = Some phrase ->
          x = ClickUp.HTTPException (ClickUp.status_code response)
                (JStr phrase))
    /\ (forall members,
          ClickUp.json_body response = Ok (JObj members) ->
          ClickUp.dict_get (py "err") members = Some JNull ->
          HTTPStatus_phrase (ClickUp.status_code response) = None ->
          x = ClickUp.OtherError
                (ValueError (str_of_N (ClickUp.status_code response)
                             ++ py " is not a valid HTTPStatus")))
    /\ (forall members,
          ClickUp.json_body response = Ok (JObj members) ->
          ClickUp.dict_get (py "err") members = None ->
          x = ClickUp.HTTPException (ClickUp.status_code response)
                (JStr (py "ClickUp API Error: " ++ ClickUp.text response)))
    /\ ((forall members, ClickUp.json_body response <> Ok (JObj members)) ->
        x = ClickUp.HTTPException (ClickUp.status_code response)
              (JStr (py "ClickUp API Error ("
                     ++ str_of_N (ClickUp.status_code response) ++ py "): "
                     ++ ClickUp.text response))).
Proof.
  intros Hk Hp Hs.
  rewrite (create_ticket_error_status ticket tr response Hk Hp Hs).
  eexists. split; [reflexivity|].
  unfold ClickUp.detail_message.
  split; [|split; [|split; [|split]]].
  - intros members err J D Hn. rewrite J, D.
    destruct err; try reflexivity. congruence.
  - intros members phrase J D P. rewrite J, D, P. reflexivity.
  - intros members J D P. rewrite J, D, P. reflexivity.
  - intros members J D. rewrite J, D. reflexivity.
  - intros H.
    destruct (ClickUp.json_body response) as [[| | | | | |members]|e];
      try reflexivity.
    exfalso. apply (H members). reflexivity.
Qed.

(** X22. A failure of the network leaves [create_ticket] as an
    [HTTPException] with status 503 whose detail quotes the failure,
    after the client is closed. *)
Theorem network_failure_is_503 (ticket : ClickUp.TicketCreate)
    (tr : list ClickUp.ClientCall) (message : str) :
  API_KEY <> [] ->
  post ticket_url (ClickUp.HEADERS API_KEY) (ticket_payload ticket)
  = Trace.Throw (ClickUp.RequestError message) ->
  ClickUp.create_ticket API_KEY post HTTPStatus_phrase ticket tr
  = (Trace.Throw
       (ClickUp.HTTPException 503
          (JStr (py "Could not connect to ClickUp API: " ++ message))),
     tr ++ request_calls API_KEY ticket).
Proof.
  intros Hk Hp. tick. destruct API_KEY as [|c key] eqn:K; [congruence|].
  cbn [truthy negb]. change (truthy ClickUp.LIST_ID) with true. cbn [negb].
  fold ticket_url. fold (ticket_payload ticket).
  rewrite Hp. unfold request_calls. rewrite <- !app_assoc. reflexivity.
Qed.

(** X23. A response with a success status whose body is no JSON, no
    object, or an object without [id] or without [url], is answered with
    status 500 and the detail of the last handler: the exception that the
    check of the fields raises is caught by the handler around it, and
    its own detail never leaves the function. *)
Theorem malformed_success_is_500 (ticket : ClickUp.TicketCreate)
    (tr : list ClickUp.ClientCall) (response : ClickUp.Response) :
  API_KEY <> [] ->
  post ticket_url (ClickUp.HEADERS API_KEY) (ticket_payload ticket)
  = Trace.Return response ->
  ClickUp.is_success response = true ->
  (forall task_id url, ~ task_fields response task_id url) ->
  ClickUp.create_ticket API_KEY post HTTPStatus_phrase ticket tr
  = (Trace.Throw
       (ClickUp.HTTPException 500
          (JStr (py "Failed to process response from ClickUp."))),
     tr ++ request_calls API_KEY ticket).
Proof.
  intros Hk Hp Hs Hn.
  rewrite (create_ticket_after_post ticket tr response Hk Hp Hs).
  destruct (ClickUp.json_body response) as [[| | | | | |members]|e] eqn:J;
    try reflexivity.
  destruct (ClickUp.dict_get (py "id") members) as [task_id|] eqn:D1;
    [|reflexivity].
  destruct (ClickUp.dict_get (py "url") members) as [url|] eqn:D2;
    [|reflexivity].
  exfalso. apply (Hn task_id url). exists members. auto.
Qed.

(** X24. Without an API key [create_ticket] fails with status 500 and
    makes no call.  With a key it opens a client, posts the ticket once
    to the task address of the list with the key as authorization, and
    closes the client, whatever the outcome.  What it raises is an
    [HTTPException]; or an exception of the request that is neither of
    the two kinds it handles, unchanged; or the [ValueError] of building
    an [HTTPException] without detail for an error status that has no
    reason phrase. *)
Theorem ticket_request_discipline (ticket : ClickUp.TicketCreate)
    (tr : list ClickUp.ClientCall) :
  (API_KEY = [] ->
   ClickUp.create_ticket API_KEY post HTTPStatus_phrase ticket tr
   = (Trace.Throw
        (ClickUp.HTTPException 500
           (JStr (py "ClickUp API Key is not configured on the server."))),
      tr))
  /\ (API_KEY <> [] ->
      snd (ClickUp.create_ticket API_KEY post HTTPStatus_phrase ticket tr)
      = tr ++ request_calls API_KEY ticket)
  /\ (forall x,
        fst (ClickUp.create_ticket API_KEY post HTTPStatus_phrase ticket tr)
        = Trace.Throw x ->
        (exists status detail, x = ClickUp.HTTPException status detail)
        \/ (exists e,
              x = ClickUp.OtherError e
              /\ post ticket_url (ClickUp.HEADERS API_KEY)
                   (ticket_payload ticket) = Trace.Throw x)
        \/ (exists response,
              (post ticket_url (ClickUp.HEADERS API_KEY)
                 (ticket_payload ticket) = Trace.Return response
               /\ ClickUp.is_success response = false
               \/ post ticket_url (ClickUp.HEADERS API_KEY)
                    (ticket_payload ticket)
                  = Trace.Throw (ClickUp.HTTPStatusError response))
              /\ ClickUp.detail_message response = JNull
              /\ HTTPStatus_phrase (ClickUp.status_code response) = None
              /\ x = ClickUp.OtherError
                       (ValueError
                          (str_of_N (ClickUp.status_code response)
                           ++ py " is not a valid HTTPStatus")))).
Proof.
  split; [|split].
  - intros ->. reflexivity.
  - intros Hk.
    destruct (post ticket_url (ClickUp.HEADERS API_KEY) (ticket_payload ticket))
      as [response|x] eqn:Hp.
    + destruct (ClickUp.is_success response) eqn:Hs.
      * rewrite (create_ticket_after_post ticket tr response Hk Hp Hs).
        reflexivity.
      * rewrite (create_ticket_error_status ticket tr response Hk Hp Hs).
        reflexivity.
    + tick. destruct API_KEY as [|c key] eqn:K; [congruence|].
      cbn [truthy negb]. change (truthy ClickUp.LIST_ID) with true.
      cbn [negb]. fold ticket_url. fold (ticket_payload ticket).
      rewrite Hp. unfold request_calls.
      destruct x as [message|r|status detail|e]; simpl;
        try (rewrite <- !app_assoc; reflexivity).
      destruct (ClickUp.detail_message r);
        [destruct (HTTPStatus_phrase (ClickUp.status_code r))|..];
        simpl; rewrite <- !app_assoc; reflexivity.
  - intros x.
    destruct API_KEY as [|c key] eqn:K.
    { tick. simpl. intros [= <-]. left. eauto. }
    rewrite <- K.
    assert (Hk : API_KEY <> []) by (rewrite K; discriminate).
    destruct (post ticket_url (ClickUp.HEADERS API_KEY) (ticket_payload ticket))
      as [response|y] eqn:Hp.
    + destruct (ClickUp.is_success response) eqn:Hs.
      * rewrite (create_ticket_after_post ticket tr response Hk Hp Hs).
        cbn [fst].
        destruct (ClickUp.json_body response) as [[| | | | | |members]|e];
          try (intros [= <-]; left; eauto).
        destruct (ClickUp.dict_get (py "id") members);
          destruct (ClickUp.dict_get (py "url") members);
          try discriminate; intros [= <-]; left; eauto.
      * rewrite (create_ticket_error_status ticket tr response Hk Hp Hs).
        cbn [fst].
        destruct (ClickUp.detail_message response) eqn:D;
          try (intros [= <-]; left; eauto; fail).
        destruct (HTTPStatus_phrase (ClickUp.status_code response)) eqn:P;
          intros [= <-]; [left; eauto|].
        right. right. exists response. repeat split; auto.
    + tick. rewrite K. cbn [truthy negb].
      change (truthy ClickUp.LIST_ID) with true. cbn [negb].
      fold ticket_url. fold (ticket_payload ticket).
      rewrite <- K. rewrite Hp.
      destruct y as [message|r|status detail|e]; simpl.
      * intros [= <-]. left. eauto.
      * destruct (ClickUp.detail_message r) eqn:D;
          try (intros [= <-]; left; eauto; fail).
        destruct (HTTPStatus_phrase (ClickUp.status_code r)) eqn:P;
          simpl; intros [= <-]; [left; eauto|].
        right. right. exists r. repeat split; auto.
      * intros [= <-]. left. eauto.
      * intros [= <-]. right. left. eauto.
Qed.

End TicketFacts.

(* ===================================================================== *)
(** ** Concrete runs of the further properties *)
(* ===================================================================== *)

(** A store that serves the bytes [pdf_data] on connection 7 and a PDF
    library that answers [opened]. *)
Definition serving (pdf_data : bytes) (opened : res PdfReader) : Backends :=
  Demo.backends (Ok tt) (Ok (mkHTTPResponse 7 (Ok pdf_data))) opened
    (Ok (Text [])).

(** A reader of an encrypted document that the empty password does not
    open. *)
Definition locked_reader : PdfReader :=
  mkPdfReader true (fun _ => Ok false) (Ok []).

(** A ticket, and answers of ClickUp to the request for it. *)
Definition login_ticket : ClickUp.TicketCreate :=
  ClickUp.mkTicketCreate (py "Fix login bug") None (Some 2%Z)
    (Some (py "To Do")).

Definition answer (response : ClickUp.Response)
  : str -> list (str * str) -> json
    -> Trace.outcome ClickUp.exn ClickUp.Response :=
  fun _ _ _ => Trace.Return response.

Definition task_created : ClickUp.Response :=
  ClickUp.mkResponse 200 (py "{...}")
    (Ok (JObj [(py "id", JStr (py "86c1"));
               (py "url", JStr (py "https://app.clickup.com/t/86c1"))]))
    true.

Definition token_invalid : ClickUp.Response :=
  ClickUp.mkResponse 401 (py "{...}")
    (Ok (JObj [(py "err", JStr (py "Token invalid"));
               (py "ECODE", JStr (py "OAUTH_025"))]))
    false.

Definition task_without_url : ClickUp.Response :=
  ClickUp.mkResponse 200 (py "{...}")
    (Ok (JObj [(py "id", JStr (py "86c1"))])) true.

Definition error_without_text : ClickUp.Response :=
  ClickUp.mkResponse 401 (py "{...}") (Ok (JObj [(py "err", JNull)])) false.

(** The reason phrases of [http.HTTPStatus] in Python 3.11. *)
Definition reason_phrases : list (N * str) :=
  [ (100%N, py "Continue");
   (101%N, py "Switching Protocols");
   (102%N, py "Processing");
   (103%N, py "Early Hints");
   (200%N, py "OK");
   (201%N, py "Created");
   (202%N, py "Accepted");
   (203%N, py "Non-Authoritative Information");
   (204%N, py "No Content");
   (205%N, py "Reset Content");
   (206%N, py "Partial Content");
   (207%N, py "Multi-Status");
   (208%N, py "Already Reported");
   (226%N, py "IM Used");
   (300%N, py "Multiple Choices");
   (301%N, py "Moved Permanently");
   (302%N, py "Found");
   (303%N, py "See Other");
   (304%N, py "Not Modified");
   (305%N, py "Use Proxy");
   (307%N, py "Temporary Redirect");
   (308%N, py "Permanent Redirect");
   (400%N, py "Bad Request");
   (401%N, py "Unauthorized");
   (402%N, py "Payment Required");
   (403%N, py "Forbidden");
   (404%N, py "Not Found");
   (405%N, py "Method Not Allowed");
   (406%N, py "Not Acceptable");
   (407%N, py "Proxy Authentication Required");
   (408%N, py "Request Timeout");
   (409%N, py "Conflict");
   (410%N, py "Gone");
   (411%N, py "Length Required");
   (412%N, py "Precondition Failed");
   (413%N, py "Request Entity Too Large");
   (414%N, py "Request-URI Too Long");
   (415%N, py "Unsupported Media Type");
   (416%N, py "Requested Range Not Satisfiable");
   (417%N, py "Expectation Failed");
   (418%N, py "I'm a Teapot");
   (421%N, py "Misdirected Request");
   (422%N, py "Unprocessable Entity");
   (423%N, py "Locked");
   (424%N, py "Failed Dependency");
   (425%N, py "Too Early");
   (426%N, py "Upgrade Required");
   (428%N, py "Precondition Required");
   (429%N, py "Too Many Requests");
   (431%N, py "Request Header Fields Too Large");
   (451%N, py "Unavailable For Legal Reasons");
   (500%N, py "Internal Server Error");
   (501%N, py "Not Implemented");
   (502%N, py "Bad Gateway");
   (503%N, py "Service Unavailable");
   (504%N, py "Gateway Timeout");
   (505%N, py "HTTP Version Not Supported");
   (506%N, py "Variant Also Negotiates");
   (507%N, py "Insufficient Storage");
   (508%N, py "Loop Detected");
   (510%N, py "Not Extended");
   (511%N, py "Network Authentication Required") ].

Definition reason_phrase (status : N) : option str :=
  match find (fun entry => (fst entry =? status)%N) reason_phrases with
  | Some entry => Some (snd entry)
  | None => None
  end.

(** X2, at a concrete input: an object between blanks. *)
Lemma clean_without_backquote_witness :
  _clean_json_string (py "  {}  ") = py "{}".
Proof.
  apply (clean_without_backquote (py "  {}  ")).
  vm_compute. intros H.
  repeat (destruct H as [H|H]; [discriminate H|]). exact H.
Defined.

(** X4, at a concrete input: the call to the model times out. *)
Lemma invocation_failure_witness :
  process_content Demo.settings (healthy [] (Ok (Text [])))
    (answering (Raise (OtherException (py "TimeoutError")
                         (py "deadline exceeded"))))
    sample_request (request_start 0)
  = (Ok (mkResponse 1%N (py "error") JNull (py "gemini-2.0-flash")
           (Some (py "Failed to get response from AI model: deadline exceeded"))),
     emit (Invoke (build_messages sample_request)) (request_start 0)).
Proof.
  apply (invocation_failure_is_reported Demo.settings
           (healthy [] (Ok (Text [])))
           (answering (Raise (OtherException (py "TimeoutError")
                                (py "deadline exceeded"))))
           sample_request (request_start 0)
           (OtherException (py "TimeoutError") (py "deadline exceeded"))).
  reflexivity.
Defined.

(** X6, at a concrete input: the store cannot be reached. *)
Lemma extract_raises_witness :
  exists e st',
    extract_text_from_pdf Demo.settings
      (Demo.backends (Ok tt)
         (Raise (MinioException (py "connection refused")))
         (Ok (Demo.plain_reader [])) (Ok (Text [])))
      (py "doc.pdf") (request_start 0) = (Raise e, st')
    /\ is_PdfNotFoundError e || is_PdfExtractionError e || is_HTTPException e
       = true.
Proof.
  exists (HTTPException 503
            (py "Storage service connection error: connection refused")),
    (emit (GetObject (py "pdfs") (py "doc.pdf")) (request_start 0)).
  assert (H : extract_text_from_pdf Demo.settings
                (Demo.backends (Ok tt)
                   (Raise (MinioException (py "connection refused")))
                   (Ok (Demo.plain_reader [])) (Ok (Text [])))
                (py "doc.pdf") (request_start 0)
              = (Raise (HTTPException 503
                          (py "Storage service connection error: connection refused")),
                 emit (GetObject (py "pdfs") (py "doc.pdf"))
                   (request_start 0))).
  { vm_compute. reflexivity. }
  split; [exact H|].
  exact (extract_raises_as_documented _ _ _ _ _ _ H).
Defined.

(** X7, at a concrete input: the store serves an object of no bytes. *)
Lemma empty_object_witness :
  exists st',
    extract_text_from_pdf Demo.settings
      (serving [] (Ok (Demo.plain_reader [Ok (py "text")])))
      (py "doc.pdf") (request_start 0)
    = (Raise (PdfExtractionError
                (py "Failed to retrieve valid data for PDF 'doc.pdf'.")),
       st').
Proof.
  apply (empty_object_is_extraction_error Demo.settings
           (serving [] (Ok (Demo.plain_reader [Ok (py "text")])))
           (py "doc.pdf") (request_start 0)).
  exists (mkHTTPResponse 7 (Ok [])). split; reflexivity.
Defined.

(** X8, at a concrete input: a document that the empty password does not
    open. *)
Lemma encrypted_document_witness :
  exists st',
    extract_text_from_pdf Demo.settings
      (serving Demo.pdf_bytes (Ok locked_reader))
      (py "doc.pdf") (request_start 0)
    = (Raise (PdfExtractionError
                (py "Unexpected error processing PDF 'doc.pdf': PDF 'doc.pdf' is encrypted and password protected.")),
       st').
Proof.
  apply (encrypted_document_is_extraction_error Demo.settings
           (serving Demo.pdf_bytes (Ok locked_reader))
           (py "doc.pdf") (request_start 0) Demo.pdf_bytes locked_reader
           (py "is encrypted and password protected.")).
  - exists (mkHTTPResponse 7 (Ok Demo.pdf_bytes)). split; reflexivity.
  - discriminate.
  - reflexivity.
  - reflexivity.
  - left. split; reflexivity.
Defined.

(** X9, at a concrete input: four bytes that are no document. *)
Lemma unreadable_document_witness :
  exists st',
    extract_text_from_pdf Demo.settings
      (serving Demo.pdf_bytes (Raise (PdfReadError (py "EOF marker not found"))))
      (py "doc.pdf") (request_start 0)
    = (Raise (PdfExtractionError
                (py "Failed to read PDF 'doc.pdf'. It might be corrupted or not a valid PDF. Error: EOF marker not found")),
       st').
Proof.
  apply (unreadable_document_is_extraction_error Demo.settings
           (serving Demo.pdf_bytes
              (Raise (PdfReadError (py "EOF marker not found"))))
           (py "doc.pdf") (request_start 0) Demo.pdf_bytes
           (PdfReadError (py "EOF marker not found"))).
  - exists (mkHTTPResponse 7 (Ok Demo.pdf_bytes)). split; reflexivity.
  - discriminate.
  - left. reflexivity.
Defined.

(** X10, at a concrete input: two pages of blanks. *)
Lemma extracted_text_witness :
  exists text st',
    extract_text_from_pdf Demo.settings
      (healthy [Ok (py "  "); Ok (py " ")] (Ok (Text [])))
      (py "doc.pdf") (request_start 0) = (Ok text, st')
    /\ (text = [] <->
        map strip (page_texts [Ok (py "  "); Ok (py " ")]) = []
        \/ map strip (page_texts [Ok (py "  "); Ok (py " ")]) = [[]]).
Proof.
  apply (extracted_text_empty_iff Demo.settings
           (healthy [Ok (py "  "); Ok (py " ")] (Ok (Text [])))
           (py "doc.pdf") (request_start 0) [Ok (py "  "); Ok (py " ")]).
  exists (mkHTTPResponse 7 (Ok Demo.pdf_bytes)), Demo.pdf_bytes,
    (Demo.plain_reader [Ok (py "  "); Ok (py " ")]).
  repeat split; try reflexivity; try discriminate. left. reflexivity.
Defined.

(** X12, at a concrete input: the invoice, stored after validation. *)
Lemma store_file_witness :
  store_file Demo.settings (healthy [] (Ok (Text []))) Demo.invoice_pdf
    (validated 0)
  = (Ok (py "pdfs/00000000-0000-0000-1234-56789abcdef1.pdf", 4%N),
     stored_state Demo.settings (healthy [] (Ok (Text []))) Demo.invoice_pdf
       (validated 0)).
Proof.
  apply (proj1 (store_file_returns_locator Demo.settings
                  (healthy [] (Ok (Text []))) Demo.invoice_pdf (validated 0)
                  eq_refl eq_refl)).
Defined.

(** X13, at a concrete input: the invoice scenario. *)
Lemma upload_fetches_witness :
  exists r st' evs,
    upload_document_and_process Demo.settings
      (healthy [Ok (py "Vendor: Acme")] (Ok (Text vendor_json)))
      Demo.invoice_pdf (py "Extract the vendor as JSON") None
      (request_start 0) = (Ok r, st')
    /\ log st'
       = [FileRead; FileSeek 0; StoreFile (Some (py "invoice.pdf")); FileRead;
          PutObject (py "pdfs") (py "00000000-0000-0000-1234-56789abcdef1.pdf")
            4 (py "application/pdf");
          GetObject (py "pdfs") (py "00000000-0000-0000-1234-56789abcdef1.pdf");
          Acquired 7; ReadBody 7; Closed 7; Released 7]
         ++ evs
    /\ (evs = [] \/ exists messages, evs = [Invoke messages]).
Proof.
  apply (upload_fetches_what_it_stored Demo.settings
           (healthy [Ok (py "Vendor: Acme")] (Ok (Text vendor_json)))
           Demo.invoice_pdf (py "Extract the vendor as JSON") None 0).
  - repeat split; vm_compute; try reflexivity. discriminate.
  - reflexivity.
  - reflexivity.
  - vm_compute. intros H.
    repeat (destruct H as [H|H]; [discriminate H|]). exact H.
  - vm_compute. exact I.
Defined.

(** X14, at a concrete input: the invoice scenario. *)
Lemma document_id_witness :
  exists r st',
    upload_document_and_process Demo.settings
      (healthy [Ok (py "Vendor: Acme")] (Ok (Text vendor_json)))
      Demo.invoice_pdf (py "Extract the vendor as JSON") None
      (request_start 0) = (Ok r, st')
    /\ document_id r = 1311768467463790321%N.
Proof.
  apply (document_id_is_stored_identifier Demo.settings
           (healthy [Ok (py "Vendor: Acme")] (Ok (Text vendor_json)))
           Demo.invoice_pdf (py "Extract the vendor as JSON") None 0).
  - repeat split; vm_compute; try reflexivity. discriminate.
  - reflexivity.
  - reflexivity.
  - vm_compute. intros H.
    repeat (destruct H as [H|H]; [discriminate H|]). exact H.
  - vm_compute. intros H.
    repeat (destruct H as [H|H]; [discriminate H|]). exact H.
  - vm_compute. reflexivity.
Defined.

(** X16, at a concrete input: the store refuses the connection. *)
Lemma storage_failure_witness :
  exists st',
    upload_document_and_process Demo.settings
      (Demo.backends (Raise (MinioException (py "connection refused")))
         (Raise (MinioException (py "connection refused")))
         (Ok (Demo.plain_reader [])) (Ok (Text [])))
      Demo.invoice_pdf (py "Summarise") None (request_start 0)
    = (Ok (mkResponse 1311768467463790320%N (py "error") JNull
             (py "gemini-2.0-flash")
             (Some (py "Storage Error: Storage service error: connection refused"))),
       st')
    /\ log st'
       = [FileRead; FileSeek 0; StoreFile (Some (py "invoice.pdf")); FileRead;
          PutObject (py "pdfs") (py "00000000-0000-0000-1234-56789abcdef1.pdf")
            4 (py "application/pdf")].
Proof.
  apply (storage_failure_ends_request Demo.settings
           (Demo.backends (Raise (MinioException (py "connection refused")))
              (Raise (MinioException (py "connection refused")))
              (Ok (Demo.plain_reader [])) (Ok (Text [])))
           Demo.invoice_pdf (py "Summarise") None 0
           (MinioException (py "connection refused"))).
  - repeat split; vm_compute; try reflexivity. discriminate.
  - reflexivity.
  - reflexivity.
  - reflexivity.
Defined.

(** X20, at a concrete input: ClickUp answers with the new task. *)
Lemma ticket_created_witness :
  fst (ClickUp.create_ticket (py "pk_1") (answer task_created) reason_phrase
         login_ticket [])
  = Trace.Return
      (JObj [(py "message", JStr (py "Ticket created successfully"));
             (py "task_id", JStr (py "86c1"));
             (py "url", JStr (py "https://app.clickup.com/t/86c1"))]).
Proof.
  apply (proj2 (ticket_created_iff (py "pk_1") (answer task_created)
                  reason_phrase login_ticket [] _)).
  split; [discriminate|].
  exists task_created, (JStr (py "86c1")),
    (JStr (py "https://app.clickup.com/t/86c1")).
  repeat split.
  eexists. repeat split.
Defined.

(** X21, at concrete inputs: ClickUp rejects the token and says so; and
    ClickUp rejects the token with a null [err]. *)
Lemma upstream_error_witness :
  (exists x,
     ClickUp.create_ticket (py "pk_1") (answer token_invalid) reason_phrase
       login_ticket []
     = (Trace.Throw x, request_calls (py "pk_1") login_ticket)
     /\ x = ClickUp.HTTPException 401 (JStr (py "Token invalid")))
  /\ (exists x,
        ClickUp.create_ticket (py "pk_1") (answer error_without_text)
          reason_phrase login_ticket []
        = (Trace.Throw x, request_calls (py "pk_1") login_ticket)
        /\ x = ClickUp.HTTPException 401 (JStr (py "Unauthorized"))).
Proof.
  split.
  - destruct (upstream_error_detail (py "pk_1") (answer token_invalid)
                reason_phrase login_ticket [] token_invalid
                ltac:(discriminate) eq_refl eq_refl)
      as [x [Hrun [Herr _]]].
    exists x. split; [exact Hrun|].
    apply (Herr _ (JStr (py "Token invalid")) eq_refl eq_refl).
    discriminate.
  - destruct (upstream_error_detail (py "pk_1") (answer error_without_text)
                reason_phrase login_ticket [] error_without_text
                ltac:(discriminate) eq_refl eq_refl)
      as [x [Hrun [_ [Hnull _]]]].
    exists x. split; [exact Hrun|].
    apply (Hnull _ (py "Unauthorized") eq_refl eq_refl eq_refl).
Defined.

(** X22, at a concrete input: the connection is refused. *)
Lemma network_failure_witness :
  ClickUp.create_ticket (py "pk_1")
    (fun _ _ _ => Trace.Throw (ClickUp.RequestError (py "connection refused")))
    reason_phrase login_ticket []
  = (Trace.Throw
       (ClickUp.HTTPException 503
          (JStr (py "Could not connect to ClickUp API: connection refused"))),
     request_calls (py "pk_1") login_ticket).
Proof.
  apply (network_failure_is_503 (py "pk_1")
           (fun _ _ _ =>
              Trace.Throw (ClickUp.RequestError (py "connection refused")))
           reason_phrase login_ticket [] (py "connection refused")).
  - discriminate.
  - reflexivity.
Defined.

(** X23, at a concrete input: the answer names the task and not its
    address. *)
Lemma malformed_success_witness :
  ClickUp.create_ticket (py "pk_1") (answer task_without_url) reason_phrase
    login_ticket []
  = (Trace.Throw
       (ClickUp.HTTPException 500
          (JStr (py "Failed to process response from ClickUp."))),
     request_calls (py "pk_1") login_ticket).
Proof.
  apply (malformed_success_is_500 (py "pk_1") (answer task_without_url)
           reason_phrase login_ticket [] task_without_url).
  - discriminate.
  - reflexivity.
  - reflexivity.
  - intros task_id url [members [J [_ D]]].
    injection J as <-. discriminate D.
Defined.
